(** * nhl-scraper: a shallow embedding of the extractors and the
      persistence layer, with the properties stated by the specification.

    Layout of the development
    - [Py]        the fragment of Python the code relies on: dynamically
                  typed values, [str] methods, [float()] / [int()] on
                  binary64 numbers, exceptions as a result type;
    - [Database]  src/storage/database.py: the six tables and the
                  [upsert_*] operations over an explicit store;
    - [NHLRoster] src/scrapers/nhl_roster.py;
    - [MoneyPuck] src/scrapers/moneypuck.py;
    - [PuckPedia] src/scrapers/puckpedia.py;
    - [Base]      the rate-limited client of src/scrapers/base.py;
    - [Models]    src/models/roster.py and src/models/contract.py;
    - [Cli]       the commands of src/cli.py that scrape and store;
    - the vocabulary of the properties: the predicates and tables the
                  statements are written with;
    - the lemmas and theorems, one block per module. *)

From Stdlib Require Import ZArith QArith Qminmax Lia Lqa Ascii String List.
From Stdlib Require Import Floats.SpecFloat.
From stdpp Require Import gmap strings list.

Set Warnings "-register-all".
Set Default Proof Using "Type".

(* ================================================================== *)
(** * Python values and built-ins                                      *)
(* ================================================================== *)

Module Py.

(** Exceptions the modelled code can meet.  All of them derive from
    [Exception]; [HTTPError] stands for any transport or status error
    raised by the HTTP client. *)
Inductive exn :=
| ValueError | TypeError | OverflowError | KeyError | AttributeError
| IndexError | HTTPError (msg : string).

Inductive result (A : Type) :=
| Ok (a : A)
| Raise (e : exn).
Arguments Ok {A} a.
Arguments Raise {A} e.

Definition bind {A B} (m : result A) (k : A -> result B) : result B :=
  match m with
  | Ok a => k a
  | Raise e => Raise e
  end.

(** [try: m except (caught): handler] *)
Definition try_except {A} (m : result A) (caught : exn -> bool)
           (handler : exn -> result A) : result A :=
  match m with
  | Ok a => Ok a
  | Raise e => if caught e then handler e else Raise e
  end.

(** binary64, the format of Python's [float] *)
Definition prec : Z := 53.
Definition emax : Z := 1024.

(** Values of type [Any].  [VDateTime] carries the instant in
    microseconds; [VDict] is a [dict] with string keys. *)
Inductive value :=
| VNone
| VBool (b : bool)
| VInt (z : Z)
| VFloat (f : spec_float)
| VStr (s : string)
| VDateTime (t : Z)
| VList (l : list value)
| VDict (d : gmap string value).

Abbreviation dict := (gmap string value).

(** [d.get(k)] and [d.get(k, dflt)] *)
Definition get (d : dict) (k : string) : value :=
  default VNone (d !! k).
Definition get_default (d : dict) (k : string) (dflt : value) : value :=
  default dflt (d !! k).

(** Truth value testing, as used by [if not x] and [x if v else y]. *)
Definition truthy (v : value) : bool :=
  match v with
  | VNone => false
  | VBool b => b
  | VInt z => negb (z =? 0)%Z
  | VFloat (S754_zero _) => false
  | VFloat _ => true
  | VStr s => negb (String.eqb s "")
  | VDateTime _ => true
  | VList l => match l with [] => false | _ => true end
  | VDict d => negb (bool_decide (d = ∅))
  end.

(** ** Characters and [str] methods (ASCII text) *)

Definition code (c : ascii) : nat := nat_of_ascii c.

Definition is_digit (c : ascii) : bool :=
  (48 <=? code c)%nat && (code c <=? 57)%nat.
Definition digit_val (c : ascii) : Z := Z.of_nat (code c) - 48.

(** [str.isspace] on the ASCII range: TAB, LF, VT, FF, CR, the four
    separators 0x1c..0x1f and the space. *)
Definition is_space (c : ascii) : bool :=
  ((9 <=? code c)%nat && (code c <=? 13)%nat)
  || ((28 <=? code c)%nat && (code c <=? 32)%nat).

Definition upper_char (c : ascii) : ascii :=
  if (97 <=? code c)%nat && (code c <=? 122)%nat
  then ascii_of_nat (code c - 32) else c.
Definition lower_char (c : ascii) : ascii :=
  if (65 <=? code c)%nat && (code c <=? 90)%nat
  then ascii_of_nat (code c + 32) else c.

Fixpoint upper (s : string) : string :=
  match s with
  | EmptyString => EmptyString
  | String c r => String (upper_char c) (upper r)
  end.
Fixpoint lower (s : string) : string :=
  match s with
  | EmptyString => EmptyString
  | String c r => String (lower_char c) (lower r)
  end.

Fixpoint lstrip (s : string) : string :=
  match s with
  | EmptyString => EmptyString
  | String c r => if is_space c then lstrip r else s
  end.
Fixpoint rstrip (s : string) : string :=
  match s with
  | EmptyString => EmptyString
  | String c r =>
      match rstrip r with
      | EmptyString => if is_space c then EmptyString else String c EmptyString
      | r' => String c r'
      end
  end.
Definition strip (s : string) : string := rstrip (lstrip s).

(** [s.replace(old, new)] for a one-character [old] *)
Fixpoint replace (old : ascii) (new : string) (s : string) : string :=
  match s with
  | EmptyString => EmptyString
  | String c r =>
      if Ascii.eqb c old then new +:+ replace old new r
      else String c (replace old new r)
  end.

Fixpoint startswith (p s : string) : bool :=
  match p, s with
  | EmptyString, _ => true
  | String a p', String b s' => Ascii.eqb a b && startswith p' s'
  | String _ _, EmptyString => false
  end.

(** [needle in s] *)
Fixpoint contains (needle s : string) : bool :=
  startswith needle s ||
  match s with
  | EmptyString => false
  | String _ r => contains needle r
  end.

(** [sep.join(parts)] *)
Fixpoint join (sep : string) (parts : list string) : string :=
  match parts with
  | [] => EmptyString
  | [p] => p
  | p :: rest => p +:+ sep +:+ join sep rest
  end.

(** ** [str(n)] for an [int] *)

Definition digit_char (d : Z) : ascii := ascii_of_nat (Z.to_nat (48 + d)).

Fixpoint digits_of (fuel : nat) (n : Z) (acc : string) : string :=
  match fuel with
  | O => acc
  | S fuel' =>
      let acc' := String (digit_char (n mod 10)) acc in
      if (n <? 10)%Z then acc' else digits_of fuel' (n / 10) acc'
  end.

Definition str_of_int (n : Z) : string :=
  if (n <? 0)%Z
  then String "-"%char (digits_of (S (Z.to_nat (Z.log2 (- n)))) (- n) EmptyString)
  else digits_of (S (Z.to_nat (Z.log2 n))) n EmptyString.

(** ** [float(s)], [int(s)] and [int(x)] *)

Local Open Scope Z_scope.

(** [digitpart ::= digit (["_"] digit)*], read after a first digit:
    the digits are accumulated into [acc], [n] counts them; the
    unread suffix is returned. *)
Fixpoint digitpart_rest (s : string) (acc : Z) (n : nat) : Z * nat * string :=
  match s with
  | String c r =>
      if is_digit c then digitpart_rest r (10 * acc + digit_val c) (S n)
      else if Ascii.eqb c "_" then
        match r with
        | String d r' =>
            if is_digit d
            then digitpart_rest r' (10 * acc + digit_val d) (S n)
            else (acc, n, s)
        | EmptyString => (acc, n, s)
        end
      else (acc, n, s)
  | EmptyString => (acc, n, s)
  end.

Definition digitpart (acc : Z) (s : string) : option (Z * nat * string) :=
  match s with
  | String c r =>
      if is_digit c then Some (digitpart_rest r (10 * acc + digit_val c) 1%nat)
      else None
  | EmptyString => None
  end.

(** optional sign: [true] for "-" *)
Definition sign_of (s : string) : bool * string :=
  match s with
  | String c r =>
      if Ascii.eqb c "-" then (true, r)
      else if Ascii.eqb c "+" then (false, r)
      else (false, s)
  | EmptyString => (false, s)
  end.

(** [number ::= [digitpart] "." digitpart | digitpart ["."]]:
    the mantissa as an integer and the number of fraction digits. *)
Definition number (s : string) : option (Z * nat * string) :=
  match digitpart 0 s with
  | Some (m, _, r) =>
      match r with
      | String c r1 =>
          if Ascii.eqb c "." then
            match digitpart m r1 with
            | Some (m', k, r2) => Some (m', k, r2)
            | None => Some (m, O, r1)
            end
          else Some (m, O, r)
      | EmptyString => Some (m, O, r)
      end
  | None =>
      match s with
      | String c r1 =>
          if Ascii.eqb c "." then digitpart 0 r1 else None
      | EmptyString => None
      end
  end.

(** [exponent ::= ("e" | "E") [sign] digitpart]; [None] when an
    exponent marker is not followed by digits. *)
Definition exponent (s : string) : option (Z * string) :=
  match s with
  | String c r =>
      if Ascii.eqb c "e" || Ascii.eqb c "E" then
        let '(neg, r1) := sign_of r in
        match digitpart 0 r1 with
        | Some (e, _, r2) => Some (if neg then - e else e, r2)
        | None => None
        end
      else Some (0, s)
  | EmptyString => Some (0, s)
  end.

(** The binary64 number nearest to [m * 10 ^ e10] (ties to even). *)
Definition float_of_decimal (neg : bool) (m e10 : Z) : spec_float :=
  if m =? 0 then S754_zero neg
  else if 0 <=? e10
  then binary_normalize prec emax ((if neg then - m else m) * 10 ^ e10) 0 false
  else SFdiv prec emax (S754_finite neg (Z.to_pos m) 0)
                       (S754_finite false (Z.to_pos (10 ^ (- e10))) 0).

(** [float(s)]: [None] stands for [ValueError]. *)
Definition float_of_string (s : string) : option spec_float :=
  let '(neg, r) := sign_of (strip s) in
  let l := lower r in
  if String.eqb l "inf" || String.eqb l "infinity" then Some (S754_infinity neg)
  else if String.eqb l "nan" then Some S754_nan
  else
    match number r with
    | Some (m, k, r1) =>
        match exponent r1 with
        | Some (e, EmptyString) => Some (float_of_decimal neg m (e - Z.of_nat k))
        | _ => None
        end
    | None => None
    end.

(** [int(s)] in base 10: [None] stands for [ValueError]. *)
Definition int_of_string (s : string) : option Z :=
  let '(neg, r) := sign_of (strip s) in
  match digitpart 0 r with
  | Some (n, _, EmptyString) => Some (if neg then - n else n)
  | _ => None
  end.

Definition float_of_int (z : Z) : result spec_float :=
  match binary_normalize prec emax z 0 false with
  | S754_infinity _ => Raise OverflowError
  | f => Ok f
  end.

(** [float(v)] *)
Definition float_ (v : value) : result spec_float :=
  match v with
  | VStr s =>
      match float_of_string s with
      | Some f => Ok f
      | None => Raise ValueError
      end
  | VInt z => float_of_int z
  | VBool b => float_of_int (if b then 1 else 0)
  | VFloat f => Ok f
  | _ => Raise TypeError
  end.

(** [int(x)] for a float [x]: truncation towards zero. *)
Definition int_of_float (f : spec_float) : result Z :=
  match f with
  | S754_zero _ => Ok 0
  | S754_infinity _ => Raise OverflowError
  | S754_nan => Raise ValueError
  | S754_finite s m e =>
      let a := if 0 <=? e then Z.pos m * 2 ^ e else Z.pos m / 2 ^ (- e) in
      Ok (if s then - a else a)
  end.

(** [x * n] for a float [x] and an int [n] *)
Definition float_mul_int (x : spec_float) (n : Z) : result spec_float :=
  bind (float_of_int n) (fun y => Ok (SFmul prec emax x y)).

(** [s[:n]] for a string *)
Fixpoint take (n : nat) (s : string) : string :=
  match n, s with
  | S n', String c r => String c (take n' r)
  | _, _ => EmptyString
  end.

(** The characters of [s] that satisfy [keep], in order: what
    [re.sub] leaves when it deletes every character outside a class. *)
Fixpoint only (keep : ascii -> bool) (s : string) : string :=
  match s with
  | EmptyString => EmptyString
  | String c r => if keep c then String c (only keep r) else only keep r
  end.

(** The double quote, for the texts that contain one *)
Definition dquote : string := String (ascii_of_nat 34) EmptyString.

End Py.

(* ================================================================== *)
(** * src/storage/database.py                                          *)
(* ================================================================== *)

Module Database.
Import Py.
Local Open Scope Z_scope.

(** ** The mapped classes

    A mapped class is given by its columns; a row object is a finite
    map from column names to values, [VNone] standing for NULL. *)

Inductive col_default :=
| NoDefault
| DefaultValue (v : value)       (* default=<constant> *)
| DefaultUtcnow                  (* default=datetime.utcnow *)
| AutoIncrement.                 (* primary_key=True, autoincrement=True *)

Record column := Column { col_name : string; col_dflt : col_default }.

Abbreviation row := (gmap string value).

Definition getattr (r : row) (c : string) : value := default VNone (r !! c).
Definition setattr (r : row) (c : string) (v : value) : row := <[c := v]> r.

Definition PlayerRecord : list column :=
  [ Column "id" NoDefault; Column "first_name" NoDefault;
    Column "last_name" NoDefault; Column "position" NoDefault;
    Column "team_abbrev" NoDefault; Column "birth_date" NoDefault;
    Column "birth_country" NoDefault; Column "draft_year" NoDefault;
    Column "draft_round" NoDefault; Column "draft_pick" NoDefault;
    Column "raw_data" NoDefault; Column "updated_at" DefaultUtcnow ].

Definition TeamRecord : list column :=
  [ Column "abbrev" NoDefault; Column "name" NoDefault;
    Column "conference" NoDefault; Column "division" NoDefault;
    Column "raw_data" NoDefault; Column "updated_at" DefaultUtcnow ].

Definition GameRecord : list column :=
  [ Column "id" NoDefault; Column "season" NoDefault;
    Column "game_date" NoDefault; Column "game_type" NoDefault;
    Column "home_team" NoDefault; Column "away_team" NoDefault;
    Column "home_score" NoDefault; Column "away_score" NoDefault;
    Column "game_state" NoDefault; Column "raw_data" NoDefault;
    Column "updated_at" DefaultUtcnow ].

Definition ContractRecord : list column :=
  [ Column "id" AutoIncrement; Column "player_id" NoDefault;
    Column "player_name" NoDefault; Column "team_abbrev" NoDefault;
    Column "season" NoDefault; Column "contract_type" NoDefault;
    Column "start_season" NoDefault; Column "end_season" NoDefault;
    Column "total_years" NoDefault; Column "total_value" NoDefault;
    Column "aav" NoDefault; Column "current_cap_hit" NoDefault;
    Column "current_salary" NoDefault; Column "expiry_status" NoDefault;
    Column "has_nmc" (DefaultValue (VBool false));
    Column "has_ntc" (DefaultValue (VBool false));
    Column "source" NoDefault; Column "raw_data" NoDefault;
    Column "updated_at" DefaultUtcnow ].

Definition AdvancedStatsRecord : list column :=
  [ Column "id" AutoIncrement; Column "player_id" NoDefault;
    Column "player_name" NoDefault; Column "team_abbrev" NoDefault;
    Column "season" NoDefault; Column "position" NoDefault;
    Column "situation" (DefaultValue (VStr "all"));
    Column "games_played" NoDefault; Column "toi_seconds" NoDefault;
    Column "corsi_for" NoDefault; Column "corsi_against" NoDefault;
    Column "corsi_pct" NoDefault; Column "corsi_rel" NoDefault;
    Column "fenwick_for" NoDefault; Column "fenwick_against" NoDefault;
    Column "fenwick_pct" NoDefault;
    Column "xg_for" NoDefault; Column "xg_against" NoDefault;
    Column "xg_pct" NoDefault; Column "goals_above_expected" NoDefault;
    Column "oz_start_pct" NoDefault;
    Column "hd_chances_for" NoDefault; Column "hd_chances_against" NoDefault;
    Column "source" NoDefault; Column "raw_data" NoDefault;
    Column "updated_at" DefaultUtcnow ].

Definition RosterRecord : list column :=
  [ Column "id" AutoIncrement; Column "team_abbrev" NoDefault;
    Column "player_id" NoDefault; Column "player_name" NoDefault;
    Column "season" NoDefault; Column "jersey_number" NoDefault;
    Column "position" NoDefault;
    Column "roster_status" (DefaultValue (VStr "active"));
    Column "raw_data" NoDefault; Column "updated_at" DefaultUtcnow ].

(** ** The store *)

Inductive entity :=
| Players | Teams | Games | Contracts | AdvancedStats | Rosters.

Definition schema (e : entity) : list column :=
  match e with
  | Players => PlayerRecord
  | Teams => TeamRecord
  | Games => GameRecord
  | Contracts => ContractRecord
  | AdvancedStats => AdvancedStatsRecord
  | Rosters => RosterRecord
  end.

(** One table per mapped class, rows in insertion order. *)
Record tables := Tables {
  players : list row;
  teams : list row;
  games : list row;
  contracts : list row;
  advanced_stats : list row;
  rosters : list row
}.

Definition empty_tables : tables := Tables [] [] [] [] [] [].

Definition table_of (e : entity) (d : tables) : list row :=
  match e with
  | Players => players d
  | Teams => teams d
  | Games => games d
  | Contracts => contracts d
  | AdvancedStats => advanced_stats d
  | Rosters => rosters d
  end.

Definition with_table (e : entity) (t : list row) (d : tables) : tables :=
  match e with
  | Players => Tables t (teams d) (games d) (contracts d) (advanced_stats d) (rosters d)
  | Teams => Tables (players d) t (games d) (contracts d) (advanced_stats d) (rosters d)
  | Games => Tables (players d) (teams d) t (contracts d) (advanced_stats d) (rosters d)
  | Contracts => Tables (players d) (teams d) (games d) t (advanced_stats d) (rosters d)
  | AdvancedStats => Tables (players d) (teams d) (games d) (contracts d) t (rosters d)
  | Rosters => Tables (players d) (teams d) (games d) (contracts d) (advanced_stats d) t
  end.

(** The database together with the number of clock readings taken so
    far: the [n]-th call of [datetime.utcnow()] returns [utc n]. *)
Record state := State { db : tables; ticks : nat }.

(** ** Queries and writes *)

(** Comparison of a stored value with a bound parameter; a [None]
    parameter is rendered as [IS NULL].  Values of one storage class
    are compared for identity. *)
Definition float_eqb (x y : spec_float) : bool :=
  match x, y with
  | S754_zero a, S754_zero b => Bool.eqb a b
  | S754_infinity a, S754_infinity b => Bool.eqb a b
  | S754_nan, S754_nan => true
  | S754_finite a m e, S754_finite b n f =>
      Bool.eqb a b && Pos.eqb m n && Z.eqb e f
  | _, _ => false
  end.

Definition sql_eq (a b : value) : bool :=
  match a, b with
  | VNone, VNone => true
  | VBool x, VBool y => Bool.eqb x y
  | VInt x, VInt y => Z.eqb x y
  | VFloat x, VFloat y => float_eqb x y
  | VStr x, VStr y => String.eqb x y
  | VDateTime x, VDateTime y => Z.eqb x y
  | _, _ => false
  end.

(** The conjunction of equalities built by [filter_by] *)
Definition matches (conds : list (string * value)) (r : row) : bool :=
  forallb (fun cv => sql_eq (getattr r (fst cv)) (snd cv)) conds.

(** [session.query(C).filter_by(...).first()]: the position and
    the contents of the first matching row. *)
Definition query_first (conds : list (string * value)) (t : list row)
  : option (nat * row) :=
  list_find (fun r => matches conds r = true) t.

(** [session.get(C, key)] for the primary-key column [pk] *)
Definition session_get (pk : string) (key : value) (t : list row)
  : option (nat * row) :=
  query_first [(pk, key)] t.

(** Keyword arguments of a constructor call *)
Fixpoint kwarg (kw : list (string * value)) (c : string) : value :=
  match kw with
  | [] => VNone
  | (k, v) :: kw' => if String.eqb k c then v else kwarg kw' c
  end.

(** Next value of an autoincrement key: one more than the largest
    key in the table. *)
Definition row_id (r : row) : Z :=
  match getattr r "id" with VInt n => n | _ => 0 end.
Definition next_id (t : list row) : Z :=
  1 + fold_right Z.max 0 (map row_id t).

Section Clock.
(** [utc n]: the value of the [n]-th reading of the clock;
    [repr_]: the text [str()] gives for a value that is neither
    a string, [None], a bool nor an int. *)
Variable utc : nat -> Z.
Variable repr_ : value -> string.

(** The value an INSERT stores in column [c]: the attribute given
    to the constructor unless it is [None], in which case the
    column default applies. *)
Definition insert_value (kw : list (string * value)) (t : list row)
           (n : nat) (c : column) : value :=
  match kwarg kw (col_name c) with
  | VNone =>
      match col_dflt c with
      | NoDefault => VNone
      | DefaultValue v => v
      | DefaultUtcnow => VDateTime (utc n)
      | AutoIncrement => VInt (next_id t)
      end
  | v => v
  end.

Definition new_row (cols : list column) (kw : list (string * value))
           (t : list row) (n : nat) : row :=
  fold_right (fun c r => setattr r (col_name c) (insert_value kw t n c))
             ∅ cols.

(** [session.add(C(...))], the row being inserted with the clock
    read once for [updated_at]. *)
Definition session_add (e : entity) (kw : list (string * value))
           (st : state) : state :=
  let t := table_of e (db st) in
  State (with_table e (t ++ [new_row (schema e) kw t (ticks st)]) (db st))
        (S (ticks st)).

(** [datetime.utcnow()] *)
Definition utcnow (st : state) : value * state :=
  (VDateTime (utc (ticks st)), State (db st) (S (ticks st))).

(** The UPDATE of the row object found at position [i]. *)
Definition flush (e : entity) (i : nat) (r : row) (st : state) : state :=
  State (with_table e (<[i := r]> (table_of e (db st))) (db st)) (ticks st).

(** [existing.c = rec.get(k, existing.c)] *)
Definition refresh (rec : dict) (c k : string) (existing : row) : row :=
  setattr existing c (get_default rec k (getattr existing c)).

(** [str(v)] *)
Definition str_ (v : value) : string :=
  match v with
  | VStr s => s
  | VNone => "None"
  | VBool true => "True"
  | VBool false => "False"
  | VInt n => str_of_int n
  | _ => repr_ v
  end.

(** ** The upsert operations

    Each loop body takes the session state and the running count
    and returns them updated; [continue] returns them unchanged.
    [json.dumps(p)] is kept as the value it encodes. *)

Definition upsert_players_body (acc : state * Z) (p : dict) : state * Z :=
  let '(st, count) := acc in
  let player_id := get p "id" in
  if negb (truthy player_id) then (st, count) else
  match session_get "id" player_id (players (db st)) with
  | Some (i, existing) =>
      let existing := refresh p "first_name" "first_name" existing in
      let existing := refresh p "last_name" "last_name" existing in
      let existing := refresh p "position" "position" existing in
      let existing := refresh p "team_abbrev" "team" existing in
      let existing := setattr existing "raw_data" (VDict p) in
      let '(now, st) := utcnow st in
      let existing := setattr existing "updated_at" now in
      (flush Players i existing st, count + 1)
  | None =>
      (session_add Players
         [ ("id", player_id);
           ("first_name", get p "first_name");
           ("last_name", get p "last_name");
           ("position", get p "position");
           ("team_abbrev", get p "team");
           ("birth_date", get p "birth_date");
           ("birth_country", get p "birth_country");
           ("draft_year", get p "draft_year");
           ("draft_round", get p "draft_round");
           ("draft_pick", get p "draft_pick");
           ("raw_data", VDict p) ] st, count + 1)
  end.

Definition upsert_players (st : state) (players : list dict) : state * Z :=
  fold_left upsert_players_body players (st, 0).

Definition upsert_teams_body (acc : state * Z) (t : dict) : state * Z :=
  let '(st, count) := acc in
  let abbrev := get t "abbreviation" in
  if negb (truthy abbrev) then (st, count) else
  match session_get "abbrev" abbrev (teams (db st)) with
  | Some (i, existing) =>
      let existing := refresh t "name" "name" existing in
      let existing := refresh t "conference" "conference" existing in
      let existing := refresh t "division" "division" existing in
      let existing := setattr existing "raw_data" (VDict t) in
      let '(now, st) := utcnow st in
      let existing := setattr existing "updated_at" now in
      (flush Teams i existing st, count + 1)
  | None =>
      (session_add Teams
         [ ("abbrev", abbrev);
           ("name", get t "name");
           ("conference", get t "conference");
           ("division", get t "division");
           ("raw_data", VDict t) ] st, count + 1)
  end.

Definition upsert_teams (st : state) (teams : list dict) : state * Z :=
  fold_left upsert_teams_body teams (st, 0).

Definition upsert_games_body (acc : state * Z) (g : dict) : state * Z :=
  let '(st, count) := acc in
  let game_id := get g "id" in
  if negb (truthy game_id) then (st, count) else
  match session_get "id" game_id (games (db st)) with
  | Some (i, existing) =>
      let existing := refresh g "home_score" "home_score" existing in
      let existing := refresh g "away_score" "away_score" existing in
      let existing := refresh g "game_state" "game_state" existing in
      let existing := setattr existing "raw_data" (VDict g) in
      let '(now, st) := utcnow st in
      let existing := setattr existing "updated_at" now in
      (flush Games i existing st, count + 1)
  | None =>
      (session_add Games
         [ ("id", game_id);
           ("season", get g "season");
           ("game_date", get g "date");
           ("game_type", VStr (str_ (get g "game_type")));
           ("home_team", get g "home_team");
           ("away_team", get g "away_team");
           ("home_score", get g "home_score");
           ("away_score", get g "away_score");
           ("game_state", get g "game_state");
           ("raw_data", VDict g) ] st, count + 1)
  end.

Definition upsert_games (st : state) (games : list dict) : state * Z :=
  fold_left upsert_games_body games (st, 0).

(** [get_stats]: the number of rows of each table *)
Definition get_stats (st : state) : list (string * Z) :=
  [ ("players", Z.of_nat (length (players (db st))));
    ("teams", Z.of_nat (length (teams (db st))));
    ("games", Z.of_nat (length (games (db st))));
    ("contracts", Z.of_nat (length (contracts (db st))));
    ("advanced_stats", Z.of_nat (length (advanced_stats (db st))));
    ("rosters", Z.of_nat (length (rosters (db st)))) ].

Definition upsert_contracts_body (acc : state * Z) (c : dict) : state * Z :=
  let '(st, count) := acc in
  let player_name := get c "player_name" in
  let team_abbrev := get c "team_abbrev" in
  if negb (truthy player_name) then (st, count) else
  match query_first [("player_name", player_name); ("team_abbrev", team_abbrev)]
                    (contracts (db st)) with
  | Some (i, existing) =>
      let existing := refresh c "current_cap_hit" "current_cap_hit" existing in
      let existing := refresh c "current_salary" "current_salary" existing in
      let existing := refresh c "aav" "aav" existing in
      let existing := refresh c "total_years" "total_years" existing in
      let existing := refresh c "expiry_status" "expiry_status" existing in
      let existing := refresh c "has_nmc" "has_nmc" existing in
      let existing := refresh c "has_ntc" "has_ntc" existing in
      let existing := setattr existing "raw_data" (VDict c) in
      let '(now, st) := utcnow st in
      let existing := setattr existing "updated_at" now in
      (flush Contracts i existing st, count + 1)
  | None =>
      (session_add Contracts
         [ ("player_id", get c "player_id");
           ("player_name", player_name);
           ("team_abbrev", team_abbrev);
           ("season", get c "season");
           ("contract_type", get c "contract_type");
           ("start_season", get c "start_season");
           ("end_season", get c "end_season");
           ("total_years", get c "total_years");
           ("total_value", get c "total_value");
           ("aav", get c "aav");
           ("current_cap_hit", get c "current_cap_hit");
           ("current_salary", get c "current_salary");
           ("expiry_status", get c "expiry_status");
           ("has_nmc", get_default c "has_nmc" (VBool false));
           ("has_ntc", get_default c "has_ntc" (VBool false));
           ("source", get c "source");
           ("raw_data", VDict c) ] st, count + 1)
  end.

Definition upsert_contracts (st : state) (contracts : list dict) : state * Z :=
  fold_left upsert_contracts_body contracts (st, 0).

Definition upsert_advanced_stats_body (acc : state * Z) (s : dict) : state * Z :=
  let '(st, count) := acc in
  let player_id := get s "player_id" in
  let season := get s "season" in
  let situation := get_default s "situation" (VStr "all") in
  if negb (truthy player_id) then (st, count) else
  match query_first [("player_id", player_id); ("season", season);
                     ("situation", situation)]
                    (advanced_stats (db st)) with
  | Some (i, existing) =>
      let existing := refresh s "player_name" "player_name" existing in
      let existing := refresh s "team_abbrev" "team_abbrev" existing in
      let existing := refresh s "position" "position" existing in
      let existing := refresh s "games_played" "games_played" existing in
      let existing := refresh s "toi_seconds" "toi_seconds" existing in
      let existing := refresh s "corsi_for" "corsi_for" existing in
      let existing := refresh s "corsi_against" "corsi_against" existing in
      let existing := refresh s "corsi_pct" "corsi_pct" existing in
      let existing := refresh s "corsi_rel" "corsi_rel" existing in
      let existing := refresh s "fenwick_for" "fenwick_for" existing in
      let existing := refresh s "fenwick_against" "fenwick_against" existing in
      let existing := refresh s "fenwick_pct" "fenwick_pct" existing in
      let existing := refresh s "xg_for" "xg_for" existing in
      let existing := refresh s "xg_against" "xg_against" existing in
      let existing := refresh s "xg_pct" "xg_pct" existing in
      let existing := refresh s "goals_above_expected" "goals_above_expected" existing in
      let existing := refresh s "oz_start_pct" "offensive_zone_start_pct" existing in
      let existing := refresh s "hd_chances_for" "high_danger_chances_for" existing in
      let existing := refresh s "hd_chances_against" "high_danger_chances_against" existing in
      let existing := setattr existing "raw_data" (VDict s) in
      let '(now, st) := utcnow st in
      let existing := setattr existing "updated_at" now in
      (flush AdvancedStats i existing st, count + 1)
  | None =>
      (session_add AdvancedStats
         [ ("player_id", player_id);
           ("player_name", get s "player_name");
           ("team_abbrev", get s "team_abbrev");
           ("season", season);
           ("position", get s "position");
           ("situation", situation);
           ("games_played", get s "games_played");
           ("toi_seconds", get s "toi_seconds");
           ("corsi_for", get s "corsi_for");
           ("corsi_against", get s "corsi_against");
           ("corsi_pct", get s "corsi_pct");
           ("corsi_rel", get s "corsi_rel");
           ("fenwick_for", get s "fenwick_for");
           ("fenwick_against", get s "fenwick_against");
           ("fenwick_pct", get s "fenwick_pct");
           ("xg_for", get s "xg_for");
           ("xg_against", get s "xg_against");
           ("xg_pct", get s "xg_pct");
           ("goals_above_expected", get s "goals_above_expected");
           ("oz_start_pct", get s "offensive_zone_start_pct");
           ("hd_chances_for", get s "high_danger_chances_for");
           ("hd_chances_against", get s "high_danger_chances_against");
           ("source", get s "source");
           ("raw_data", VDict s) ] st, count + 1)
  end.

Definition upsert_advanced_stats (st : state) (stats : list dict) : state * Z :=
  fold_left upsert_advanced_stats_body stats (st, 0).

(** A loop whose body may raise *)
Fixpoint for_each {A S : Type} (body : S -> A -> result S) (l : list A) (s : S)
  : result S :=
  match l with
  | [] => Ok s
  | x :: r => bind (body s x) (for_each body r)
  end.

(** [roster.get("forwards", []) + roster.get("defensemen", []) +
    roster.get("goalies", [])], as the sequence the inner loop
    iterates.  Three lists are concatenated; three strings are
    concatenated too and iterated character by character, each
    character then failing on [p.get]; any other combination fails
    on [+] or on the iteration. *)
Definition all_players (roster : dict) : result (list value) :=
  match get_default roster "forwards" (VList []),
        get_default roster "defensemen" (VList []),
        get_default roster "goalies" (VList []) with
  | VList f, VList d, VList g => Ok (f ++ d ++ g)
  | VStr f, VStr d, VStr g =>
      if String.eqb (f +:+ d +:+ g) "" then Ok [] else Raise AttributeError
  | _, _, _ => Raise TypeError
  end.

Definition upsert_rosters_player (team_abbrev season : value)
           (acc : state * Z) (pv : value) : result (state * Z) :=
  let '(st, count) := acc in
  match pv with
  | VDict p =>
      let player_id := get p "player_id" in
      if negb (truthy player_id) then Ok (st, count) else
      let existing :=
        query_first [("player_id", player_id); ("team_abbrev", team_abbrev);
                     ("season", season)] (rosters (db st)) in
      let player_name :=
        VStr (strip (str_ (get_default p "first_name" (VStr "")) +:+ " " +:+
                     str_ (get_default p "last_name" (VStr "")))) in
      match existing with
      | Some (i, existing) =>
          let existing := setattr existing "player_name" player_name in
          let existing := refresh p "jersey_number" "jersey_number" existing in
          let existing := refresh p "position" "position" existing in
          let existing := refresh p "roster_status" "roster_status" existing in
          let existing := setattr existing "raw_data" (VDict p) in
          let '(now, st) := utcnow st in
          let existing := setattr existing "updated_at" now in
          Ok (flush Rosters i existing st, count + 1)
      | None =>
          Ok (session_add Rosters
                [ ("team_abbrev", team_abbrev);
                  ("player_id", player_id);
                  ("player_name", player_name);
                  ("season", season);
                  ("jersey_number", get p "jersey_number");
                  ("position", get p "position");
                  ("roster_status", get_default p "roster_status" (VStr "active"));
                  ("raw_data", VDict p) ] st, count + 1)
      end
  | _ => Raise AttributeError
  end.

Definition upsert_rosters_body (acc : state * Z) (roster : dict)
  : result (state * Z) :=
  let team_abbrev := get roster "team_abbrev" in
  let season := get roster "season" in
  bind (all_players roster)
       (fun ps => for_each (upsert_rosters_player team_abbrev season) ps acc).

Definition upsert_rosters (st : state) (rosters : list dict)
  : result (state * Z) :=
  for_each upsert_rosters_body rosters (st, 0).

End Clock.
End Database.

(* ================================================================== *)
(** * The wall clock, the logger and the HTTP transport                *)
(* ================================================================== *)

Module Env.
Import Py.
Local Open Scope Z_scope.

(** [datetime.now()] *)
Record datetime := DateTime {
  year : Z; month : Z; day : Z;
  hour : Z; minute : Z; second : Z; microsecond : Z
}.

(** [str(n).zfill(w)] for a non-negative [n] *)
Fixpoint zeros (k : nat) : string :=
  match k with O => EmptyString | S k' => String "0" (zeros k') end.
Definition zfill (w : nat) (n : Z) : string :=
  let s := str_of_int n in zeros (w - String.length s) +:+ s.

(** [d.isoformat()] *)
Definition isoformat (d : datetime) : string :=
  zfill 4 (year d) +:+ "-" +:+ zfill 2 (month d) +:+ "-" +:+ zfill 2 (day d)
  +:+ "T" +:+ zfill 2 (hour d) +:+ ":" +:+ zfill 2 (minute d) +:+ ":"
  +:+ zfill 2 (second d)
  +:+ (if microsecond d =? 0 then "" else "." +:+ zfill 6 (microsecond d)).

(** What a scraper leaves behind: the requests it issued, oldest
    first, and the events it logged. *)
Inductive level := Debug | Info | Warning | Error.
Record world := World {
  requests : list string;
  log : list (level * string)
}.

Definition fresh : world := World [] [].

Definition emit (l : level) (event : string) (w : world) : world :=
  World (requests w) (log w ++ [(l, event)]).
Definition sent (url : string) (w : world) : world :=
  World (requests w ++ [url]) (log w).

End Env.

(* ================================================================== *)
(** * src/scrapers/nhl_roster.py                                       *)
(* ================================================================== *)

Module NHLRoster.
Import Py Env.
Local Open Scope Z_scope.

Definition NHL_TEAMS : list string :=
  [ "ANA"; "ARI"; "BOS"; "BUF"; "CAR"; "CBJ"; "CGY"; "CHI";
    "COL"; "DAL"; "DET"; "EDM"; "FLA"; "LAK"; "MIN"; "MTL";
    "NJD"; "NSH"; "NYI"; "NYR"; "OTT"; "PHI"; "PIT"; "SEA";
    "SJS"; "STL"; "TBL"; "TOR"; "UTA"; "VAN"; "VGK"; "WPG"; "WSH" ].

Definition get_current_season (now : datetime) : string :=
  let year := if 10 <=? month now then year now else year now - 1 in
  str_of_int year +:+ str_of_int (year + 1).

(** [data.get(k, {}).get("default", dflt)] *)
Definition get_nested (data : dict) (k : string) (dflt : value) : result value :=
  match get_default data k (VDict ∅) with
  | VDict d => Ok (get_default d "default" dflt)
  | _ => Raise AttributeError
  end.

Definition _parse_player (data : value) : result value :=
  match data with
  | VDict data =>
      bind (get_nested data "firstName" (VStr "")) (fun first_name =>
      bind (get_nested data "lastName" (VStr "")) (fun last_name =>
      bind (get_nested data "birthCity" VNone) (fun birth_city =>
      Ok (VDict (list_to_map
        [ ("player_id", get data "id");
          ("first_name", first_name);
          ("last_name", last_name);
          ("jersey_number", get data "sweaterNumber");
          ("position", get data "positionCode");
          ("shoots_catches", get data "shootsCatches");
          ("height_inches", get data "heightInInches");
          ("weight_pounds", get data "weightInPounds");
          ("birth_date", get data "birthDate");
          ("birth_city", birth_city);
          ("birth_country", get data "birthCountry");
          ("nationality", get data "nationality") ])))))
  | _ => Raise AttributeError
  end.

(** [for player_data in data.get(group, []): out.append(_parse_player(player_data))] *)
Fixpoint parse_all (l : list value) : result (list value) :=
  match l with
  | [] => Ok []
  | x :: r =>
      bind (_parse_player x) (fun p =>
      bind (parse_all r) (fun ps => Ok (p :: ps)))
  end.

Definition parse_group (data : dict) (group : string) : result (list value) :=
  match get_default data group (VList []) with
  | VList l => parse_all l
  | VStr s => if String.eqb s "" then Ok [] else Raise AttributeError
  | VDict d => if bool_decide (d = ∅) then Ok [] else Raise AttributeError
  | _ => Raise TypeError
  end.

Section Transport.
(** [get_json n path]: what the [n]-th request of the session
    returns when it asks for [path]; [now]: the wall clock. *)
Variable get_json : nat -> string -> result value.
Variable now : datetime.

Definition roster_path (team_abbrev : string) : string :=
  "/roster/" +:+ team_abbrev +:+ "/current".

Definition scrape_roster (team_abbrev : string) (season : option string)
           (w : world) : result dict * world :=
  let season := match season with
                | None => get_current_season now
                | Some s => s
                end in
  let path := roster_path team_abbrev in
  let reply := get_json (length (requests w)) path in
  let w := sent path w in
  match reply with
  | Raise e => (Raise e, w)
  | Ok (VDict data) =>
      match parse_group data "forwards" with
      | Raise e => (Raise e, w)
      | Ok forwards =>
      match parse_group data "defensemen" with
      | Raise e => (Raise e, w)
      | Ok defensemen =>
      match parse_group data "goalies" with
      | Raise e => (Raise e, w)
      | Ok goalies =>
          (Ok (list_to_map
                 [ ("team_abbrev", VStr team_abbrev);
                   ("season", VStr season);
                   ("as_of_date", VStr (isoformat now));
                   ("forwards", VList forwards);
                   ("defensemen", VList defensemen);
                   ("goalies", VList goalies) ]),
           emit Info "scraped_roster" w)
      end end end
  | Ok _ => (Raise AttributeError, w)
  end.

Definition scrape_all_rosters_body (season : string)
           (acc : list dict * world) (team : string) : list dict * world :=
  let '(rosters, w) := acc in
  match scrape_roster team (Some season) w with
  | (Ok roster, w) => (rosters ++ [roster], w)
  | (Raise e, w) => (rosters, emit Warning "roster_scrape_failed" w)
  end.

Definition scrape_all_rosters (season : option string) (w : world)
  : list dict * world :=
  let season := match season with
                | None => get_current_season now
                | Some s => s
                end in
  let '(rosters, w) :=
    fold_left (scrape_all_rosters_body season) NHL_TEAMS ([], w) in
  (rosters, emit Info "scraped_all_rosters" w).

(** *** [scrape_player_details] *)

(** [data.get(k, {}).get(sub)] *)
Definition get_in (data : dict) (k sub : string) : result value :=
  match get_default data k (VDict ∅) with
  | VDict d => Ok (get d sub)
  | _ => Raise AttributeError
  end.

(** [unhashable]: what [d[:5]] raises for a dict [d] ([TypeError]
    where a slice cannot be hashed, [KeyError] where it can). *)
Variable unhashable : exn.

(** [v[:5]] *)
Definition first_five (v : value) : result value :=
  match v with
  | VList l => Ok (VList (firstn 5 l))
  | VStr s => Ok (VStr (take 5 s))
  | VDict _ => Raise unhashable
  | _ => Raise TypeError
  end.

(** The entries of a dict display, evaluated in order *)
Fixpoint entries (l : list (string * result value))
  : result (list (string * value)) :=
  match l with
  | [] => Ok []
  | (k, r) :: rest =>
      bind r (fun v => bind (entries rest) (fun l' => Ok ((k, v) :: l')))
  end.

Definition player_path (player_id : Z) : string :=
  "/player/" +:+ str_of_int player_id +:+ "/landing".

Definition player_entries (player_id : Z) (data : dict)
  : list (string * result value) :=
  [ ("id", Ok (VInt player_id));
    ("first_name", get_nested data "firstName" VNone);
    ("last_name", get_nested data "lastName" VNone);
    ("birth_date", Ok (get data "birthDate"));
    ("birth_city", get_nested data "birthCity" VNone);
    ("birth_state", get_nested data "birthStateProvince" VNone);
    ("birth_country", Ok (get data "birthCountry"));
    ("nationality", Ok (get data "nationality"));
    ("height_inches", Ok (get data "heightInInches"));
    ("weight_pounds", Ok (get data "weightInPounds"));
    ("position", Ok (get data "position"));
    ("shoots_catches", Ok (get data "shootsCatches"));
    ("team_abbrev", Ok (get data "currentTeamAbbrev"));
    ("team_id", Ok (get data "currentTeamId"));
    ("jersey_number", Ok (get data "sweaterNumber"));
    ("is_active", Ok (get_default data "isActive" (VBool true)));
    ("in_top_100", Ok (get_default data "inTop100AllTime" (VBool false)));
    ("in_hhof", Ok (get_default data "inHHOF" (VBool false)));
    ("draft_year", get_in data "draftDetails" "year");
    ("draft_round", get_in data "draftDetails" "round");
    ("draft_pick", get_in data "draftDetails" "pickInRound");
    ("draft_overall", get_in data "draftDetails" "overallPick");
    ("draft_team", get_in data "draftDetails" "teamAbbrev");
    ("career_stats", Ok (get data "careerTotals"));
    ("season_stats", first_five (get_default data "seasonTotals" (VList [])));
    ("awards", Ok (get_default data "awards" (VList []))) ].

Definition scrape_player_details (player_id : Z) (w : world)
  : result dict * world :=
  let path := player_path player_id in
  let reply := get_json (length (requests w)) path in
  let w := sent path w in
  match reply with
  | Raise e => (Raise e, w)
  | Ok (VDict data) =>
      match entries (player_entries player_id data) with
      | Ok player => (Ok (list_to_map player), emit Debug "scraped_player_details" w)
      | Raise e => (Raise e, w)
      end
  | Ok _ => (Raise AttributeError, w)
  end.

(** *** [scrape_all_skater_stats] and [scrape_all_goalie_stats] *)

(** [client_get n url params]: the JSON document the [n]-th request
    of the session yields for [url] with the query [params], or the
    exception raised by the request, by [raise_for_status] or by
    [json]. *)
Variable client_get : nat -> string -> dict -> result value.

Definition skater_summary_url : string :=
  "https://api.nhle.com/stats/rest/en/skater/summary".
Definition goalie_summary_url : string :=
  "https://api.nhle.com/stats/rest/en/goalie/summary".

Definition limit : Z := 100.

(** The [sort] parameter: a JSON text *)
Definition sort_by (property : string) : string :=
  "[{" +:+ dquote +:+ "property" +:+ dquote +:+ ":" +:+ dquote +:+ property
  +:+ dquote +:+ "," +:+ dquote +:+ "direction" +:+ dquote +:+ ":" +:+ dquote
  +:+ "DESC" +:+ dquote +:+ "}]".

Definition summary_params (property season : string) (start : Z) : dict :=
  list_to_map
    [ ("isAggregate", VStr "false");
      ("isGame", VStr "false");
      ("sort", VStr (sort_by property));
      ("start", VInt start);
      ("limit", VInt limit);
      ("cayenneExp", VStr ("seasonId=" +:+ season +:+ " and gameTypeId=2")) ].

Definition skater_record (season : string) (p : dict) : dict :=
  list_to_map
    [ ("player_id", get p "playerId");
      ("player_name", get p "skaterFullName");
      ("team_abbrev", get p "teamAbbrevs");
      ("position", get p "positionCode");
      ("season", VStr season);
      ("games_played", get_default p "gamesPlayed" (VInt 0));
      ("goals", get_default p "goals" (VInt 0));
      ("assists", get_default p "assists" (VInt 0));
      ("points", get_default p "points" (VInt 0));
      ("plus_minus", get_default p "plusMinus" (VInt 0));
      ("pim", get_default p "penaltyMinutes" (VInt 0));
      ("ppg", get_default p "ppGoals" (VInt 0));
      ("ppp", get_default p "ppPoints" (VInt 0));
      ("shg", get_default p "shGoals" (VInt 0));
      ("shp", get_default p "shPoints" (VInt 0));
      ("gwg", get_default p "gameWinningGoals" (VInt 0));
      ("otg", get_default p "otGoals" (VInt 0));
      ("shots", get_default p "shots" (VInt 0));
      ("shot_pct", get p "shootingPct");
      ("toi_per_game", get p "timeOnIcePerGame");
      ("faceoff_pct", get p "faceoffWinPct") ].

Definition goalie_record (season : string) (g : dict) : dict :=
  list_to_map
    [ ("player_id", get g "playerId");
      ("player_name", get g "goalieFullName");
      ("team_abbrev", get g "teamAbbrevs");
      ("season", VStr season);
      ("games_played", get_default g "gamesPlayed" (VInt 0));
      ("games_started", get_default g "gamesStarted" (VInt 0));
      ("wins", get_default g "wins" (VInt 0));
      ("losses", get_default g "losses" (VInt 0));
      ("ot_losses", get_default g "otLosses" (VInt 0));
      ("shutouts", get_default g "shutouts" (VInt 0));
      ("shots_against", get_default g "shotsAgainst" (VInt 0));
      ("goals_against", get_default g "goalsAgainst" (VInt 0));
      ("saves", get_default g "saves" (VInt 0));
      ("save_pct", get g "savePct");
      ("gaa", get g "goalsAgainstAverage");
      ("toi_seconds", get g "timeOnIce") ].

(** [for p in batch: players.append(record(p))] for a list [batch];
    an element without [get] raises. *)
Fixpoint append_records (record : dict -> dict) (batch : list value)
         (players : list dict) : result (list dict) :=
  match batch with
  | [] => Ok players
  | VDict p :: rest => append_records record rest (players ++ [record p])
  | _ :: _ => Raise AttributeError
  end.

(** The [while True] loop the two operations share, [fuel] bounding
    the number of its iterations: [None] when they are used up. *)
Fixpoint summary_pages (fuel : nat) (url property season : string)
         (record : dict -> dict) (start : Z) (players : list dict) (w : world)
  : option (result (list dict) * world) :=
  match fuel with
  | O => None
  | S fuel' =>
      let reply :=
        client_get (length (requests w)) url (summary_params property season start) in
      let w := sent url w in
      match reply with
      | Raise e => Some (Raise e, w)
      | Ok (VDict data) =>
          let batch := get_default data "data" (VList []) in
          if negb (truthy batch) then Some (Ok players, w)
          else
            match batch with
            | VList l =>
                match append_records record l players with
                | Raise e => Some (Raise e, w)
                | Ok players =>
                    if Z.of_nat (length l) <? limit then Some (Ok players, w)
                    else summary_pages fuel' url property season record
                                       (start + limit) players w
                end
            | VStr _ | VDict _ => Some (Raise AttributeError, w)
            | _ => Some (Raise TypeError, w)
            end
      | Ok _ => Some (Raise AttributeError, w)
      end
  end.

Definition scrape_all_skater_stats (fuel : nat) (season : option string)
           (w : world) : option (result (list dict) * world) :=
  let season := match season with
                | None => get_current_season now
                | Some s => s
                end in
  match summary_pages fuel skater_summary_url "points" season
                      (skater_record season) 0 [] w with
  | Some (Ok players, w) => Some (Ok players, emit Info "scraped_all_skaters" w)
  | other => other
  end.

Definition scrape_all_goalie_stats (fuel : nat) (season : option string)
           (w : world) : option (result (list dict) * world) :=
  let season := match season with
                | None => get_current_season now
                | Some s => s
                end in
  match summary_pages fuel goalie_summary_url "wins" season
                      (goalie_record season) 0 [] w with
  | Some (Ok goalies, w) => Some (Ok goalies, emit Info "scraped_all_goalies" w)
  | other => other
  end.

(** *** The operations every scraper has *)

Definition scrape_players (fuel : nat) (season : option string) (w : world)
  : option (result (list dict) * world) :=
  match scrape_all_skater_stats fuel season w with
  | Some (Ok skaters, w) =>
      match scrape_all_goalie_stats fuel season w with
      | Some (Ok goalies, w) => Some (Ok (skaters ++ goalies), w)
      | other => other
      end
  | other => other
  end.

(** [[{"abbreviation": r["team_abbrev"]} for r in rosters]] *)
Fixpoint abbreviations (rosters : list dict) : result (list dict) :=
  match rosters with
  | [] => Ok []
  | r :: rest =>
      match r !! "team_abbrev" with
      | Some v =>
          bind (abbreviations rest) (fun l => Ok ({[ "abbreviation" := v ]} :: l))
      | None => Raise KeyError
      end
  end.

Definition scrape_teams (w : world) : result (list dict) * world :=
  let '(rosters, w) := scrape_all_rosters None w in
  (abbreviations rosters, w).

Definition scrape_games (season : option string) (team_id : option Z)
  : list dict := [].

End Transport.
End NHLRoster.

(* ================================================================== *)
(** * src/scrapers/moneypuck.py                                        *)
(* ================================================================== *)

Module MoneyPuck.
Import Py Env.
Local Open Scope Z_scope.

Definition get_current_season (now : datetime) : string :=
  str_of_int (if 10 <=? month now then year now else year now - 1).

Definition value_or_type_error (e : exn) : bool :=
  match e with ValueError | TypeError => true | _ => false end.
Definition value_or_key_error (e : exn) : bool :=
  match e with ValueError | KeyError => true | _ => false end.

(** The two coercions local to the row parsers (they are defined
    identically in [_parse_skater_row] and [_parse_goalie_row]). *)
Definition safe_int (val : value) (default : Z) : result Z :=
  try_except
    (if truthy val
     then bind (float_ val) int_of_float
     else Ok default)
    value_or_type_error (fun _ => Ok default).

Definition safe_float (val : value) (default : option spec_float)
  : result (option spec_float) :=
  try_except
    (if truthy val
     then bind (float_ val) (fun f => Ok (Some f))
     else Ok default)
    value_or_type_error (fun _ => Ok default).

Definition of_int (r : result Z) : result value :=
  bind r (fun n => Ok (VInt n)).
Definition of_float (r : result (option spec_float)) : result value :=
  bind r (fun o => Ok (match o with Some f => VFloat f | None => VNone end)).

Definition zero : option spec_float := Some (S754_zero false).

(** The entries of a dict display, evaluated in order. *)
Fixpoint display (entries : list (string * result value))
  : result (list (string * value)) :=
  match entries with
  | [] => Ok []
  | (k, r) :: rest =>
      bind r (fun v => bind (display rest) (fun l => Ok ((k, v) :: l)))
  end.

(** [f"{season}{int(season)+1}"] *)
Definition double_year (season : string) : result value :=
  match int_of_string season with
  | Some y => Ok (VStr (season +:+ str_of_int (y + 1)))
  | None => Raise ValueError
  end.

Definition skater_entries (row : dict) (season : string)
  : list (string * result value) :=
  [ ("player_id", of_int (safe_int (get row "playerId") 0));
    ("player_name", Ok (get_default row "name" (VStr "")));
    ("team_abbrev", Ok (get_default row "team" (VStr "")));
    ("position", Ok (get_default row "position" (VStr "")));
    ("season", double_year season);
    ("situation", Ok (get_default row "situation" (VStr "all")));
    ("games_played", of_int (safe_int (get row "games_played") 0));
    ("toi_seconds", of_int (safe_int (get row "icetime") 0));
    ("corsi_for",
      if truthy (get row "onIce_corsiPercentage")
      then of_int (safe_int (get row "onIce_corsiPercentage") 0)
      else
        bind (safe_int (get_default row "I_F_shotAttempts" (VInt 0)) 0) (fun a =>
        bind (safe_int (get_default row "OnIce_F_shotAttempts" (VInt 0)) 0) (fun b =>
        Ok (VInt (a + b)))));
    ("corsi_against", of_int (safe_int (get row "OnIce_A_shotAttempts") 0));
    ("corsi_pct", of_float (safe_float (get row "onIce_corsiPercentage") None));
    ("corsi_rel", of_float (safe_float (get row "offIce_corsiPercentage") None));
    ("fenwick_for", of_int (safe_int (get row "OnIce_F_unblockedShotAttempts") 0));
    ("fenwick_against", of_int (safe_int (get row "OnIce_A_unblockedShotAttempts") 0));
    ("fenwick_pct", of_float (safe_float (get row "onIce_fenwickPercentage") None));
    ("xg_for", of_float (safe_float (get row "OnIce_F_xGoals") zero));
    ("xg_against", of_float (safe_float (get row "OnIce_A_xGoals") zero));
    ("xg_pct", of_float (safe_float (get row "onIce_xGoalsPercentage") None));
    ("individual_xg", of_float (safe_float (get row "I_F_xGoals") zero));
    ("goals_above_expected",
      of_float (safe_float (get row "I_F_xGoals_with_rebounds_normalized_per_game") None));
    ("scoring_chances_for", of_int (safe_int (get row "OnIce_F_scoringChances") 0));
    ("scoring_chances_against", of_int (safe_int (get row "OnIce_A_scoringChances") 0));
    ("high_danger_chances_for",
      of_int (safe_int (get row "OnIce_F_highDangerShotAttempts") 0));
    ("high_danger_chances_against",
      of_int (safe_int (get row "OnIce_A_highDangerShotAttempts") 0));
    ("high_danger_goals_for", of_int (safe_int (get row "OnIce_F_highDangerGoals") 0));
    ("high_danger_goals_against", of_int (safe_int (get row "OnIce_A_highDangerGoals") 0));
    ("offensive_zone_starts", of_int (safe_int (get row "I_F_oZoneShiftStarts") 0));
    ("defensive_zone_starts", of_int (safe_int (get row "I_F_dZoneShiftStarts") 0));
    ("neutral_zone_starts", of_int (safe_int (get row "I_F_neutralZoneShiftStarts") 0));
    ("offensive_zone_start_pct",
      of_float (safe_float (get row "offensiveZoneStartPct") None));
    ("on_ice_sh_pct", of_float (safe_float (get row "onIce_F_shootingPct") None));
    ("on_ice_sv_pct", of_float (safe_float (get row "onIce_A_savePct") None));
    ("pdo", of_float (safe_float (get row "PDO") None));
    ("shots", of_int (safe_int (get row "I_F_shotsOnGoal") 0));
    ("goals", of_int (safe_int (get row "I_F_goals") 0));
    ("primary_assists", of_int (safe_int (get row "I_F_primaryAssists") 0));
    ("secondary_assists", of_int (safe_int (get row "I_F_secondaryAssists") 0));
    ("individual_corsi_for", of_int (safe_int (get row "I_F_shotAttempts") 0));
    ("source", Ok (VStr "moneypuck")) ].

Definition _parse_skater_row (row : dict) (season : string) : result dict :=
  bind (display (skater_entries row season)) (fun l => Ok (list_to_map l)).

Definition goalie_entries (row : dict) (season : string)
           (shots_against goals_against : Z) : list (string * result value) :=
  let saves := shots_against - goals_against in
  [ ("player_id", of_int (safe_int (get row "playerId") 0));
    ("player_name", Ok (get_default row "name" (VStr "")));
    ("team_abbrev", Ok (get_default row "team" (VStr "")));
    ("season", double_year season);
    ("situation", Ok (get_default row "situation" (VStr "all")));
    ("games_played", of_int (safe_int (get row "games_played") 0));
    ("toi_seconds", of_int (safe_int (get row "icetime") 0));
    ("shots_against", Ok (VInt shots_against));
    ("goals_against", Ok (VInt goals_against));
    ("saves", Ok (VInt saves));
    ("save_pct", of_float (safe_float (get row "onGoalSavePercentage") None));
    ("xg_against", of_float (safe_float (get row "xGoals") zero));
    ("goals_saved_above_expected",
      of_float (safe_float (get row "goalsAboveExpected") None));
    ("low_danger_shots", of_int (safe_int (get row "lowDangerShotsOnGoal") 0));
    ("low_danger_goals", of_int (safe_int (get row "lowDangerGoals") 0));
    ("low_danger_save_pct",
      of_float (safe_float (get row "lowDangerSavePercentage") None));
    ("medium_danger_shots", of_int (safe_int (get row "mediumDangerShotsOnGoal") 0));
    ("medium_danger_goals", of_int (safe_int (get row "mediumDangerGoals") 0));
    ("medium_danger_save_pct",
      of_float (safe_float (get row "mediumDangerSavePercentage") None));
    ("high_danger_shots", of_int (safe_int (get row "highDangerShotsOnGoal") 0));
    ("high_danger_goals", of_int (safe_int (get row "highDangerGoals") 0));
    ("high_danger_save_pct",
      of_float (safe_float (get row "highDangerSavePercentage") None));
    ("rebounds_given", of_int (safe_int (get row "reboundsCreated") 0));
    ("rebound_goals_against", of_int (safe_int (get row "reboundGoals") 0));
    ("freeze_pct", of_float (safe_float (get row "freezePct") None));
    ("source", Ok (VStr "moneypuck")) ].

Definition _parse_goalie_row (row : dict) (season : string) : result dict :=
  bind (safe_int (get row "shotsOnGoal") 0) (fun shots_against =>
  bind (safe_int (get row "goals") 0) (fun goals_against =>
  bind (display (goalie_entries row season shots_against goals_against))
       (fun l => Ok (list_to_map l)))).

Section Transport.
(** [_fetch_csv n url]: the header-keyed rows the [n]-th request
    yields for [url], or the exception it raises. *)
Variable _fetch_csv : nat -> string -> result (list dict).
Variable now : datetime.

Definition fetch (url : string) (w : world) : result (list dict) * world :=
  (_fetch_csv (length (requests w)) url, sent url w).

(** The parsing loop shared by the two operations: a row whose
    parser raises [ValueError] or [KeyError] is logged and left
    out; any other exception leaves the loop. *)
Fixpoint parse_rows (parse : dict -> result dict) (failed : string)
         (rows : list dict) (out : list dict) (w : world)
  : result (list dict) * world :=
  match rows with
  | [] => (Ok out, w)
  | row :: rest =>
      match parse row with
      | Ok r => parse_rows parse failed rest (out ++ [r]) w
      | Raise e =>
          if value_or_key_error e
          then parse_rows parse failed rest out (emit Warning failed w)
          else (Raise e, w)
      end
  end.

(** The CSV of a season, one document per entity kind *)
Definition skaters_url (season : string) : string :=
  "/moneypuck/playerData/seasonSummary/" +:+ season +:+ "/regular/skaters.csv".
Definition goalies_url (season : string) : string :=
  "/moneypuck/playerData/seasonSummary/" +:+ season +:+ "/regular/goalies.csv".

Definition situation_is (situation : string) (r : dict) : bool :=
  match get r "situation" with
  | VStr s => String.eqb s situation
  | _ => false
  end.

Definition scrape_skater_stats (season : option string) (situation : string)
           (w : world) : result (list dict) * world :=
  let season := match season with
                | None => get_current_season now
                | Some s => s
                end in
  let csv_url := skaters_url season in
  match fetch csv_url w with
  | (Raise e, w) => (Ok [], emit Error "moneypuck_fetch_failed" w)
  | (Ok raw_data, w) =>
      let raw_data :=
        if negb (String.eqb situation "all")
        then filter (fun r => situation_is situation r = true) raw_data
        else filter (fun r => situation_is "all" r = true) raw_data in
      match parse_rows (fun row => _parse_skater_row row season)
                       "parse_skater_failed" raw_data [] w with
      | (Ok players, w) => (Ok players, emit Info "scraped_skater_stats" w)
      | (Raise e, w) => (Raise e, w)
      end
  end.

Definition scrape_goalie_stats (season : option string) (w : world)
  : result (list dict) * world :=
  let season := match season with
                | None => get_current_season now
                | Some s => s
                end in
  let csv_url := goalies_url season in
  match fetch csv_url w with
  | (Raise e, w) => (Ok [], emit Error "moneypuck_fetch_failed" w)
  | (Ok raw_data, w) =>
      let raw_data := filter (fun r => situation_is "all" r = true) raw_data in
      match parse_rows (fun row => _parse_goalie_row row season)
                       "parse_goalie_failed" raw_data [] w with
      | (Ok goalies, w) => (Ok goalies, emit Info "scraped_goalie_stats" w)
      | (Raise e, w) => (Raise e, w)
      end
  end.

(** *** The operations every scraper has *)

Definition scrape_players (season : option string) (w : world)
  : result (list dict) * world :=
  match scrape_skater_stats season "all" w with
  | (Ok skaters, w) =>
      match scrape_goalie_stats season w with
      | (Ok goalies, w) => (Ok (skaters ++ goalies), w)
      | (Raise e, w) => (Raise e, w)
      end
  | (Raise e, w) => (Raise e, w)
  end.

Definition scrape_teams : list dict := [].

Definition scrape_games (season : option string) (team_id : option Z)
  : list dict := [].

End Transport.
End MoneyPuck.

(* ================================================================== *)
(** * src/scrapers/puckpedia.py                                        *)
(* ================================================================== *)

Module PuckPedia.
Import Py Env.
Local Open Scope Z_scope.

(** Team URL slugs, in the order of the dict display *)
Definition TEAM_SLUGS : list (string * string) :=
  [ ("ANA", "anaheim-ducks"); ("BOS", "boston-bruins");
    ("BUF", "buffalo-sabres"); ("CAR", "carolina-hurricanes");
    ("CBJ", "columbus-blue-jackets"); ("CGY", "calgary-flames");
    ("CHI", "chicago-blackhawks"); ("COL", "colorado-avalanche");
    ("DAL", "dallas-stars"); ("DET", "detroit-red-wings");
    ("EDM", "edmonton-oilers"); ("FLA", "florida-panthers");
    ("LAK", "los-angeles-kings"); ("MIN", "minnesota-wild");
    ("MTL", "montreal-canadiens"); ("NJD", "new-jersey-devils");
    ("NSH", "nashville-predators"); ("NYI", "new-york-islanders");
    ("NYR", "new-york-rangers"); ("OTT", "ottawa-senators");
    ("PHI", "philadelphia-flyers"); ("PIT", "pittsburgh-penguins");
    ("SEA", "seattle-kraken"); ("SJS", "san-jose-sharks");
    ("STL", "st-louis-blues"); ("TBL", "tampa-bay-lightning");
    ("TOR", "toronto-maple-leafs"); ("UTA", "utah-hockey-club");
    ("VAN", "vancouver-canucks"); ("VGK", "vegas-golden-knights");
    ("WPG", "winnipeg-jets"); ("WSH", "washington-capitals") ].

Fixpoint slug_of (slugs : list (string * string)) (team : string) : option string :=
  match slugs with
  | [] => None
  | (k, v) :: rest => if String.eqb k team then Some v else slug_of rest team
  end.

Definition is_value_error (e : exn) : bool :=
  match e with ValueError => true | _ => false end.

(** [int(float(text) * factor)] under [except ValueError: return 0] *)
Definition scaled (text : string) (factor : Z) : result Z :=
  try_except
    (bind (float_ (VStr text)) (fun x =>
     bind (float_mul_int x factor) int_of_float))
    is_value_error (fun _ => Ok 0).

(** [text.strip().replace("$", "").replace(",", "")] *)
Definition clean (text : string) : string :=
  replace "," "" (replace "$" "" (strip text)).

Definition _parse_salary (text : string) : result Z :=
  if String.eqb text "" then Ok 0 else
  let text := clean text in
  if contains "M" (upper text) then
    scaled (replace "M" "" (upper text)) 1000000
  else if contains "K" (upper text) then
    scaled (replace "K" "" (upper text)) 1000
  else
    try_except (bind (float_ (VStr text)) int_of_float)
               is_value_error (fun _ => Ok 0).

(** A table cell as the parser sees it: [get_text(strip=True)] and,
    when the cell holds a link, the same for the first [<a>]. *)
Record cell := Cell { get_text : string; find_a : option string }.

(** [re.search(r"(\d+)\s*(?:yr|year)", s, re.I)]: group 1 of the
    leftmost match. *)
Fixpoint span_digits (s : string) : string * string :=
  match s with
  | String c r =>
      if is_digit c then let '(d, rest) := span_digits r in (String c d, rest)
      else (EmptyString, s)
  | EmptyString => (EmptyString, s)
  end.

Definition years_here (s : string) : option string :=
  let '(d, rest) := span_digits s in
  if String.eqb d "" then None
  else
    let tail := lower (lstrip rest) in
    if startswith "yr" tail || startswith "year" tail then Some d else None.

Fixpoint years_search (s : string) : option string :=
  match years_here s with
  | Some d => Some d
  | None =>
      match s with
      | String _ r => years_search r
      | EmptyString => None
      end
  end.

(** The loop over [cell_texts[1:]] *)
Definition scan_cell (acc : Z * Z * value) (text : string) : result (Z * Z * value) :=
  let '(cap_hit, salary, expiry_status) := acc in
  if contains "$" text then
    bind (_parse_salary text) (fun v =>
      if cap_hit =? 0 then Ok (v, salary, expiry_status)
      else if salary =? 0 then Ok (cap_hit, v, expiry_status)
      else Ok (cap_hit, salary, expiry_status))
  else if existsb (String.eqb (upper text)) ["UFA"; "RFA"; "10.2(C)"]
  then Ok (cap_hit, salary, VStr (upper text))
  else Ok acc.

Fixpoint scan_cells (texts : list string) (acc : Z * Z * value)
  : result (Z * Z * value) :=
  match texts with
  | [] => Ok acc
  | t :: rest => bind (scan_cell acc t) (scan_cells rest)
  end.

Definition header_words : list string := ["player"; "name"; "pos"].

Definition _parse_contract_row (now : datetime) (cells : list cell)
           (team_abbrev : string) : result (option dict) :=
  let cell_texts := map get_text cells in
  match cells, cell_texts with
  | player_cell :: _, first :: others =>
      (* Skip header rows *)
      if existsb (fun h => contains h (lower first)) header_words
      then Ok None
      else
        let player_name := match find_a player_cell with
                           | Some t => t
                           | None => first
                           end in
        if String.eqb player_name "" || (String.length player_name <? 2)%nat
        then Ok None
        else
          bind (scan_cells others (0, 0, VNone)) (fun '(cap_hit, salary, expiry_status) =>
          bind (match years_search (join " " cell_texts) with
                | Some d =>
                    match int_of_string d with
                    | Some n => Ok n
                    | None => Raise ValueError
                    end
                | None => Ok 1
                end) (fun total_years =>
          let row_text := upper (join " " cell_texts) in
          let has_nmc := contains "NMC" row_text || contains "NO-MOVE" row_text in
          let has_ntc := contains "NTC" row_text || contains "NO-TRADE" row_text in
          Ok (Some (list_to_map
            [ ("player_name", VStr player_name);
              ("team_abbrev", VStr team_abbrev);
              ("current_cap_hit", VInt cap_hit);
              ("current_salary", VInt (if salary =? 0 then cap_hit else salary));
              ("aav", VInt cap_hit);
              ("total_years", VInt total_years);
              ("expiry_status", expiry_status);
              ("has_nmc", VBool has_nmc);
              ("has_ntc", VBool has_ntc);
              ("source", VStr "puckpedia");
              ("scraped_at", VStr (isoformat now)) ]))))
  | _, _ => Raise IndexError
  end.

(** The parsed page: the tables selected by class and all tables,
    each table a list of rows, each row its [td]/[th] cells. *)
Record soup := Soup {
  cap_tables : list (list (list cell));
  all_tables : list (list (list cell))
}.

Section Transport.
(** [get_page n path]: the page the [n]-th request yields for
    [path], parsed, or the exception raised. *)
Variable get_page : nat -> string -> result soup.
Variable now : datetime.

(** The body of [for row in rows] *)
Definition scrape_row (team_abbrev : string)
           (acc : list dict * world) (cells : list cell) : list dict * world :=
  let '(contracts, w) := acc in
  if (length cells <? 3)%nat then (contracts, w)
  else
    match _parse_contract_row now cells team_abbrev with
    | Ok (Some contract) =>
        if truthy (VDict contract) && truthy (get contract "player_name")
        then (contracts ++ [contract], w)
        else (contracts, w)
    | Ok None => (contracts, w)
    | Raise e => (contracts, emit Debug "parse_row_failed" w)
    end.

Definition scrape_team_contracts (team_abbrev : string) (w : world)
  : list dict * world :=
  match slug_of TEAM_SLUGS team_abbrev with
  | None => ([], emit Warning "unknown_team" w)
  | Some slug =>
      if String.eqb slug "" then ([], emit Warning "unknown_team" w) else
      let path := "/" +:+ slug +:+ "/cap" in
      let reply := get_page (length (requests w)) path in
      let w := sent path w in
      match reply with
      | Raise e => ([], emit Error "puckpedia_fetch_failed" w)
      | Ok page =>
          let tables := match cap_tables page with
                        | [] => all_tables page
                        | ts => ts
                        end in
          let '(contracts, w) :=
            fold_left (fun acc table => fold_left (scrape_row team_abbrev) table acc)
                      tables ([], w) in
          (contracts, emit Info "scraped_team_contracts" w)
      end
  end.

Definition scrape_all_contracts (w : world) : list dict * world :=
  let '(all_contracts, w) :=
    fold_left (fun '(all_contracts, w) '(team_abbrev, _) =>
                 let '(contracts, w) := scrape_team_contracts team_abbrev w in
                 (all_contracts ++ contracts, w))
              TEAM_SLUGS ([], w) in
  (all_contracts, emit Info "scraped_all_contracts" w).

(** *** [scrape_player_contract] *)

(** The class [[a-z0-9-]] *)
Definition slug_char (c : ascii) : bool :=
  ((97 <=? code c)%nat && (code c <=? 122)%nat) || is_digit c || Ascii.eqb c "-".

(** The name of a player as the last part of the path of the page *)
Definition player_slug (player_name : string) : string :=
  only slug_char (replace "'" "" (replace " " "-" (lower player_name))).

(** [re.search(r"(\d+)", s)]: group 1 of the leftmost match *)
Fixpoint digits_search (s : string) : option string :=
  match s with
  | EmptyString => None
  | String c r => if is_digit c then Some (fst (span_digits s)) else digits_search r
  end.

(** The page of a player as the parser queries it:
    - [cap_hit_value]: the text of the node with a dollar sign that
      follows the parent of the first text matching "cap hit", when
      the three of them are found;
    - [term_text]: [get_text()] of the parent of the first text
      matching "term" or "years", when both are found;
    - [find_text p]: whether some text of the page matches [p];
    - [page_text]: [get_text()] of the whole page. *)
Record player_page := PlayerPage {
  cap_hit_value : option string;
  term_text : option string;
  find_text : string -> bool;
  page_text : string
}.

(** [get_player_page n path]: the page the [n]-th request yields for
    [path], parsed, or the exception raised. *)
Variable get_player_page : nat -> string -> result player_page.

Definition with_cap_hit (page : player_page) (contract : dict) : result dict :=
  match cap_hit_value page with
  | Some value =>
      bind (_parse_salary value) (fun n => Ok (<["current_cap_hit" := VInt n]> contract))
  | None => Ok contract
  end.

Definition with_term (page : player_page) (contract : dict) : result dict :=
  match term_text page with
  | Some text =>
      match digits_search text with
      | Some d =>
          match int_of_string d with
          | Some n => Ok (<["total_years" := VInt n]> contract)
          | None => Raise ValueError
          end
      | None => Ok contract
      end
  | None => Ok contract
  end.

(** [for status in ["UFA", "RFA"]]: the first one found *)
Definition with_expiry (page : player_page) (contract : dict) : dict :=
  if find_text page "UFA" then <["expiry_status" := VStr "UFA"]> contract
  else if find_text page "RFA" then <["expiry_status" := VStr "RFA"]> contract
  else contract.

Definition with_clauses (page : player_page) (contract : dict) : dict :=
  let page_text := upper (page_text page) in
  let contract :=
    <["has_nmc" := VBool (contains "NMC" page_text || contains "NO-MOVEMENT" page_text)]>
      contract in
  <["has_ntc" := VBool (contains "NTC" page_text || contains "NO-TRADE" page_text)]>
    contract.

Definition scrape_player_contract (player_name : string) (w : world)
  : result (option dict) * world :=
  let slug := player_slug player_name in
  let path := "/player/" +:+ slug in
  let reply := get_player_page (length (requests w)) path in
  let w := sent path w in
  match reply with
  | Raise e => (Ok None, emit Warning "player_lookup_failed" w)
  | Ok page =>
      let contract : dict :=
        list_to_map [ ("player_name", VStr player_name);
                      ("source", VStr "puckpedia");
                      ("scraped_at", VStr (isoformat now)) ] in
      (bind (with_cap_hit page contract) (fun contract =>
       bind (with_term page contract) (fun contract =>
       Ok (Some (with_clauses page (with_expiry page contract))))), w)
  end.

(** *** The operations every scraper has *)

Definition scrape_players (season : option string) (w : world)
  : list dict * world :=
  scrape_all_contracts w.

Definition scrape_teams : list dict := [].

Definition scrape_games (season : option string) (team_id : option Z)
  : list dict := [].

End Transport.
End PuckPedia.

(* ================================================================== *)
(** * src/scrapers/base.py: the rate-limited client                    *)
(* ================================================================== *)

Module Base.
Local Open Scope Q_scope.

(** Modelled from the spec: [BaseScraper.get] and its rate limiter
    (src/scrapers/base.py is not part of the sources at hand).  The
    client holds a ceiling of [requests_per_second] and the instant
    of its last request; [get] suspends the caller until one
    interval [1 / requests_per_second] has passed since that instant,
    issues the request and returns when the response has arrived.
    Time is a rational number of seconds. *)
Record client := Client {
  requests_per_second : Q;
  last_request : option Q
}.

Definition open (rate : Q) : client := Client rate None.

Definition min_interval (c : client) : Q := 1 / requests_per_second c.

(** The instant at which a request asked for at [t] is issued. *)
Definition issue_time (c : client) (t : Q) : Q :=
  match last_request c with
  | None => t
  | Some p => Qmax t (p + min_interval c)
  end.

(** [get], called at [t], the response taking [latency]: the client
    afterwards and the instant at which the call returns. *)
Definition get (c : client) (t latency : Q) : client * Q :=
  let start := issue_time c t in
  (Client (requests_per_second c) (Some start), start + latency).

(** Sequential calls: each is made [pause] after the previous one
    returned and its response takes [latency]. *)
Fixpoint calls (c : client) (t : Q) (script : list (Q * Q)) : client * Q :=
  match script with
  | [] => (c, t)
  | (pause, latency) :: rest =>
      let '(c', t') := get c (t + pause) latency in
      calls c' t' rest
  end.

(** The instant at which the first call of a script is made. *)
Definition first_call (t : Q) (script : list (Q * Q)) : Q :=
  match script with
  | [] => t
  | (pause, _) :: _ => t + pause
  end.

Definition nonneg (script : list (Q * Q)) : Prop :=
  Forall (fun pl => 0 <= fst pl /\ 0 <= snd pl) script.

End Base.

(* ================================================================== *)
(** * src/models/roster.py and src/models/contract.py                  *)
(* ================================================================== *)

Module Models.
Import Py Env.

Record date := Date { date_year : Z; date_month : Z; date_day : Z }.

Module Roster.
Local Open Scope Z_scope.

(** The values of the three [Literal] types of the module *)
Inductive position_code := C | L | R | D | G.
Inductive hand := ShootsLeft | ShootsRight.
Inductive status := Active | Injured | IR | LTIR | Minors | Suspended.

Record RosterPlayer := {
  player_id : Z;
  first_name : string;
  last_name : string;
  jersey_number : option Z;
  position : position_code;
  shoots_catches : option hand;
  height_inches : option Z;
  weight_pounds : option Z;
  birth_date : option date;
  age : option Z;
  birth_country : option string;
  nationality : option string;
  roster_status : status;
  injury_note : option string
}.

Definition full_name (self : RosterPlayer) : string :=
  first_name self +:+ " " +:+ last_name self.

Definition is_goalie (self : RosterPlayer) : bool :=
  match position self with G => true | _ => false end.

Definition is_forward (self : RosterPlayer) : bool :=
  match position self with C | L | R => true | _ => false end.

Definition is_defenseman (self : RosterPlayer) : bool :=
  match position self with D => true | _ => false end.

Record TeamRoster := {
  team_abbrev : string;
  team_name : string;
  season : string;
  as_of_date : string;
  forwards : list RosterPlayer;
  defensemen : list RosterPlayer;
  goalies : list RosterPlayer;
  cap_space : option Z;
  cap_ceiling : option Z;
  total_cap_hit : option Z
}.

Definition total_players (self : TeamRoster) : Z :=
  Z.of_nat (length (forwards self)) + Z.of_nat (length (defensemen self))
  + Z.of_nat (length (goalies self)).

Definition all_players (self : TeamRoster) : list RosterPlayer :=
  forwards self ++ defensemen self ++ goalies self.

(** [for player in self.all_players: if ...: return player] and
    [return None] after the loop *)
Definition get_player_by_id (self : TeamRoster) (id : Z) : option RosterPlayer :=
  List.find (fun player => player_id player =? id) (all_players self).

Definition get_player_by_number (self : TeamRoster) (number : Z)
  : option RosterPlayer :=
  List.find (fun player => match jersey_number player with
                           | Some n => n =? number
                           | None => false
                           end)
            (all_players self).

End Roster.

Module Contract.
Local Open Scope Z_scope.

Inductive clause_kind := NMC | NTC | M_NTC.
Inductive contract_kind := EntryLevel | Standard | Over35 | PTO | AHL | Unknown.
Inductive expiry := UFA | RFA | Group_10_2_c.

Record ContractClause := {
  clause_type : clause_kind;
  starts : option date;
  ends : option date;
  teams_protected : option Z
}.

Record ContractYear := {
  season : string;
  base_salary : Z;
  signing_bonus : Z;
  performance_bonus : Z;
  cap_hit : Z
}.

Record PlayerContract := {
  player_id : Z;
  player_name : string;
  team_abbrev : string;
  contract_type : contract_kind;
  signing_date : option date;
  start_season : string;
  end_season : string;
  total_years : Z;
  total_value : Z;
  aav : Z;
  current_cap_hit : Z;
  current_salary : Z;
  current_bonus : Z;
  expiry_status : option expiry;
  arbitration_eligible : bool;
  clauses : list ContractClause;
  years : list ContractYear;
  source : string;
  scraped_at : option string
}.

(** [years_remaining]; the clock is read twice, [now1] for the year
    and [now2] for the month. *)
Definition years_remaining (self : PlayerContract) (now1 now2 : datetime) : Z :=
  if String.eqb (end_season self) "" then 0
  else
    match int_of_string (take 4 (end_season self)) with
    | Some end_year =>
        let current_year := year now1 in
        let current_season_start :=
          if 10 <=? month now2 then current_year else current_year - 1 in
        Z.max 0 (end_year - current_season_start)
    | None => 0
    end.

Definition has_trade_protection (self : PlayerContract) : bool :=
  (0 <? Z.of_nat (length (clauses self))).

End Contract.
End Models.

(* ================================================================== *)
(** * src/cli.py: the commands that scrape and store                   *)
(* ================================================================== *)

Module Cli.
Import Py Env Database.
Local Open Scope Z_scope.

(** What a command leaves behind: the texts given to
    [console.print], the database, the trace of the scraper it opened
    last and the exception that ended it, if one did.  The exceptions
    recorded are those of the scrapers and of the Python code of the
    store; the store is the one of [Database], which takes every
    value, so an exception of the database driver is not among
    them. *)
Record outcome := Outcome {
  printed : list string;
  store : state;
  trace : world;
  failure : option exn
}.

(** [len(v)] *)
Definition len (v : value) : result Z :=
  match v with
  | VList l => Ok (Z.of_nat (length l))
  | VStr s => Ok (Z.of_nat (String.length s))
  | VDict d => Ok (Z.of_nat (size d))
  | _ => Raise TypeError
  end.

(** [len(r.get("forwards", [])) + len(r.get("defensemen", []))
    + len(r.get("goalies", []))] *)
Definition roster_total (r : dict) : result Z :=
  bind (len (get_default r "forwards" (VList []))) (fun f =>
  bind (len (get_default r "defensemen" (VList []))) (fun d =>
  bind (len (get_default r "goalies" (VList []))) (fun g =>
  Ok (f + d + g)))).

(** [sum(... for r in rosters)] *)
Fixpoint rosters_total (rosters : list dict) (acc : Z) : result Z :=
  match rosters with
  | [] => Ok acc
  | r :: rest => bind (roster_total r) (fun n => rosters_total rest (acc + n))
  end.

(** An option of the command line that is given and not empty *)
Definition given (o : option string) : option string :=
  match o with
  | Some s => if String.eqb s "" then None else Some s
  | None => None
  end.

Definition newline : string := String (ascii_of_nat 10) EmptyString.

Section Commands.
Variable utc : nat -> Z.
Variable repr_ : value -> string.
Variable get_json : nat -> string -> result value.
Variable _fetch_csv : nat -> string -> result (list dict).
Variable get_page : nat -> string -> result PuckPedia.soup.
Variable now : datetime.

Definition scrape_rosters (team season : option string) (st : state) : outcome :=
  match given team with
  | Some team =>
      let out := ["[bold]Scraping roster for " +:+ team +:+ "...[/bold]"] in
      match NHLRoster.scrape_roster get_json now team season fresh with
      | (Raise e, w) => Outcome out st w (Some e)
      | (Ok roster, w) =>
          match upsert_rosters utc repr_ st [roster] with
          | Raise e => Outcome out st w (Some e)
          | Ok (st, _) =>
              match roster_total roster with
              | Raise e => Outcome out st w (Some e)
              | Ok total =>
                  Outcome (out ++ ["[green]✓ Scraped " +:+ str_of_int total
                                   +:+ " players for " +:+ team +:+ "[/green]"])
                          st w None
              end
          end
      end
  | None =>
      let out := ["[bold]Scraping all team rosters...[/bold]"] in
      let '(rosters, w) := NHLRoster.scrape_all_rosters get_json now season fresh in
      match upsert_rosters utc repr_ st rosters with
      | Raise e => Outcome out st w (Some e)
      | Ok (st, _) =>
          match rosters_total rosters 0 with
          | Raise e => Outcome out st w (Some e)
          | Ok total =>
              Outcome (out ++ ["[green]✓ Scraped " +:+ str_of_int total
                               +:+ " players across "
                               +:+ str_of_int (Z.of_nat (length rosters))
                               +:+ " teams[/green]"])
                      st w None
          end
      end
  end.

Definition scrape_advanced (season : option string) (st : state) : outcome :=
  let out := ["[bold]Downloading MoneyPuck skater stats...[/bold]"] in
  match MoneyPuck.scrape_skater_stats _fetch_csv now season "all" fresh with
  | (Raise e, w) => Outcome out st w (Some e)
  | (Ok skaters, w) =>
      let '(st, _) := upsert_advanced_stats utc st skaters in
      let out :=
        out ++ ["  [green]✓ " +:+ str_of_int (Z.of_nat (length skaters))
                +:+ " skaters[/green]";
                "[bold]Downloading MoneyPuck goalie stats...[/bold]"] in
      match MoneyPuck.scrape_goalie_stats _fetch_csv now season w with
      | (Raise e, w) => Outcome out st w (Some e)
      | (Ok goalies, w) =>
          let '(st, _) := upsert_advanced_stats utc st goalies in
          Outcome (out ++ ["  [green]✓ " +:+ str_of_int (Z.of_nat (length goalies))
                           +:+ " goalies[/green]";
                           newline +:+ "[bold green]Advanced stats complete![/bold green]"])
                  st w None
      end
  end.

Definition scrape_contracts (team : option string) (st : state) : outcome :=
  match given team with
  | Some team =>
      let out := ["[bold]Scraping contracts for " +:+ team +:+ "...[/bold]"] in
      let '(contracts, w) := PuckPedia.scrape_team_contracts get_page now team fresh in
      let '(st, _) := upsert_contracts utc st contracts in
      Outcome (out ++ ["[green]✓ Scraped " +:+ str_of_int (Z.of_nat (length contracts))
                       +:+ " contracts[/green]"])
              st w None
  | None =>
      let out :=
        ["[bold]Scraping all team contracts...[/bold]";
         "[dim](This may take a while to be respectful to PuckPedia's servers)[/dim]"] in
      let '(contracts, w) := PuckPedia.scrape_all_contracts get_page now fresh in
      let '(st, _) := upsert_contracts utc st contracts in
      Outcome (out ++ ["[green]✓ Scraped " +:+ str_of_int (Z.of_nat (length contracts))
                       +:+ " contracts[/green]"])
              st w None
  end.

End Commands.
End Cli.

(* ================================================================== *)
(** * Vocabulary of the properties                                     *)
(* ================================================================== *)

Import Py Env.

(** ** Season identifiers *)

Section SeasonWords.
Local Open Scope Z_scope.

Definition all_digits (s : string) : bool :=
  forallb is_digit (list_ascii_of_string s).

Definition four_digit_year (y : Z) : bool :=
  (String.length (str_of_int y) =? 4)%nat && all_digits (str_of_int y).

(** An identifier made of [n] decimal digits *)
Definition digit_string (n : nat) (s : string) : Prop :=
  String.length s = n /\ all_digits s = true.

(** The season an operation works on *)
Definition resolved (now : datetime) (season : option string) : string :=
  match season with
  | None => MoneyPuck.get_current_season now
  | Some s => s
  end.

End SeasonWords.

(** ** The pace of the client *)

Section PaceWords.
Local Open Scope Q_scope.

Definition count (script : list (Q * Q)) : Q :=
  inject_Z (Z.of_nat (length script)).

End PaceWords.

(** ** Contract rows and dollar amounts *)

Section ContractWords.
Import PuckPedia.
Local Open Scope Z_scope.

(** The first cell reads like a column heading: its text contains one
    of the heading words, letter case aside. *)
Definition header_like (c : cell) : Prop :=
  exists h, In h header_words /\ contains h (lower (get_text c)) = true.

(** The text handed to [float()]: the cleaned text, in upper case and
    without its "M" (or "K") when it has one. *)
Definition numeric_part (text : string) : string :=
  let t := clean text in
  if contains "M" (upper t) then replace "M" "" (upper t)
  else if contains "K" (upper t) then replace "K" "" (upper t)
  else t.

End ContractWords.

(** ** CSV cells *)

Section CellWords.
Import MoneyPuck.
Local Open Scope Z_scope.

(** A cell whose text [float()] rejects *)
Definition non_numeric (v : value) : Prop :=
  exists s, v = VStr s /\ float_of_string s = None.

(** A cell that is empty, missing or not a number *)
Definition junk (v : value) : Prop := v = VNone \/ non_numeric v.

(** Integer fields read from one column: (field, column) *)
Definition skater_int_fields : list (string * string) :=
  [ ("player_id", "playerId"); ("games_played", "games_played");
    ("toi_seconds", "icetime"); ("corsi_against", "OnIce_A_shotAttempts");
    ("fenwick_for", "OnIce_F_unblockedShotAttempts");
    ("fenwick_against", "OnIce_A_unblockedShotAttempts");
    ("scoring_chances_for", "OnIce_F_scoringChances");
    ("scoring_chances_against", "OnIce_A_scoringChances");
    ("high_danger_chances_for", "OnIce_F_highDangerShotAttempts");
    ("high_danger_chances_against", "OnIce_A_highDangerShotAttempts");
    ("high_danger_goals_for", "OnIce_F_highDangerGoals");
    ("high_danger_goals_against", "OnIce_A_highDangerGoals");
    ("offensive_zone_starts", "I_F_oZoneShiftStarts");
    ("defensive_zone_starts", "I_F_dZoneShiftStarts");
    ("neutral_zone_starts", "I_F_neutralZoneShiftStarts");
    ("shots", "I_F_shotsOnGoal"); ("goals", "I_F_goals");
    ("primary_assists", "I_F_primaryAssists");
    ("secondary_assists", "I_F_secondaryAssists");
    ("individual_corsi_for", "I_F_shotAttempts") ].

(** Float fields whose default is [None] *)
Definition skater_null_float_fields : list (string * string) :=
  [ ("corsi_pct", "onIce_corsiPercentage");
    ("corsi_rel", "offIce_corsiPercentage");
    ("fenwick_pct", "onIce_fenwickPercentage");
    ("xg_pct", "onIce_xGoalsPercentage");
    ("goals_above_expected", "I_F_xGoals_with_rebounds_normalized_per_game");
    ("offensive_zone_start_pct", "offensiveZoneStartPct");
    ("on_ice_sh_pct", "onIce_F_shootingPct");
    ("on_ice_sv_pct", "onIce_A_savePct");
    ("pdo", "PDO") ].

(** Float fields whose default is [0.0] *)
Definition skater_zero_float_fields : list (string * string) :=
  [ ("xg_for", "OnIce_F_xGoals"); ("xg_against", "OnIce_A_xGoals");
    ("individual_xg", "I_F_xGoals") ].

Definition goalie_int_fields : list (string * string) :=
  [ ("player_id", "playerId"); ("games_played", "games_played");
    ("toi_seconds", "icetime");
    ("low_danger_shots", "lowDangerShotsOnGoal");
    ("low_danger_goals", "lowDangerGoals");
    ("medium_danger_shots", "mediumDangerShotsOnGoal");
    ("medium_danger_goals", "mediumDangerGoals");
    ("high_danger_shots", "highDangerShotsOnGoal");
    ("high_danger_goals", "highDangerGoals");
    ("rebounds_given", "reboundsCreated");
    ("rebound_goals_against", "reboundGoals") ].

Definition goalie_null_float_fields : list (string * string) :=
  [ ("save_pct", "onGoalSavePercentage");
    ("goals_saved_above_expected", "goalsAboveExpected");
    ("low_danger_save_pct", "lowDangerSavePercentage");
    ("medium_danger_save_pct", "mediumDangerSavePercentage");
    ("high_danger_save_pct", "highDangerSavePercentage");
    ("freeze_pct", "freezePct") ].

Definition goalie_zero_float_fields : list (string * string) :=
  [ ("xg_against", "xGoals") ].

Definition skater_keys : list string :=
  Eval cbv in map fst (skater_entries ∅ "").

Definition goalie_keys : list string :=
  Eval cbv in map fst (goalie_entries ∅ "" 0 0).

(** The field [k] of a parsed row, when the parser returned one *)
Definition field_of (r : result dict) (k : string) : option value :=
  match r with
  | Ok d => Some (get d k)
  | Raise _ => None
  end.

End CellWords.

(** ** Keys, rows and batches of the persistence layer *)

Import Database.

(** Rows selected by a conjunction of equalities *)
Definition sel (K : list (string * value)) (t : list row) : list row :=
  filter (fun r => matches K r = true) t.

Definition scalar (v : value) : Prop := sql_eq v v = true.

(** The record entry an operation tests before anything else *)
Definition primary (e : entity) : string :=
  match e with
  | Players => "id"
  | Teams => "abbreviation"
  | Games => "id"
  | Contracts => "player_name"
  | AdvancedStats => "player_id"
  | Rosters => "player_id"
  end.

(** The natural key of a record, as the conjunction its lookup uses.
    A roster entry takes the team and the season from the snapshot it
    belongs to ([ctx]); the other kinds ignore [ctx]. *)
Definition key_in (e : entity) (ctx : value * value) (rec : dict)
  : list (string * value) :=
  match e with
  | Players => [("id", get rec "id")]
  | Teams => [("abbrev", get rec "abbreviation")]
  | Games => [("id", get rec "id")]
  | Contracts =>
      [("player_name", get rec "player_name");
       ("team_abbrev", get rec "team_abbrev")]
  | AdvancedStats =>
      [("player_id", get rec "player_id"); ("season", get rec "season");
       ("situation", get_default rec "situation" (VStr "all"))]
  | Rosters =>
      [("player_id", get rec "player_id"); ("team_abbrev", fst ctx);
       ("season", snd ctx)]
  end.

(** Columns refreshed from the record when its row exists: (column,
    record entry) *)
Definition mutable_fields (e : entity) : list (string * string) :=
  match e with
  | Players =>
      [("first_name", "first_name"); ("last_name", "last_name");
       ("position", "position"); ("team_abbrev", "team")]
  | Teams =>
      [("name", "name"); ("conference", "conference"); ("division", "division")]
  | Games =>
      [("home_score", "home_score"); ("away_score", "away_score");
       ("game_state", "game_state")]
  | Contracts =>
      [("current_cap_hit", "current_cap_hit");
       ("current_salary", "current_salary"); ("aav", "aav");
       ("total_years", "total_years"); ("expiry_status", "expiry_status");
       ("has_nmc", "has_nmc"); ("has_ntc", "has_ntc")]
  | AdvancedStats =>
      [("player_name", "player_name"); ("team_abbrev", "team_abbrev");
       ("position", "position"); ("games_played", "games_played");
       ("toi_seconds", "toi_seconds"); ("corsi_for", "corsi_for");
       ("corsi_against", "corsi_against"); ("corsi_pct", "corsi_pct");
       ("corsi_rel", "corsi_rel"); ("fenwick_for", "fenwick_for");
       ("fenwick_against", "fenwick_against"); ("fenwick_pct", "fenwick_pct");
       ("xg_for", "xg_for"); ("xg_against", "xg_against"); ("xg_pct", "xg_pct");
       ("goals_above_expected", "goals_above_expected");
       ("oz_start_pct", "offensive_zone_start_pct");
       ("hd_chances_for", "high_danger_chances_for");
       ("hd_chances_against", "high_danger_chances_against")]
  | Rosters =>
      [("jersey_number", "jersey_number"); ("position", "position");
       ("roster_status", "roster_status")]
  end.

(** A record carries its natural key: the entry tested is true and
    every component of the key is a value other than [None] that can
    be compared. *)
Definition carries_key (e : entity) (ctx : value * value) (rec : dict) : Prop :=
  truthy (get rec (primary e)) = true
  /\ Forall (fun cv => scalar (snd cv) /\ snd cv <> VNone) (key_in e ctx rec).

Definition stable (K : list (string * value)) : Prop :=
  Forall (fun cv => scalar (snd cv) /\ snd cv <> VNone) K.

Definition key_columns (e : entity) : list string :=
  match e with
  | Players | Games => ["id"]
  | Teams => ["abbrev"]
  | Contracts => ["player_name"; "team_abbrev"]
  | AdvancedStats => ["player_id"; "season"; "situation"]
  | Rosters => ["player_id"; "team_abbrev"; "season"]
  end.

(** Columns an UPDATE assigns *)
Definition touched (e : entity) : list string :=
  map fst (mutable_fields e) ++ ["raw_data"; "updated_at"]
  ++ match e with Rosters => ["player_name"] | _ => [] end.

Definition refresh_all (fields : list (string * string)) (rec : dict) (ex : row)
  : row :=
  fold_left (fun r ck => refresh rec (fst ck) (snd ck) r) fields ex.

(** What the constructor of an INSERT is given *)
Definition inserted_with (e : entity) (K : list (string * value)) (rec : dict)
           (kw : list (string * value)) : Prop :=
  kwarg kw "updated_at" = VNone
  /\ kwarg kw "id" = (match e with
                     | Players | Games => get rec "id"
                     | _ => VNone
                     end)
  /\ kwarg kw "raw_data" = VDict rec
  /\ Forall (fun cv => kwarg kw (fst cv) = snd cv) K
  /\ (e = Contracts \/ e = AdvancedStats -> kwarg kw "source" = get rec "source").

(** Only two of the mapped classes have a [source] column. *)
Definition has_source_column (e : entity) : bool :=
  existsb (fun col => String.eqb (col_name col) "source") (schema e).

Definition keyed (e : entity) (item : (value * value) * dict) : Prop :=
  truthy (get (snd item) (primary e)) = true ->
  carries_key e (fst item) (snd item).

Definition processed (e : entity) (item : (value * value) * dict) : bool :=
  truthy (get (snd item) (primary e)).

(** No processed item of the list has the key [K] *)
Definition apart (e : entity) (K : list (string * value))
           (items : list ((value * value) * dict)) : Prop :=
  Forall (fun it => processed e it = true -> key_in e (fst it) (snd it) <> K) items.

Definition tab (e : entity) (acc : state * Z) : list row :=
  table_of e (db (fst acc)).

Fixpoint dicts (l : list value) : option (list dict) :=
  match l with
  | [] => Some []
  | VDict d :: r =>
      match dicts r with
      | Some ds => Some (d :: ds)
      | None => None
      end
  | _ :: _ => None
  end.

(** The entries of a roster snapshot, each with the team and the
    season of the snapshot *)
Definition snapshot_items (snap : dict) : option (list ((value * value) * dict)) :=
  match all_players snap with
  | Ok ps =>
      match dicts ps with
      | Some ds =>
          Some (map (fun p => ((get snap "team_abbrev", get snap "season"), p)) ds)
      | None => None
      end
  | Raise _ => None
  end.

Fixpoint roster_items (snaps : list dict) : option (list ((value * value) * dict)) :=
  match snaps with
  | [] => Some []
  | snap :: rest =>
      match snapshot_items snap, roster_items rest with
      | Some a, Some b => Some (a ++ b)
      | _, _ => None
      end
  end.

(** The normalized records of a batch, in the order of the loop;
    [None] for a roster batch that is not made of lists of dicts. *)
Definition items_of (e : entity) (batch : list dict)
  : option (list ((value * value) * dict)) :=
  match e with
  | Rosters => roster_items batch
  | _ => Some (map (fun rec => ((VNone, VNone), rec)) batch)
  end.

Section Iteration.
Variable utc : nat -> Z.
Variable repr_ : value -> string.

(** The text stored as [player_name] of a roster entry *)
Definition roster_name (p : dict) : value :=
  VStr (strip (str_ repr_ (get_default p "first_name" (VStr "")) +:+ " " +:+
               str_ repr_ (get_default p "last_name" (VStr "")))).

(** One iteration of the loop of an operation *)
Definition process (e : entity) (acc : state * Z) (item : (value * value) * dict)
  : state * Z :=
  let '(ctx, rec) := item in
  match e with
  | Players => upsert_players_body utc acc rec
  | Teams => upsert_teams_body utc acc rec
  | Games => upsert_games_body utc repr_ acc rec
  | Contracts => upsert_contracts_body utc acc rec
  | AdvancedStats => upsert_advanced_stats_body utc acc rec
  | Rosters =>
      match upsert_rosters_player utc repr_ (fst ctx) (snd ctx) acc (VDict rec) with
      | Ok acc' => acc'
      | Raise _ => acc
      end
  end.

(** The row of an UPDATE: the attributes assigned before the
    refreshed ones, the refreshed ones, the payload and the time. *)
Definition pre_update (e : entity) (rec : dict) (ex : row) : row :=
  match e with
  | Rosters => setattr ex "player_name" (roster_name rec)
  | _ => ex
  end.

Definition updated (e : entity) (rec : dict) (n : nat) (ex : row) : row :=
  setattr (setattr (refresh_all (mutable_fields e) rec (pre_update e rec ex))
                   "raw_data" (VDict rec))
          "updated_at" (VDateTime (utc n)).

Definition run (e : entity) (items : list ((value * value) * dict))
           (acc : state * Z) : state * Z :=
  fold_left (process e) items acc.

(** [upsert_<entity>] *)
Definition upsert (e : entity) (st : state) (batch : list dict)
  : result (state * Z) :=
  match e with
  | Players => Ok (upsert_players utc st batch)
  | Teams => Ok (upsert_teams utc st batch)
  | Games => Ok (upsert_games utc repr_ st batch)
  | Contracts => Ok (upsert_contracts utc st batch)
  | AdvancedStats => Ok (upsert_advanced_stats utc st batch)
  | Rosters => upsert_rosters utc repr_ st batch
  end.

End Iteration.

(** ** Concrete runs *)

Definition utc0 (n : nat) : Z := (1700000000 + Z.of_nat n)%Z.

Definition repr0 (v : value) : string := "".

Definition boot : state := State empty_tables 0.

Definition toronto : dict :=
  {[ "abbreviation" := VStr "TOR"; "name" := VStr "Toronto Maple Leafs";
     "source" := VStr "nhl_api" ]}.

Definition free_agent : dict :=
  {[ "player_name" := VStr "Jaromir Jagr"; "current_cap_hit" := VInt 1000000 ]}.

(** The sources stored by an operation, row by row *)
Definition sources (t : list row) : list (option value) :=
  map (fun r => r !! "source") t.

(** ** Rows kept, ids and counts *)

(** [t'] keeps the rows of [t] in their places, each up to the columns
    an UPDATE of the class assigns *)
Definition keeps (e : entity) (t t' : list row) : Prop :=
  length t <= length t'
  /\ forall i r, t !! i = Some r ->
       exists r', t' !! i = Some r'
                  /\ forall c, ~ In c (touched e) -> getattr r' c = getattr r c.

(** The classes whose [id] is an autoincrement key *)
Definition autoincrement (e : entity) : bool :=
  existsb (fun col => String.eqb (col_name col) "id"
                      && match col_dflt col with AutoIncrement => true | _ => false end)
          (schema e).

(** The name of a class in [get_stats] *)
Definition stat_name (e : entity) : string :=
  match e with
  | Players => "players"
  | Teams => "teams"
  | Games => "games"
  | Contracts => "contracts"
  | AdvancedStats => "advanced_stats"
  | Rosters => "rosters"
  end.

Definition groups : list string := ["forwards"; "defensemen"; "goalies"].


(** [counts[name]] for the dict [get_stats] returns *)
Fixpoint stat_of (name : string) (counts : list (string * Z)) : option Z :=
  match counts with
  | [] => None
  | (k, v) :: rest => if String.eqb k name then Some v else stat_of name rest
  end.

Definition game_without_type : dict :=
  {[ "id" := VInt 2024020001; "home_team" := VStr "TOR"; "away_team" := VStr "MTL" ]}.

Definition broken_snapshot : dict :=
  {[ "team_abbrev" := VStr "SEA"; "season" := VStr "20242025";
     "forwards" := VNone ]}.

Definition kraken : dict :=
  {[ "team_abbrev" := VStr "SEA"; "season" := VStr "20242025";
     "goalies" := VList [VDict {[ "player_id" := VInt 8475831;
                                  "first_name" := VStr "Philipp";
                                  "last_name" := VStr "Grubauer" ]}] ]}.

Definition montreal : dict :=
  {[ "abbreviation" := VStr "MTL"; "name" := VStr "Montreal Canadiens" ]}.

Definition arenas : dict :=
  {[ "abbreviation" := VStr "TOR"; "name" := VStr "Toronto Arenas";
     "division" := VNone ]}.

(** ** Decimal texts *)

(** The number a text of digits denotes, read after the digits that
    gave [acc] *)
Fixpoint decimal (s : string) (acc : Z) : Z :=
  match s with
  | EmptyString => acc
  | String c r => decimal r (10 * acc + digit_val c)
  end.

(** A text without white space *)
Definition no_space (s : string) : bool :=
  forallb (fun c => negb (is_space c)) (list_ascii_of_string s).

(** ** Contracts as the scraper returns them *)

(** A contract of [team]: it names its player with a text of two
    characters or more, its team with the code [team] and its source
    with "puckpedia"; the cap hit it gives is an integer, and so is
    the average value, which is the same. *)
Definition contract_of (team : string) (c : dict) : Prop :=
  exists name cap,
    get c "player_name" = VStr name
    /\ (2 <= String.length name)%nat
    /\ get c "team_abbrev" = VStr team
    /\ get c "source" = VStr "puckpedia"
    /\ get c "current_cap_hit" = VInt cap
    /\ get c "aav" = VInt cap.

Definition well_named (c : dict) : Prop := exists team, contract_of team c.

(** The path of the page of a team *)
Definition cap_path (slug : string) : string := "/" +:+ slug +:+ "/cap".

(** A text made of the characters a slug may hold *)
Definition slug_text (s : string) : bool :=
  forallb PuckPedia.slug_char (list_ascii_of_string s).

(** ** Rosters as the scraper returns them *)

(** The snapshot [scrape_roster] builds for [team] and [season] from
    three lists of parsed players *)
Definition snapshot (team season as_of : string) (f d g : list dict) : dict :=
  list_to_map
    [ ("team_abbrev", VStr team);
      ("season", VStr season);
      ("as_of_date", VStr as_of);
      ("forwards", VList (map VDict f));
      ("defensemen", VList (map VDict d));
      ("goalies", VList (map VDict g)) ].

Definition roster_of (team season : string) (r : dict) : Prop :=
  exists as_of f d g, r = snapshot team season as_of f d g.

(** The players of a snapshot, whatever their group *)
Definition head_count (r : dict) : Z :=
  match Database.all_players r with
  | Ok ps => Z.of_nat (length ps)
  | Raise _ => 0
  end.

(** The number of events [event] logged at level [l] *)
Definition level_eqb (a b : level) : bool :=
  match a, b with
  | Debug, Debug | Info, Info | Warning, Warning | Error, Error => true
  | _, _ => false
  end.

Definition logged (l : level) (event : string) (w : world) : nat :=
  length (List.filter (fun ev => level_eqb (fst ev) l && String.eqb (snd ev) event)
                      (log w)).

(** The season a roster operation works on *)
Definition roster_season (now : datetime) (season : option string) : string :=
  match season with
  | None => NHLRoster.get_current_season now
  | Some s => s
  end.

(** An answer of the roster endpoint with one forward whose first
    name is null *)
Definition nameless_forward : value :=
  VDict {[ "forwards" :=
             VList [VDict {[ "id" := VInt 8478402; "firstName" := VNone ]}] ]}.

(** ** The stats endpoint *)

(** The answer of a server that holds [records] to a query for the
    page at [start]: at most [limit] records, in their order *)
Definition page_of (records : list dict) (params : dict) : value :=
  match get params "start", get params "limit" with
  | VInt start, VInt limit =>
      VDict {[ "data" :=
                 VList (map VDict (firstn (Z.to_nat limit)
                                          (skipn (Z.to_nat start) records)));
               "total" := VInt (Z.of_nat (length records)) ]}
  | _, _ => VDict ∅
  end.

(** The endpoint [url] answers every query from [records]. *)
Definition serves (client_get : nat -> string -> dict -> result value)
           (url : string) (records : list dict) : Prop :=
  forall n params, client_get n url params = Ok (page_of records params).

(** The number of requests that read [n] records *)
Definition pages (n : nat) : nat := S (n / 100).

(** Entries of the landing page that hold an object when present *)
Definition nested : list string :=
  ["firstName"; "lastName"; "birthCity"; "birthStateProvince"; "draftDetails"].

Definition object_or_missing (data : dict) (k : string) : Prop :=
  match data !! k with
  | None | Some (VDict _) => True
  | Some _ => False
  end.

(** A server with 250 skaters, numbered from 1 *)
Definition league : list dict :=
  map (fun i => {[ "playerId" := VInt (Z.of_nat i) ]}) (seq 1 250).

Definition league_api (n : nat) (url : string) (params : dict) : result value :=
  Ok (page_of league params).

(** A landing page with seven seasons *)
Definition landing : dict :=
  {[ "firstName" := VDict {[ "default" := VStr "Sidney" ]};
     "lastName" := VDict {[ "default" := VStr "Crosby" ]};
     "seasonTotals" :=
       VList (map (fun y => VDict {[ "season" := VInt y ]})
                  [20052006; 20062007; 20072008; 20082009; 20092010;
                   20102011; 20112012]%Z) ]}.

(** An answer of the roster endpoint with two forwards, one of them
    without an id *)
Definition oilers : value :=
  VDict {[ "forwards" :=
             VList [ VDict {[ "id" := VInt 8478402;
                              "firstName" := VDict {[ "default" := VStr "Connor" ]};
                              "lastName" := VDict {[ "default" := VStr "McDavid" ]};
                              "sweaterNumber" := VInt 97 ]};
                     VDict {[ "lastName" := VDict {[ "default" := VStr "Doe" ]} ]} ] ]}.

(** ** Rows of the CSV source *)

(** A row without an id *)
Definition anonymous_row : dict :=
  {[ "name" := VStr "Emergency Backup"; "team" := VStr "TOR";
     "situation" := VStr "all"; "playerId" := VStr "n/a" ]}.

(** A row whose id reads as an infinity *)
Definition overflowing_row : dict :=
  {[ "playerId" := VStr "1e999"; "name" := VStr "Connor McDavid";
     "situation" := VStr "all" ]}.

(** A CSV in which that row comes after rows that parse *)
Definition bad_cell_last (n : nat) (url : string) : result (list dict) :=
  Ok [anonymous_row; <["situation" := VStr "5on5"]> anonymous_row;
      <["playerId" := VStr "8478402"]> anonymous_row; overflowing_row].

Definition two_rows (n : nat) (url : string) : result (list dict) :=
  Ok [anonymous_row; <["situation" := VStr "5on5"]> anonymous_row; anonymous_row].

(** ** Models *)

(** The year in which the season under way at [now] began *)
Definition season_start (now : datetime) : Z :=
  if (10 <=? month now)%Z then year now else (year now - 1)%Z.

(** A contract that ends with the season 2025-26 *)
Definition eight_years : Models.Contract.PlayerContract :=
  {| Models.Contract.player_id := 8478402;
     Models.Contract.player_name := "Connor McDavid";
     Models.Contract.team_abbrev := "EDM";
     Models.Contract.contract_type := Models.Contract.Standard;
     Models.Contract.signing_date := None;
     Models.Contract.start_season := "20182019";
     Models.Contract.end_season := "20252026";
     Models.Contract.total_years := 8;
     Models.Contract.total_value := 100000000;
     Models.Contract.aav := 12500000;
     Models.Contract.current_cap_hit := 12500000;
     Models.Contract.current_salary := 10000000;
     Models.Contract.current_bonus := 0;
     Models.Contract.expiry_status := Some Models.Contract.UFA;
     Models.Contract.arbitration_eligible := false;
     Models.Contract.clauses := [];
     Models.Contract.years := [];
     Models.Contract.source := "puckpedia";
     Models.Contract.scraped_at := None |}.

(** ** The commands *)

(** The records of a batch that [upsert_advanced_stats] does not skip *)
Definition identified (stats : list dict) : list dict :=
  List.filter (fun s => truthy (get s "player_id")) stats.

(* ================================================================== *)
(** * Properties                                                       *)
(* ================================================================== *)

(** ** Season identifiers *)

Section Seasons.
Local Open Scope Z_scope.

Lemma four_digit_years_checked :
  forallb (fun k => four_digit_year (1000 + Z.of_nat k))
          (seq 0 (Z.to_nat 9000)) = true.
Proof. vm_compute. reflexivity. Qed.

Lemma four_digit_year_ok (y : Z) :
  1000 <= y <= 9999 -> four_digit_year y = true.
Proof.
  intros Hy.
  pose proof four_digit_years_checked as Hall.
  rewrite forallb_forall in Hall.
  replace y with (1000 + Z.of_nat (Z.to_nat (y - 1000))) by lia.
  apply Hall, in_seq. lia.
Qed.

Lemma all_digits_app (a b : string) :
  all_digits (a +:+ b) = all_digits a && all_digits b.
Proof.
  unfold all_digits. induction a as [|c a IH]; simpl; [reflexivity|].
  rewrite IH. apply andb_assoc.
Qed.

Lemma length_app_string (a b : string) :
  String.length (a +:+ b) = (String.length a + String.length b)%nat.
Proof. induction a as [|c a IH]; simpl; [reflexivity | now rewrite IH]. Qed.

Lemma year_digit_string (y : Z) :
  1000 <= y <= 9999 -> digit_string 4 (str_of_int y).
Proof.
  intros Hy. apply four_digit_year_ok in Hy.
  unfold four_digit_year in Hy. apply andb_prop in Hy as [Hl Hd].
  split; [apply Nat.eqb_eq, Hl | exact Hd].
Qed.

Lemma double_year_digit_string (y : Z) :
  1000 <= y <= 9998 -> digit_string 8 (str_of_int y +:+ str_of_int (y + 1)).
Proof.
  intros Hy.
  destruct (year_digit_string y) as [L1 D1]; [lia|].
  destruct (year_digit_string (y + 1)) as [L2 D2]; [lia|].
  split.
  - rewrite length_app_string, L1, L2. reflexivity.
  - rewrite all_digits_app, D1, D2. reflexivity.
Qed.

(** C3. From October to December the structured-API extractor names
    the season by the current year followed by the next one (eight
    digits) and the CSV extractor by the current year (four digits);
    from January to September they use the previous year followed by
    the current one, and the previous year.  The digit counts hold for
    the years whose season bounds are both written with four digits. *)
Theorem current_season_october_rollover (now : datetime) :
  1001 <= year now <= 9998 ->
  (10 <= month now <= 12 ->
     NHLRoster.get_current_season now
       = str_of_int (year now) +:+ str_of_int (year now + 1)
     /\ digit_string 8 (NHLRoster.get_current_season now)
     /\ MoneyPuck.get_current_season now = str_of_int (year now)
     /\ digit_string 4 (MoneyPuck.get_current_season now))
  /\
  (1 <= month now <= 9 ->
     NHLRoster.get_current_season now
       = str_of_int (year now - 1) +:+ str_of_int (year now)
     /\ digit_string 8 (NHLRoster.get_current_season now)
     /\ MoneyPuck.get_current_season now = str_of_int (year now - 1)
     /\ digit_string 4 (MoneyPuck.get_current_season now)).
Proof.
  intros Hy. unfold NHLRoster.get_current_season, MoneyPuck.get_current_season.
  split; intros Hm.
  - assert (E : (10 <=? month now) = true) by (apply Z.leb_le; lia).
    rewrite E. repeat split.
    + apply double_year_digit_string; lia.
    + apply double_year_digit_string; lia.
    + apply year_digit_string; lia.
    + apply year_digit_string; lia.
  - assert (E : (10 <=? month now) = false) by (apply Z.leb_gt; lia).
    rewrite E. replace (year now - 1 + 1) with (year now) by lia.
    repeat split.
    + replace (year now) with ((year now - 1) + 1) at 2 by lia.
      apply double_year_digit_string; lia.
    + replace (year now) with ((year now - 1) + 1) at 2 by lia.
      apply double_year_digit_string; lia.
    + apply year_digit_string; lia.
    + apply year_digit_string; lia.
Qed.

Lemma current_season_october_rollover_witness :
  let autumn := DateTime 2024 11 3 20 15 0 0 in
  let spring := DateTime 2025 4 17 9 30 0 0 in
  (NHLRoster.get_current_season autumn = "20242025"
   /\ MoneyPuck.get_current_season autumn = "2024")
  /\ (NHLRoster.get_current_season spring = "20242025"
      /\ MoneyPuck.get_current_season spring = "2024").
Proof.
  intros autumn spring.
  assert (Ya : 1001 <= year autumn <= 9998) by (simpl; lia).
  assert (Ys : 1001 <= year spring <= 9998) by (simpl; lia).
  destruct (current_season_october_rollover autumn Ya) as [A _].
  destruct (current_season_october_rollover spring Ys) as [_ S].
  destruct A as (A1 & _ & A2 & _); [simpl; lia|].
  destruct S as (S1 & _ & S2 & _); [simpl; lia|].
  rewrite A1, A2, S1, S2. repeat split; reflexivity.
Defined.

End Seasons.

(** ** The roster sweep *)

Section RosterSweep.
Import NHLRoster.
Variable get_json : nat -> string -> result value.
Variable now : datetime.

(** Whatever the reply, [scrape_roster] issues one request, for the
    roster of the team it was asked for. *)
Lemma scrape_roster_requests team season w :
  requests (snd (scrape_roster get_json now team season w))
  = requests w ++ [roster_path team].
Proof.
  unfold scrape_roster.
  destruct (get_json (length (requests w)) (roster_path team)) as [[]|e];
    try reflexivity.
  repeat (match goal with
          | |- context [match parse_group ?d ?g with _ => _ end] =>
              destruct (parse_group d g)
          end; try reflexivity).
Qed.

Lemma scrape_all_rosters_body_requests season acc team :
  requests (snd (scrape_all_rosters_body get_json now season acc team))
  = requests (snd acc) ++ [roster_path team].
Proof.
  destruct acc as [rosters w]. unfold scrape_all_rosters_body.
  pose proof (scrape_roster_requests team (Some season) w) as H.
  destruct (scrape_roster get_json now team (Some season) w) as [[roster|e] w'];
    simpl in *; exact H.
Qed.

Lemma sweep_requests season teams acc :
  requests (snd (fold_left (scrape_all_rosters_body get_json now season) teams acc))
  = requests (snd acc) ++ map roster_path teams.
Proof.
  revert acc. induction teams as [|team teams IH]; intros acc; simpl.
  - now rewrite app_nil_r.
  - rewrite IH, scrape_all_rosters_body_requests, <- app_assoc. reflexivity.
Qed.

(** C5. The sweep asks for one roster per entry of [NHL_TEAMS], in
    order; the list holds 33 codes ("ARI" and "UTA" are both in it),
    not the 32 its heading announces. *)
Theorem scrape_all_rosters_one_request_per_listed_team season :
  requests (snd (scrape_all_rosters get_json now season fresh))
    = map roster_path NHL_TEAMS
  /\ length NHL_TEAMS = 33%nat
  /\ length (requests (snd (scrape_all_rosters get_json now season fresh))) = 33%nat.
Proof.
  assert (R : requests (snd (scrape_all_rosters get_json now season fresh))
              = map roster_path NHL_TEAMS).
  { unfold scrape_all_rosters.
    set (s := match season with None => _ | Some s => s end).
    pose proof (sweep_requests s NHL_TEAMS ([], fresh)) as H.
    destruct (fold_left _ NHL_TEAMS ([], fresh)) as [rosters w].
    simpl in *. exact H. }
  split; [exact R|]. split; [reflexivity|].
  rewrite R, length_map. reflexivity.
Qed.

End RosterSweep.

(** ** Total fetch failure of the CSV source *)

Section CsvFailure.
Import MoneyPuck.
Variable _fetch_csv : nat -> string -> result (list dict).
Variable now : datetime.

(** C8. When the download of the CSV raises, [scrape_skater_stats]
    and [scrape_goalie_stats] return the empty list instead of the
    exception, after logging one error event. *)
Theorem csv_fetch_failure_gives_empty_list season situation w e :
  (_fetch_csv (length (requests w)) (skaters_url (resolved now season)) = Raise e ->
   exists w',
     scrape_skater_stats _fetch_csv now season situation w = (Ok [], w')
     /\ log w' = log w ++ [(Error, "moneypuck_fetch_failed")])
  /\
  (_fetch_csv (length (requests w)) (goalies_url (resolved now season)) = Raise e ->
   exists w',
     scrape_goalie_stats _fetch_csv now season w = (Ok [], w')
     /\ log w' = log w ++ [(Error, "moneypuck_fetch_failed")]).
Proof.
  split; intros H.
  - unfold scrape_skater_stats, fetch. fold (resolved now season). rewrite H.
    eexists. split; reflexivity.
  - unfold scrape_goalie_stats, fetch. fold (resolved now season). rewrite H.
    eexists. split; reflexivity.
Qed.

End CsvFailure.

Lemma csv_fetch_failure_gives_empty_list_witness :
  let down := fun (_ : nat) (_ : string) => @Raise (list dict) (HTTPError "503") in
  let now := DateTime 2025 1 15 12 0 0 0 in
  fst (MoneyPuck.scrape_skater_stats down now None "all" fresh) = Ok []
  /\ fst (MoneyPuck.scrape_goalie_stats down now (Some "2023") fresh) = Ok [].
Proof.
  intros down now.
  destruct (csv_fetch_failure_gives_empty_list down now None "all" fresh (HTTPError "503"))
    as [S _].
  destruct (csv_fetch_failure_gives_empty_list down now (Some "2023") "all" fresh
              (HTTPError "503")) as [_ G].
  destruct S as (w1 & E1 & _); [reflexivity|].
  destruct G as (w2 & E2 & _); [reflexivity|].
  rewrite E1, E2. split; reflexivity.
Defined.

(** ** The pace of the rate-limited client *)

Section Pace.
Import Base.
Local Open Scope Q_scope.

Lemma count_cons x script : count (x :: script) == count script + 1.
Proof.
  unfold count. simpl length. rewrite Nat2Z.inj_succ. unfold Z.succ.
  rewrite inject_Z_plus. reflexivity.
Qed.

(** Once a request has been issued at [p], every further call moves
    the end of the session at least one interval away. *)
Lemma calls_after_request script :
  forall c t p,
    nonneg script ->
    last_request c = Some p ->
    p <= t ->
    p + count script * min_interval c <= snd (calls c t script).
Proof.
  induction script as [|[pause latency] rest IH]; intros c t p Hnn Hlast Hpt.
  - simpl. unfold count. simpl. rewrite Qmult_0_l, Qplus_0_r. exact Hpt.
  - inversion Hnn as [|x l [Hpause Hlat] Hrest]; subst. simpl in Hpause, Hlat.
    simpl calls. unfold get, issue_time. rewrite Hlast.
    set (start := Qmax (t + pause) (p + min_interval c)).
    set (c' := Client (requests_per_second c) (Some start)).
    assert (Hstart : p + min_interval c <= start) by apply Q.le_max_r.
    assert (Hret : start <= start + latency).
    { rewrite <- (Qplus_0_r start) at 1. apply Qplus_le_r. exact Hlat. }
    pose proof (IH c' (start + latency) start Hrest eq_refl Hret) as Hfin.
    change (min_interval c') with (min_interval c) in Hfin.
    rewrite count_cons.
    apply Qle_trans with (start + count rest * min_interval c); [|exact Hfin].
    setoid_replace (p + (count rest + 1) * min_interval c)
      with ((p + min_interval c) + count rest * min_interval c)
      using relation Qeq by ring.
    apply Qplus_le_l. exact Hstart.
Qed.

(** C6. With a ceiling of [R] requests per second, [N >= 1] calls made
    one after the other through one client end at least [(N - 1) / R]
    seconds after the first of them was made. *)
Theorem sequential_calls_respect_rate (R t : Q) (script : list (Q * Q)) :
  0 < R ->
  nonneg script ->
  script <> [] ->
  (count script - 1) / R
    <= snd (calls (open R) t script) - first_call t script.
Proof.
  intros HR Hnn Hne.
  destruct script as [|[pause latency] rest]; [contradiction|].
  inversion Hnn as [|x l [Hpause Hlat] Hrest]; subst. simpl in Hpause, Hlat.
  simpl calls. unfold get, issue_time, open. simpl last_request.
  simpl first_call. simpl requests_per_second.
  set (start := t + pause).
  set (c' := Client R (Some start)).
  assert (Hret : start <= start + latency).
  { rewrite <- (Qplus_0_r start) at 1. apply Qplus_le_r. exact Hlat. }
  pose proof (calls_after_request rest c' (start + latency) start Hrest eq_refl Hret)
    as Hfin.
  rewrite count_cons.
  apply Qle_minus_iff in Hfin. apply Qle_minus_iff.
  setoid_replace (snd (calls c' (start + latency) rest) - start
                  + - ((count rest + 1 - 1) / R))
    with (snd (calls c' (start + latency) rest)
          + - (start + count rest * min_interval c')) using relation Qeq.
  - exact Hfin.
  - unfold min_interval. simpl requests_per_second. field.
    intros E. rewrite E in HR. discriminate HR.
Qed.

Lemma sequential_calls_respect_rate_witness :
  let script := [(0, 1 # 10); (0, 1 # 10); (1 # 4, 1 # 10)] in
  (3 - 1) / (1 # 2) <= snd (calls (open (1 # 2)) 0 script) - first_call 0 script.
Proof.
  intros script.
  assert (HR : 0 < 1 # 2) by reflexivity.
  assert (Hnn : nonneg script).
  { repeat constructor; discriminate. }
  assert (Hne : script <> []) by discriminate.
  exact (sequential_calls_respect_rate (1 # 2) 0 script HR Hnn Hne).
Defined.

End Pace.

(** ** Header-like rows of a contracts table *)

Section HeaderRows.
Import PuckPedia.

Lemma header_like_detected c :
  header_like c ->
  existsb (fun h => contains h (lower (get_text c))) header_words = true.
Proof.
  intros (h & Hin & Hc). apply existsb_exists. exists h. split; assumption.
Qed.

(** C10. A row whose first cell contains "player", "name" or "pos",
    in any letter case, is taken for a heading: the row parser returns
    [None] and the row adds no contract to the result, also when the
    cell is the name of a player. *)
Theorem header_like_row_yields_no_contract now team c rest :
  header_like c ->
  _parse_contract_row now (c :: rest) team = Ok None
  /\ forall contracts w,
       scrape_row now team (contracts, w) (c :: rest) = (contracts, w).
Proof.
  intros H. apply header_like_detected in H.
  assert (P : _parse_contract_row now (c :: rest) team = Ok None).
  { unfold _parse_contract_row. simpl map. cbv iota beta. rewrite H. reflexivity. }
  split; [exact P|].
  intros contracts w. unfold scrape_row. rewrite P.
  destruct (length (c :: rest) <? 3)%nat; reflexivity.
Qed.

Lemma header_like_row_yields_no_contract_witness :
  let now := DateTime 2025 2 1 8 0 0 0 in
  let row := [ Cell "Martin Pospisil" (Some "Martin Pospisil");
               Cell "$1,000,000" None; Cell "UFA" None ] in
  _parse_contract_row now row "CGY" = Ok None
  /\ scrape_row now "CGY" ([], fresh) row = ([], fresh).
Proof.
  intros now row.
  assert (H : header_like (Cell "Martin Pospisil" (Some "Martin Pospisil"))).
  { exists "pos". split; [right; right; left; reflexivity | reflexivity]. }
  destruct (header_like_row_yields_no_contract now "CGY" _
              [Cell "$1,000,000" None; Cell "UFA" None] H) as [P S].
  split; [exact P | exact (S [] fresh)].
Defined.

(** A row that is not a heading gives a contract. *)
Example regular_row_is_parsed :
  let now := DateTime 2025 2 1 8 0 0 0 in
  let row := [ Cell "Connor McDavid" (Some "Connor McDavid");
               Cell "C" None; Cell "$12,500,000" None; Cell "$13M" None;
               Cell "8 yrs" None; Cell "UFA" None; Cell "NMC" None ] in
  match _parse_contract_row now row "EDM" with
  | Ok (Some d) =>
      [ get d "player_name"; get d "current_cap_hit"; get d "current_salary";
        get d "total_years"; get d "expiry_status"; get d "has_nmc";
        get d "has_ntc"; get d "scraped_at" ]
  | _ => []
  end
  = [ VStr "Connor McDavid"; VInt 12500000; VInt 13000000; VInt 8;
      VStr "UFA"; VBool true; VBool false; VStr "2025-02-01T08:00:00" ].
Proof. vm_compute. reflexivity. Qed.

End HeaderRows.

(** ** Dollar amounts *)

Section Salary.
Import PuckPedia.
Local Open Scope Z_scope.

Lemma append_cons c (a b : string) : String c a +:+ b = String c (a +:+ b).
Proof. reflexivity. Qed.

Lemma append_empty_r (s : string) : s +:+ "" = s.
Proof.
  induction s as [|c s IH]; [reflexivity|]. now rewrite append_cons, IH.
Qed.

Lemma append_assoc (a b c : string) : (a +:+ b) +:+ c = a +:+ (b +:+ c).
Proof.
  induction a as [|d a IH]; [reflexivity|]. now rewrite !append_cons, IH.
Qed.

Lemma scaled_unparsed text factor :
  float_of_string text = None -> scaled text factor = Ok 0.
Proof. intros H. unfold scaled. simpl. rewrite H. reflexivity. Qed.

(** C4. The documented examples evaluate as the claim says, and a
    text whose numeric part [float()] rejects gives 0.  The rule for
    "M" fails: the product with 1,000,000 is a binary64 product cut
    to its integer part, so "$4.1M" gives 4099999 where the claim
    gives 4100000.  A text that [float()] reads as an infinity is not
    turned into 0 either: [int()] raises [OverflowError], and the
    parser intercepts [ValueError] only. *)
Theorem parse_salary_cuts_the_product :
  _parse_salary "$1,500,000" = Ok 1500000
  /\ _parse_salary "$1.5M" = Ok 1500000
  /\ _parse_salary "$750K" = Ok 750000
  /\ _parse_salary "" = Ok 0
  /\ (forall text,
        float_of_string (numeric_part text) = None -> _parse_salary text = Ok 0)
  /\ _parse_salary "$4.1M" = Ok 4099999
  /\ _parse_salary "$4.1M" <> Ok 4100000
  /\ _parse_salary "$inf" = Raise OverflowError
  /\ _parse_salary "$1e999" = Raise OverflowError.
Proof.
  split; [vm_compute; reflexivity|].
  split; [vm_compute; reflexivity|].
  split; [vm_compute; reflexivity|].
  split; [reflexivity|].
  split.
  { intros text H. unfold _parse_salary, numeric_part in *.
    destruct (String.eqb text ""); [reflexivity|].
    destruct (contains "M" (upper (clean text))).
    - now apply scaled_unparsed.
    - destruct (contains "K" (upper (clean text))).
      + now apply scaled_unparsed.
      + simpl. rewrite H. reflexivity. }
  assert (E : _parse_salary "$4.1M" = Ok 4099999) by (vm_compute; reflexivity).
  split; [exact E|].
  split; [rewrite E; discriminate|].
  split; vm_compute; reflexivity.
Qed.

End Salary.

(** ** Coercion of CSV cells *)

Section Coercion.
Import MoneyPuck.
Local Open Scope Z_scope.

Lemma safe_int_non_numeric v d : non_numeric v -> safe_int v d = Ok d.
Proof.
  intros (s & -> & H). unfold safe_int. simpl.
  destruct (String.eqb s ""); simpl; [reflexivity|].
  rewrite H. reflexivity.
Qed.

Lemma safe_float_non_numeric v d : non_numeric v -> safe_float v d = Ok d.
Proof.
  intros (s & -> & H). unfold safe_float. simpl.
  destruct (String.eqb s ""); simpl; [reflexivity|].
  rewrite H. reflexivity.
Qed.

(** What a dict display holds for a key, once it has evaluated. *)
Lemma display_lookup entries l k r :
  display entries = Ok l ->
  NoDup (map fst entries) ->
  In (k, r) entries ->
  exists v, r = Ok v /\ get (list_to_map l) k = v.
Proof.
  revert l. induction entries as [|[k0 r0] rest IH]; intros l Hd Hnd Hin.
  - destruct Hin.
  - simpl in Hd. destruct r0 as [v0|e]; [|discriminate]. simpl in Hd.
    destruct (display rest) as [l'|e] eqn:E; [|discriminate].
    simpl in Hd. injection Hd as <-.
    inversion Hnd as [|x xs Hnotin Hnd']; subst.
    destruct Hin as [Heq|Hin].
    + injection Heq as <- <-. exists v0. split; [reflexivity|].
      unfold get. simpl. now rewrite lookup_insert_eq.
    + destruct (IH l' eq_refl Hnd' Hin) as (v & -> & Hv).
      exists v. split; [reflexivity|].
      unfold get in *. simpl. rewrite lookup_insert_ne; [exact Hv|].
      intros ->. apply Hnotin. apply list_elem_of_In.
      apply (in_map fst) in Hin. exact Hin.
Qed.

Lemma skater_entries_keys row season :
  map fst (skater_entries row season) = skater_keys.
Proof. reflexivity. Qed.

Lemma goalie_entries_keys row season sa ga :
  map fst (goalie_entries row season sa ga) = goalie_keys.
Proof. reflexivity. Qed.

Lemma skater_keys_nodup : NoDup skater_keys.
Proof. apply (bool_decide_unpack _). vm_compute. exact I. Qed.

Lemma goalie_keys_nodup : NoDup goalie_keys.
Proof. apply (bool_decide_unpack _). vm_compute. exact I. Qed.

Lemma skater_field row season out k r :
  _parse_skater_row row season = Ok out ->
  In (k, r) (skater_entries row season) ->
  exists v, r = Ok v /\ get out k = v.
Proof.
  unfold _parse_skater_row.
  destruct (display (skater_entries row season)) as [l|e] eqn:E; cbn [bind];
    [|discriminate].
  intros H Hin. injection H as <-.
  apply (display_lookup _ _ _ _ E); [|exact Hin].
  rewrite skater_entries_keys. apply skater_keys_nodup.
Qed.

Lemma goalie_field row season out k r :
  _parse_goalie_row row season = Ok out ->
  exists sa ga,
    safe_int (get row "shotsOnGoal") 0 = Ok sa
    /\ safe_int (get row "goals") 0 = Ok ga
    /\ (In (k, r) (goalie_entries row season sa ga) ->
        exists v, r = Ok v /\ get out k = v).
Proof.
  unfold _parse_goalie_row.
  destruct (safe_int (get row "shotsOnGoal") 0) as [sa|e]; cbn [bind];
    [|discriminate].
  destruct (safe_int (get row "goals") 0) as [ga|e]; cbn [bind];
    [|discriminate].
  destruct (display (goalie_entries row season sa ga)) as [l|e] eqn:E;
    cbn [bind]; [|discriminate].
  intros H. injection H as <-.
  exists sa, ga. split; [reflexivity|]. split; [reflexivity|].
  intros Hin.
  apply (display_lookup _ _ _ _ E); [|exact Hin].
  rewrite goalie_entries_keys. apply goalie_keys_nodup.
Qed.

End Coercion.

Ltac find_entry :=
  repeat (first [left; reflexivity | right]).

Section CoercionClaims.
Import MoneyPuck.
Local Open Scope Z_scope.

Lemma safe_int_junk v d : junk v -> safe_int v d = Ok d.
Proof. intros [->|H]; [reflexivity | now apply safe_int_non_numeric]. Qed.

Lemma safe_float_junk v d : junk v -> safe_float v d = Ok d.
Proof. intros [->|H]; [reflexivity | now apply safe_float_non_numeric]. Qed.

Lemma safe_int_junk_default (row : dict) c :
  junk (get row c) -> safe_int (get_default row c (VInt 0)) 0 = Ok 0.
Proof.
  unfold get, get_default. destruct (row !! c) as [v|]; simpl.
  - apply safe_int_junk.
  - reflexivity.
Qed.

Lemma skater_int_entry row season k c :
  In (k, c) skater_int_fields ->
  In (k, of_int (safe_int (get row c) 0)) (skater_entries row season).
Proof.
  intros H. unfold skater_int_fields in H. simpl in H.
  repeat (destruct H as [H|H]; [injection H as <- <-; unfold skater_entries; find_entry|]).
  destruct H.
Qed.

Lemma skater_float_entry row season k c :
  (In (k, c) skater_null_float_fields ->
   In (k, of_float (safe_float (get row c) None)) (skater_entries row season))
  /\ (In (k, c) skater_zero_float_fields ->
      In (k, of_float (safe_float (get row c) zero)) (skater_entries row season)).
Proof.
  split; intros H; simpl in H;
    repeat (destruct H as [H|H]; [injection H as <- <-; unfold skater_entries; find_entry|]);
    destruct H.
Qed.

Lemma goalie_int_entry row season sa ga k c :
  In (k, c) goalie_int_fields ->
  In (k, of_int (safe_int (get row c) 0)) (goalie_entries row season sa ga).
Proof.
  intros H. simpl in H.
  repeat (destruct H as [H|H]; [injection H as <- <-; unfold goalie_entries; find_entry|]).
  destruct H.
Qed.

Lemma goalie_float_entry row season sa ga k c :
  (In (k, c) goalie_null_float_fields ->
   In (k, of_float (safe_float (get row c) None)) (goalie_entries row season sa ga))
  /\ (In (k, c) goalie_zero_float_fields ->
      In (k, of_float (safe_float (get row c) zero)) (goalie_entries row season sa ga)).
Proof.
  split; intros H; simpl in H;
    repeat (destruct H as [H|H]; [injection H as <- <-; unfold goalie_entries; find_entry|]);
    destruct H.
Qed.

Lemma display_all_ok entries :
  Forall (fun kr => exists v, snd kr = Ok v) entries ->
  exists l, display entries = Ok l.
Proof.
  induction 1 as [|[k r] rest [v Hv] _ [l Hl]]; simpl in *.
  - eexists; reflexivity.
  - subst r. rewrite Hl. simpl. eexists; reflexivity.
Qed.

Lemma of_int_junk v : junk v -> exists w, of_int (safe_int v 0) = Ok w.
Proof. intros H. rewrite (safe_int_junk _ _ H). eexists; reflexivity. Qed.

Lemma of_float_junk v d : junk v -> exists w, of_float (safe_float v d) = Ok w.
Proof. intros H. rewrite (safe_float_junk _ _ H). eexists; reflexivity. Qed.

Lemma junk_row_skater row season y :
  int_of_string season = Some y ->
  (forall c, junk (get row c)) ->
  exists out, _parse_skater_row row season = Ok out.
Proof.
  intros Hy Hrow. unfold _parse_skater_row.
  assert (Hall : Forall (fun kr => exists v, snd kr = Ok v)
                        (skater_entries row season)).
  { unfold skater_entries.
    repeat (apply Forall_cons; split;
            [first [ apply of_int_junk, Hrow
                   | apply of_float_junk, Hrow
                   | simpl; eexists; reflexivity
                   | idtac ] |]); [| |constructor].
    + simpl. unfold double_year. rewrite Hy. eexists; reflexivity.
    + simpl. destruct (truthy (get row "onIce_corsiPercentage")).
      * apply of_int_junk, Hrow.
      * rewrite !safe_int_junk_default by apply Hrow. eexists; reflexivity. }
  destruct (display_all_ok _ Hall) as [l Hl].
  rewrite Hl. eexists; reflexivity.
Qed.

Lemma junk_row_goalie row season y :
  int_of_string season = Some y ->
  (forall c, junk (get row c)) ->
  exists out, _parse_goalie_row row season = Ok out.
Proof.
  intros Hy Hrow. unfold _parse_goalie_row.
  rewrite !safe_int_junk by apply Hrow. cbn [bind].
  assert (Hall : Forall (fun kr => exists v, snd kr = Ok v)
                        (goalie_entries row season 0 0)).
  { unfold goalie_entries.
    repeat (apply Forall_cons; split;
            [first [ apply of_int_junk, Hrow
                   | apply of_float_junk, Hrow
                   | simpl; eexists; reflexivity
                   | idtac ] |]); [|constructor].
    simpl. unfold double_year. rewrite Hy. eexists; reflexivity. }
  destruct (display_all_ok _ Hall) as [l Hl].
  rewrite Hl. eexists; reflexivity.
Qed.

End CoercionClaims.

Section CoercionTheorems.
Import MoneyPuck.
Local Open Scope Z_scope.

Lemma get_default_present (row : dict) c d :
  non_numeric (get row c) -> get_default row c d = get row c.
Proof.
  unfold get, get_default. intros (s & H & _).
  destruct (row !! c); [reflexivity | discriminate].
Qed.

Lemma skater_corsi_for row season out :
  _parse_skater_row row season = Ok out ->
  non_numeric (get row "onIce_corsiPercentage") ->
  non_numeric (get row "I_F_shotAttempts") ->
  non_numeric (get row "OnIce_F_shotAttempts") ->
  get out "corsi_for" = VInt 0.
Proof.
  intros Hout H1 H2 H3.
  destruct (skater_field row season out "corsi_for"
              (if truthy (get row "onIce_corsiPercentage")
               then of_int (safe_int (get row "onIce_corsiPercentage") 0)
               else
                 bind (safe_int (get_default row "I_F_shotAttempts" (VInt 0)) 0) (fun a =>
                 bind (safe_int (get_default row "OnIce_F_shotAttempts" (VInt 0)) 0) (fun b =>
                 Ok (VInt (a + b))))) Hout) as (v & Hv & <-).
  { unfold skater_entries. find_entry. }
  rewrite !get_default_present in Hv by assumption.
  rewrite !safe_int_non_numeric in Hv by assumption.
  destruct (truthy _); simpl in Hv; now injection Hv as <-.
Qed.

Lemma field_of_ok r k v :
  field_of r k = Some v -> exists out, r = Ok out /\ get out k = v.
Proof.
  destruct r as [out|e]; simpl; intros H; [|discriminate].
  exists out. split; [reflexivity | now injection H].
Qed.

(** The claim as worded fails on the float fields that are given the
    default [0.0]: a non-numeric cell then yields [0.0], not [None]. *)
Lemma non_numeric_xgoals_cell_yields_zero :
  let row : dict := {[ "OnIce_F_xGoals" := VStr "n/a" ]} in
  non_numeric (get row "OnIce_F_xGoals")
  /\ exists out,
       _parse_skater_row row "2024" = Ok out
       /\ get out "xg_for" = VFloat (S754_zero false)
       /\ get out "xg_for" <> VNone.
Proof.
  intros row. split.
  - exists "n/a". split; reflexivity.
  - assert (H : field_of (_parse_skater_row row "2024") "xg_for"
                = Some (VFloat (S754_zero false))) by (vm_compute; reflexivity).
    apply field_of_ok in H as (out & E & H).
    exists out. split; [exact E|].
    split; [exact H | rewrite H; discriminate].
Qed.

(** C7, amended.  A cell that [float()] rejects never makes a coercion
    raise: [safe_int] and [safe_float] return their default.  In the
    parsed row every integer field is then 0 and every float field is
    [None], except [xg_for], [xg_against] and [individual_xg] of a
    skater and [xg_against] of a goalie, which are 0.0; a row made of
    such cells only is parsed without an exception. *)
Theorem non_numeric_cells_take_field_defaults :
  (forall v, non_numeric v ->
     (forall d, safe_int v d = Ok d) /\ (forall d, safe_float v d = Ok d))
  /\ (forall row season out,
        _parse_skater_row row season = Ok out ->
        (forall k c, non_numeric (get row c) ->
           (In (k, c) skater_int_fields -> get out k = VInt 0)
           /\ (In (k, c) skater_null_float_fields -> get out k = VNone)
           /\ (In (k, c) skater_zero_float_fields ->
               get out k = VFloat (S754_zero false)))
        /\ (non_numeric (get row "onIce_corsiPercentage") ->
            non_numeric (get row "I_F_shotAttempts") ->
            non_numeric (get row "OnIce_F_shotAttempts") ->
            get out "corsi_for" = VInt 0))
  /\ (forall row season out,
        _parse_goalie_row row season = Ok out ->
        (forall k c, non_numeric (get row c) ->
           (In (k, c) goalie_int_fields -> get out k = VInt 0)
           /\ (In (k, c) goalie_null_float_fields -> get out k = VNone)
           /\ (In (k, c) goalie_zero_float_fields ->
               get out k = VFloat (S754_zero false)))
        /\ (non_numeric (get row "shotsOnGoal") -> get out "shots_against" = VInt 0)
        /\ (non_numeric (get row "goals") -> get out "goals_against" = VInt 0))
  /\ (forall row season y,
        int_of_string season = Some y ->
        (forall c, junk (get row c)) ->
        (exists out, _parse_skater_row row season = Ok out)
        /\ (exists out, _parse_goalie_row row season = Ok out)).
Proof.
  split; [|split; [|split]].
  - intros v H. split; intros d.
    + now apply safe_int_non_numeric.
    + now apply safe_float_non_numeric.
  - intros row season out Hout. split.
    + intros k c Hc. split; [|split]; intros Hin.
      * destruct (skater_field _ _ _ _ _ Hout (skater_int_entry row season k c Hin))
          as (v & Hv & <-).
        rewrite safe_int_non_numeric in Hv by exact Hc. now injection Hv as <-.
      * destruct (skater_field _ _ _ _ _ Hout
                    (proj1 (skater_float_entry row season k c) Hin)) as (v & Hv & <-).
        rewrite safe_float_non_numeric in Hv by exact Hc. now injection Hv as <-.
      * destruct (skater_field _ _ _ _ _ Hout
                    (proj2 (skater_float_entry row season k c) Hin)) as (v & Hv & <-).
        rewrite safe_float_non_numeric in Hv by exact Hc. now injection Hv as <-.
    + exact (skater_corsi_for row season out Hout).
  - intros row season out Hout.
    destruct (goalie_field row season out "shots_against" (Ok (VInt 0)) Hout)
      as (sa & ga & Hsa & Hga & _).
    assert (F : forall k r, In (k, r) (goalie_entries row season sa ga) ->
                            exists v, r = Ok v /\ get out k = v).
    { intros k r Hin.
      destruct (goalie_field row season out k r Hout) as (sa' & ga' & Hsa' & Hga' & F).
      rewrite Hsa in Hsa'. rewrite Hga in Hga'.
      injection Hsa' as <-. injection Hga' as <-. exact (F Hin). }
    split; [|split].
    + intros k c Hc. split; [|split]; intros Hin.
      * destruct (F _ _ (goalie_int_entry row season sa ga k c Hin)) as (v & Hv & <-).
        rewrite safe_int_non_numeric in Hv by exact Hc. now injection Hv as <-.
      * destruct (F _ _ (proj1 (goalie_float_entry row season sa ga k c) Hin))
          as (v & Hv & <-).
        rewrite safe_float_non_numeric in Hv by exact Hc. now injection Hv as <-.
      * destruct (F _ _ (proj2 (goalie_float_entry row season sa ga k c) Hin))
          as (v & Hv & <-).
        rewrite safe_float_non_numeric in Hv by exact Hc. now injection Hv as <-.
    + intros Hc. rewrite safe_int_non_numeric in Hsa by exact Hc.
      injection Hsa as <-.
      destruct (F "shots_against" (Ok (VInt 0))) as (v & Hv & <-);
        [unfold goalie_entries; find_entry | now injection Hv as <-].
    + intros Hc. rewrite safe_int_non_numeric in Hga by exact Hc.
      injection Hga as <-.
      destruct (F "goals_against" (Ok (VInt 0))) as (v & Hv & <-);
        [unfold goalie_entries; find_entry | now injection Hv as <-].
  - intros row season y Hy Hrow. split.
    + exact (junk_row_skater row season y Hy Hrow).
    + exact (junk_row_goalie row season y Hy Hrow).
Qed.

Lemma non_numeric_cells_take_field_defaults_witness :
  let row : dict :=
    {[ "playerId" := VStr "unknown"; "PDO" := VStr "-";
       "OnIce_A_xGoals" := VStr "n/a" ]} in
  exists out,
    _parse_skater_row row "2024" = Ok out
    /\ get out "player_id" = VInt 0
    /\ get out "pdo" = VNone
    /\ get out "xg_against" = VFloat (S754_zero false).
Proof.
  intros row.
  destruct non_numeric_cells_take_field_defaults as (_ & S & _).
  assert (H : field_of (_parse_skater_row row "2024") "source"
              = Some (VStr "moneypuck")) by (vm_compute; reflexivity).
  apply field_of_ok in H as (out & E & _).
  exists out. split; [exact E|].
  destruct (S row "2024" out E) as [F _].
  assert (N1 : non_numeric (get row "playerId")) by (exists "unknown"; split; reflexivity).
  assert (N2 : non_numeric (get row "PDO")) by (exists "-"; split; reflexivity).
  assert (N3 : non_numeric (get row "OnIce_A_xGoals")) by (exists "n/a"; split; reflexivity).
  split; [|split].
  - apply (F "player_id" "playerId" N1). left. reflexivity.
  - apply (F "pdo" "PDO" N2). simpl. tauto.
  - apply (F "xg_against" "OnIce_A_xGoals" N3). simpl. tauto.
Defined.

End CoercionTheorems.

(** ** The persistence layer *)

Section Selection.
Variable K : list (string * value).

Lemma sel_cons r t :
  sel K (r :: t) = if matches K r then r :: sel K t else sel K t.
Proof.
  unfold sel. rewrite filter_cons.
  destruct (matches K r); case_decide; congruence.
Qed.

Lemma sel_app t1 t2 : sel K (t1 ++ t2) = sel K t1 ++ sel K t2.
Proof. apply filter_app. Qed.

Lemma query_first_cons r t :
  query_first K (r :: t) =
    if matches K r then Some (O, r)
    else match query_first K t with
         | Some (i, ex) => Some (S i, ex)
         | None => None
         end.
Proof.
  unfold query_first. csimpl.
  destruct (matches K r) eqn:E; case_decide; try congruence.
  destruct (list_find _ t) as [[i ex]|]; reflexivity.
Qed.

Lemma query_first_none t : query_first K t = None <-> sel K t = [].
Proof.
  induction t as [|r t IH]; [split; reflexivity|].
  rewrite query_first_cons, sel_cons. destruct (matches K r).
  - split; discriminate.
  - rewrite <- IH. destruct (query_first K t) as [[i ex]|]; split;
      congruence.
Qed.

Lemma query_first_found t i ex :
  query_first K t = Some (i, ex) ->
  t !! i = Some ex /\ matches K ex = true /\ exists rest, sel K t = ex :: rest.
Proof.
  revert i. induction t as [|r t IH]; intros i; [discriminate|].
  rewrite query_first_cons, sel_cons. destruct (matches K r) eqn:E.
  - intros [= <- <-]. eauto.
  - destruct (query_first K t) as [[j ex']|]; [|discriminate].
    intros [= <- <-]. destruct (IH j eq_refl) as (? & ? & ?). auto.
Qed.

(** The row found is rewritten in place *)
Lemma sel_update_same t i ex w :
  query_first K t = Some (i, ex) ->
  matches K w = true ->
  exists rest, sel K t = ex :: rest /\ sel K (<[i := w]> t) = w :: rest.
Proof.
  revert i. induction t as [|r t IH]; intros i; [discriminate|].
  rewrite query_first_cons. destruct (matches K r) eqn:E.
  - intros [= <- <-] Hw. exists (sel K t). simpl.
    rewrite !sel_cons, E, Hw. auto.
  - destruct (query_first K t) as [[j ex']|] eqn:F; [|discriminate].
    intros [= <- <-] Hw. destruct (IH j eq_refl Hw) as (rest & H1 & H2).
    exists rest. simpl. rewrite !sel_cons, E. auto.
Qed.

Lemma sel_insert_same t w :
  query_first K t = None -> matches K w = true -> sel K (t ++ [w]) = [w].
Proof.
  intros H Hw. apply query_first_none in H.
  rewrite sel_app, H, sel_cons, Hw. reflexivity.
Qed.

End Selection.

Section Interference.
Variables K K' : list (string * value).

(** Writes made for the key [K] leave the rows of a key [K'] that no
    row shares with [K] as they are. *)
Lemma sel_update_other t i ex w :
  query_first K t = Some (i, ex) ->
  matches K' ex = false ->
  matches K' w = false ->
  sel K' (<[i := w]> t) = sel K' t.
Proof.
  revert i. induction t as [|r t IH]; intros i; [discriminate|].
  rewrite query_first_cons. destruct (matches K r) eqn:E.
  - intros [= <- <-] Hex Hw. simpl. now rewrite !sel_cons, Hex, Hw.
  - destruct (query_first K t) as [[j ex']|] eqn:F; [|discriminate].
    intros [= <- <-] Hex Hw. simpl. rewrite !sel_cons, (IH j eq_refl Hex Hw).
    reflexivity.
Qed.

Lemma sel_insert_other t w :
  matches K' w = false -> sel K' (t ++ [w]) = sel K' t.
Proof.
  intros Hw. rewrite sel_app, sel_cons, Hw. apply app_nil_r.
Qed.

End Interference.

(** * Vocabulary *)

Section Persistence.
Variable utc : nat -> Z.
Variable repr_ : value -> string.

Lemma process_skip e st n ctx rec :
  truthy (get rec (primary e)) = false ->
  process utc repr_ e (st, n) (ctx, rec) = (st, n).
Proof.
  intros H. 
  destruct e; cbn [process primary fst snd] in *.
  - unfold upsert_players_body. rewrite H. reflexivity.
  - unfold upsert_teams_body. rewrite H. reflexivity.
  - unfold upsert_games_body. rewrite H. reflexivity.
  - unfold upsert_contracts_body. rewrite H. reflexivity.
  - unfold upsert_advanced_stats_body. rewrite H. reflexivity.
  - unfold upsert_rosters_player. rewrite H. reflexivity.
Qed.
Ltac open_body :=
  unfold upsert_players_body, upsert_teams_body, upsert_games_body,
    upsert_contracts_body, upsert_advanced_stats_body, upsert_rosters_player,
    session_get.

Lemma process_write e st n ctx rec :
  truthy (get rec (primary e)) = true ->
  exists t',
    process utc repr_ e (st, n) (ctx, rec)
      = (State (with_table e t' (db st)) (S (ticks st)), (n + 1)%Z)
    /\ match query_first (key_in e ctx rec) (table_of e (db st)) with
       | Some (i, ex) =>
           t' = <[i := updated utc repr_ e rec (ticks st) ex]> (table_of e (db st))
       | None =>
           exists kw,
             t' = table_of e (db st)
                  ++ [new_row utc (schema e) kw (table_of e (db st)) (ticks st)]
             /\ inserted_with e (key_in e ctx rec) rec kw
       end.
Proof.
  intros H.
  destruct e; cbn [process primary key_in table_of fst snd] in *;
    open_body; rewrite H; cbn [negb];
    match goal with
    | |- context [query_first ?K ?t] => destruct (query_first K t) as [[i ex]|]
    end.
  all: try (eexists; split; [reflexivity | reflexivity]).
  all: eexists; split; [reflexivity|]; eexists; split; [reflexivity|].
  all: unfold inserted_with; cbn [kwarg String.eqb Ascii.eqb Bool.eqb].
  all: repeat (split; [reflexivity|]).
  all: try (split; [repeat (apply List.Forall_cons; [reflexivity|]); apply List.Forall_nil|]).
  all: try (intros [?|?]; discriminate).
  all: try (intros _; reflexivity).
Qed.

(** ** Attributes of the rows written *)

Lemma getattr_setattr r c v c' :
  getattr (setattr r c v) c' = if String.eqb c c' then v else getattr r c'.
Proof.
  unfold getattr, setattr. destruct (String.eqb_spec c c') as [->|Hne].
  - now rewrite lookup_insert_eq.
  - now rewrite lookup_insert_ne.
Qed.

Lemma getattr_refresh rec c k r c' :
  getattr (refresh rec c k r) c'
  = if String.eqb c c' then get_default rec k (getattr r c) else getattr r c'.
Proof. unfold refresh. apply getattr_setattr. Qed.

Lemma getattr_refresh_all_other fields rec ex c :
  ~ In c (map fst fields) ->
  getattr (refresh_all fields rec ex) c = getattr ex c.
Proof.
  unfold refresh_all. revert ex.
  induction fields as [|[c0 k0] fields IH]; intros ex Hc; [reflexivity|].
  simpl in *. rewrite IH by tauto. rewrite getattr_refresh.
  destruct (String.eqb_spec c0 c) as [->|]; [tauto | reflexivity].
Qed.

Lemma getattr_refresh_all_field fields rec ex c k :
  List.NoDup (map fst fields) ->
  In (c, k) fields ->
  getattr (refresh_all fields rec ex) c = get_default rec k (getattr ex c).
Proof.
  unfold refresh_all. revert ex.
  induction fields as [|[c0 k0] fields IH]; intros ex Hnd Hin; [destruct Hin|].
  simpl in *. inversion Hnd as [|x xs Hnotin Hnd']; subst.
  destruct Hin as [[= -> ->]|Hin].
  - fold (refresh_all fields rec (refresh rec c k ex)).
    rewrite getattr_refresh_all_other by exact Hnotin.
    rewrite getattr_refresh, String.eqb_refl. reflexivity.
  - rewrite (IH _ Hnd' Hin). rewrite getattr_refresh.
    destruct (String.eqb_spec c0 c) as [->|]; [|reflexivity].
    exfalso. apply Hnotin. apply (in_map fst) in Hin. exact Hin.
Qed.

Lemma getattr_pre_update e rec ex c :
  ~ In c (touched e) -> getattr (pre_update repr_ e rec ex) c = getattr ex c.
Proof.
  intros Hc. destruct e; try reflexivity.
  unfold pre_update. rewrite getattr_setattr.
  destruct (String.eqb_spec "player_name" c) as [<-|]; [|reflexivity].
  exfalso. apply Hc. unfold touched. rewrite !in_app_iff. simpl. tauto.
Qed.

Lemma getattr_updated_other e rec n ex c :
  ~ In c (touched e) -> getattr (updated utc repr_ e rec n ex) c = getattr ex c.
Proof.
  intros Hc. unfold updated. rewrite !getattr_setattr.
  assert (H := Hc). unfold touched in H. rewrite !in_app_iff in H. simpl in H.
  destruct (String.eqb_spec "updated_at" c) as [<-|]; [tauto|].
  destruct (String.eqb_spec "raw_data" c) as [<-|]; [tauto|].
  rewrite getattr_refresh_all_other by tauto.
  now apply getattr_pre_update.
Qed.

Lemma getattr_updated_time e rec n ex :
  getattr (updated utc repr_ e rec n ex) "updated_at" = VDateTime (utc n).
Proof. unfold updated. now rewrite getattr_setattr. Qed.

Lemma getattr_updated_raw e rec n ex :
  getattr (updated utc repr_ e rec n ex) "raw_data" = VDict rec.
Proof. unfold updated. now rewrite !getattr_setattr. Qed.

Lemma mutable_fields_nodup e : List.NoDup (map fst (mutable_fields e)).
Proof.
  destruct e; cbn [mutable_fields map fst];
    repeat (apply List.NoDup_cons; [cbn [In]; intuition discriminate|]);
    apply List.NoDup_nil.
Qed.

Lemma getattr_updated_field e rec n ex c k :
  In (c, k) (mutable_fields e) ->
  getattr (updated utc repr_ e rec n ex) c = get_default rec k (getattr ex c).
Proof.
  intros Hin. unfold updated. rewrite !getattr_setattr.
  assert (N : c <> "raw_data" /\ c <> "updated_at").
  { destruct e; cbn [mutable_fields In] in Hin;
      repeat (destruct Hin as [[= <- <-]|Hin]; [split; discriminate|]);
      destruct Hin. }
  destruct N as [N1 N2].
  destruct (String.eqb_spec "updated_at" c) as [<-|]; [congruence|].
  destruct (String.eqb_spec "raw_data" c) as [<-|]; [congruence|].
  rewrite (getattr_refresh_all_field _ _ _ _ _ (mutable_fields_nodup e) Hin).
  f_equal. destruct e; try reflexivity.
  unfold pre_update. rewrite getattr_setattr.
  destruct (String.eqb_spec "player_name" c) as [<-|]; [|reflexivity].
  cbn [mutable_fields In] in Hin.
  repeat (destruct Hin as [[= ]|Hin]); destruct Hin.
Qed.

Lemma getattr_new_row cols kw t n c :
  getattr (new_row utc cols kw t n) c
  = match List.find (fun col => String.eqb (col_name col) c) cols with
    | Some col => insert_value utc kw t n col
    | None => VNone
    end.
Proof.
  induction cols as [|col cols IH]; [reflexivity|].
  cbn [new_row fold_right List.find]. fold (new_row utc cols kw t n).
  rewrite getattr_setattr. destruct (String.eqb (col_name col) c); [reflexivity|].
  exact IH.
Qed.

(** ** Keys *)

Lemma key_in_columns e ctx rec : map fst (key_in e ctx rec) = key_columns e.
Proof. destruct e; reflexivity. Qed.

Lemma key_columns_untouched e c : In c (key_columns e) -> ~ In c (touched e).
Proof.
  destruct e; cbn [key_columns In]; intros H;
    repeat (destruct H as [<-|H];
            [cbn [touched mutable_fields map fst app In]; intuition discriminate|]);
    destruct H.
Qed.

Lemma key_columns_in_schema e c :
  In c (key_columns e) ->
  exists col, List.find (fun col => String.eqb (col_name col) c) (schema e) = Some col
              /\ col_name col = c
              /\ (col_dflt col = NoDefault \/ exists v, col_dflt col = DefaultValue v).
Proof.
  destruct e; cbn [key_columns In]; intros H;
    repeat (destruct H as [<-|H];
            [eexists; split; [reflexivity|]; split; [reflexivity|]; eauto|]);
    destruct H.
Qed.

Lemma float_eqb_eq x y : float_eqb x y = true -> x = y.
Proof.
  destruct x, y; simpl; try discriminate; try reflexivity.
  - intros H. apply Bool.eqb_prop in H. congruence.
  - intros H. apply Bool.eqb_prop in H. congruence.
  - intros H. apply andb_prop in H as [H He]. apply andb_prop in H as [Hs Hm].
    apply Bool.eqb_prop in Hs. apply Pos.eqb_eq in Hm. apply Z.eqb_eq in He.
    congruence.
Qed.

Lemma sql_eq_eq a b : sql_eq a b = true -> a = b.
Proof.
  destruct a, b; simpl; try discriminate; try reflexivity; intros H.
  - apply Bool.eqb_prop in H. congruence.
  - apply Z.eqb_eq in H. congruence.
  - apply float_eqb_eq in H. congruence.
  - apply String.eqb_eq in H. congruence.
  - apply Z.eqb_eq in H. congruence.
Qed.

Lemma matches_cons c v K r :
  matches ((c, v) :: K) r = sql_eq (getattr r c) v && matches K r.
Proof. reflexivity. Qed.

Lemma matches_agree K r1 r2 :
  (forall c, In c (map fst K) -> getattr r1 c = getattr r2 c) ->
  matches K r1 = matches K r2.
Proof.
  induction K as [|[c v] K IH]; intros H; [reflexivity|].
  rewrite !matches_cons, (H c), IH; [reflexivity | | left; reflexivity].
  intros c' Hc'. apply H. right. exact Hc'.
Qed.

(** A row answers to one key only *)
Lemma matches_same_key K K' r :
  map fst K = map fst K' ->
  matches K r = true -> matches K' r = true -> K = K'.
Proof.
  revert K'. induction K as [|[c v] K IH]; intros [|[c' v'] K'] Hc; try discriminate.
  - reflexivity.
  - simpl in Hc. injection Hc as <- Hc.
    rewrite !matches_cons. intros H H'.
    apply andb_prop in H as [H1 H2]. apply andb_prop in H' as [H1' H2'].
    apply sql_eq_eq in H1, H1'. rewrite (IH K' Hc H2 H2'). congruence.
Qed.

Lemma matches_updated e rec n ex K :
  map fst K = key_columns e ->
  matches K (updated utc repr_ e rec n ex) = matches K ex.
Proof.
  intros HK. apply matches_agree. intros c Hc. rewrite HK in Hc.
  apply getattr_updated_other. now apply key_columns_untouched.
Qed.

Lemma insert_value_given kw t n col v :
  kwarg kw (col_name col) = v -> v <> VNone ->
  insert_value utc kw t n col = v.
Proof.
  unfold insert_value. intros E H. rewrite E. destruct v; congruence.
Qed.

Lemma insert_value_plain kw t n col :
  col_dflt col = NoDefault ->
  insert_value utc kw t n col = kwarg kw (col_name col).
Proof.
  unfold insert_value. intros ->. destruct (kwarg kw (col_name col)); reflexivity.
Qed.

Lemma new_row_key e K kw t n :
  map fst K = key_columns e ->
  Forall (fun cv => kwarg kw (fst cv) = snd cv) K ->
  stable K ->
  forall c v, In (c, v) K -> getattr (new_row utc (schema e) kw t n) c = v.
Proof.
  intros HK Hkw Hst c v Hin.
  assert (Hc : In c (key_columns e)).
  { rewrite <- HK. apply (in_map fst) in Hin. exact Hin. }
  destruct (key_columns_in_schema e c Hc) as (col & Hf & Hn & _).
  rewrite getattr_new_row, Hf.
  unfold stable in Hst. rewrite List.Forall_forall in Hkw, Hst.
  apply insert_value_given.
  - rewrite Hn. exact (Hkw _ Hin).
  - exact (proj2 (Hst _ Hin)).
Qed.

Lemma matches_new_row e K kw t n :
  map fst K = key_columns e ->
  Forall (fun cv => kwarg kw (fst cv) = snd cv) K ->
  stable K ->
  matches K (new_row utc (schema e) kw t n) = true.
Proof.
  intros HK Hkw Hst. unfold matches. apply forallb_forall. intros [c v] Hin.
  cbn [fst snd]. rewrite (new_row_key e K kw t n HK Hkw Hst c v Hin).
  unfold stable in Hst. rewrite List.Forall_forall in Hst.
  exact (proj1 (Hst _ Hin)).
Qed.

Lemma new_row_time e K rec kw t n :
  inserted_with e K rec kw ->
  getattr (new_row utc (schema e) kw t n) "updated_at" = VDateTime (utc n).
Proof.
  intros (Ht & _). rewrite getattr_new_row.
  destruct e; cbn [schema PlayerRecord TeamRecord GameRecord ContractRecord
                   AdvancedStatsRecord RosterRecord List.find col_name
                   String.eqb Ascii.eqb Bool.eqb];
    unfold insert_value; cbn [col_name col_dflt]; rewrite Ht; reflexivity.
Qed.

Lemma new_row_raw e K rec kw t n :
  inserted_with e K rec kw ->
  getattr (new_row utc (schema e) kw t n) "raw_data" = VDict rec.
Proof.
  intros (_ & _ & Hr & _). rewrite getattr_new_row.
  destruct e; cbn [schema PlayerRecord TeamRecord GameRecord ContractRecord
                   AdvancedStatsRecord RosterRecord List.find col_name
                   String.eqb Ascii.eqb Bool.eqb];
    unfold insert_value; cbn [col_name col_dflt]; rewrite Hr; reflexivity.
Qed.

Lemma has_source_column_spec e :
  has_source_column e = true <-> e = Contracts \/ e = AdvancedStats.
Proof.
  destruct e; vm_compute; split; intros H; try discriminate; auto;
    destruct H; discriminate.
Qed.

Lemma new_row_source e K rec kw t n :
  inserted_with e K rec kw ->
  getattr (new_row utc (schema e) kw t n) "source"
  = if has_source_column e then get rec "source" else VNone.
Proof.
  intros (_ & _ & _ & _ & Hs). rewrite getattr_new_row.
  destruct e; cbn [schema PlayerRecord TeamRecord GameRecord ContractRecord
                   AdvancedStatsRecord RosterRecord List.find col_name
                   String.eqb Ascii.eqb Bool.eqb];
    try reflexivity;
    rewrite insert_value_plain by reflexivity; cbn [col_name];
    rewrite Hs by auto; reflexivity.
Qed.

Lemma updated_source e rec n ex :
  getattr (updated utc repr_ e rec n ex) "source" = getattr ex "source".
Proof.
  apply getattr_updated_other.
  destruct e; cbn [touched mutable_fields map fst app In]; intuition discriminate.
Qed.

(** ** One iteration, seen from a key *)

Lemma table_of_with_table e t d : table_of e (with_table e t d) = t.
Proof. destruct e; reflexivity. Qed.

Lemma table_of_with_table_ne e e' t d :
  e <> e' -> table_of e' (with_table e t d) = table_of e' d.
Proof. destruct e, e'; intros H; try reflexivity; congruence. Qed.

Lemma carries_key_stable e ctx rec :
  carries_key e ctx rec -> stable (key_in e ctx rec).
Proof. intros [_ H]. exact H. Qed.

(** The iteration of a record that carries its key leaves one more
    row for the key if there was none and rewrites the first row of
    the key otherwise. *)
Lemma process_same e st n ctx rec :
  carries_key e ctx rec ->
  let K := key_in e ctx rec in
  exists st' w rest,
    process utc repr_ e (st, n) (ctx, rec) = (st', (n + 1)%Z)
    /\ ticks st' = S (ticks st)
    /\ sel K (table_of e (db st')) = w :: rest
    /\ (sel K (table_of e (db st)) = [] /\ rest = []
        /\ getattr w "source"
           = (if has_source_column e then get rec "source" else VNone)
        \/ exists ex, sel K (table_of e (db st)) = ex :: rest
                      /\ w = updated utc repr_ e rec (ticks st) ex)
    /\ getattr w "updated_at" = VDateTime (utc (ticks st))
    /\ getattr w "raw_data" = VDict rec.
Proof.
  intros Hck K. pose proof (carries_key_stable _ _ _ Hck) as Hst.
  destruct Hck as [Htr _].
  destruct (process_write e st n ctx rec Htr) as (t' & Hp & Ht').
  fold K in Ht', Hst. rewrite Hp.
  assert (HK : map fst K = key_columns e) by apply key_in_columns.
  destruct (query_first K (table_of e (db st))) as [[i ex]|] eqn:Q.
  - subst t'.
    assert (Hm : matches K (updated utc repr_ e rec (ticks st) ex) = true).
    { rewrite (matches_updated e rec _ ex K HK).
      now destruct (query_first_found K _ _ _ Q) as (_ & ? & _). }
    destruct (sel_update_same K _ _ _ _ Q Hm) as (rest & H1 & H2).
    exists (State (with_table e (<[i:=updated utc repr_ e rec (ticks st) ex]> (table_of e (db st)))
                              (db st)) (S (ticks st))),
      (updated utc repr_ e rec (ticks st) ex), rest.
    cbn [db ticks]. rewrite table_of_with_table.
    split; [reflexivity|]. split; [reflexivity|]. split; [exact H2|].
    split; [right; exists ex; auto|].
    split; [apply getattr_updated_time | apply getattr_updated_raw].
  - destruct Ht' as (kw & -> & Hkw).
    pose proof Hkw as (_ & _ & _ & HkwK & _).
    set (w := new_row utc (schema e) kw (table_of e (db st)) (ticks st)).
    assert (Hm : matches K w = true) by (apply matches_new_row; assumption).
    exists (State (with_table e (table_of e (db st) ++ [w]) (db st)) (S (ticks st))),
      w, [].
    cbn [db ticks]. rewrite table_of_with_table.
    split; [reflexivity|]. split; [reflexivity|].
    split; [now apply sel_insert_same|].
    split.
    { left. split; [now apply query_first_none|]. split; [reflexivity|].
      exact (new_row_source e K rec kw _ _ Hkw). }
    split; [exact (new_row_time e K rec kw _ _ Hkw)
           | exact (new_row_raw e K rec kw _ _ Hkw)].
Qed.

(** It leaves the rows of every other key alone. *)
Lemma process_other e st n ctx rec K' :
  map fst K' = key_columns e ->
  keyed e (ctx, rec) ->
  (truthy (get rec (primary e)) = true -> key_in e ctx rec <> K') ->
  sel K' (tab e (process utc repr_ e (st, n) (ctx, rec))) = sel K' (table_of e (db st)).
Proof.
  intros HK' Hkeyed Hne.
  destruct (truthy (get rec (primary e))) eqn:Htr.
  2:{ rewrite process_skip by exact Htr. reflexivity. }
  specialize (Hkeyed Htr). specialize (Hne eq_refl). cbn [fst snd] in Hkeyed.
  pose proof (carries_key_stable _ _ _ Hkeyed) as Hst.
  set (K := key_in e ctx rec) in *.
  assert (HK : map fst K = key_columns e) by apply key_in_columns.
  destruct (process_write e st n ctx rec Htr) as (t' & Hp & Ht').
  fold K in Ht'. rewrite Hp. unfold tab. cbn [fst db].
  rewrite table_of_with_table.
  assert (Hex : forall r, matches K r = true -> matches K' r = false).
  { intros r Hr. destruct (matches K' r) eqn:E; [|reflexivity].
    exfalso. apply Hne. apply (matches_same_key K K' r); congruence. }
  destruct (query_first K (table_of e (db st))) as [[i ex]|] eqn:Q.
  - subst t'. destruct (query_first_found K _ _ _ Q) as (_ & Hm & _).
    apply (sel_update_other K K' _ _ _ _ Q); [now apply Hex|].
    rewrite (matches_updated e rec _ ex K' HK'). now apply Hex.
  - destruct Ht' as (kw & -> & Hkw).
    pose proof Hkw as (_ & _ & _ & HkwK & _).
    apply sel_insert_other. apply Hex. now apply matches_new_row.
Qed.



(** ** A whole batch *)

Lemma run_cons e it items acc :
  run utc repr_ e (it :: items) acc = run utc repr_ e items (process utc repr_ e acc it).
Proof. reflexivity. Qed.

Lemma run_app e l1 l2 acc : run utc repr_ e (l1 ++ l2) acc = run utc repr_ e l2 (run utc repr_ e l1 acc).
Proof. apply fold_left_app. Qed.


Lemma run_count e items acc :
  snd (run utc repr_ e items acc)
  = (snd acc + Z.of_nat (length (List.filter (processed e) items)))%Z.
Proof.
  revert acc. induction items as [|[ctx rec] items IH]; intros [st n].
  - cbn [run fold_left List.filter length snd]. lia.
  - rewrite run_cons, IH. cbn [List.filter]. unfold processed at 2. cbn [snd].
    destruct (truthy (get rec (primary e))) eqn:Htr.
    + destruct (process_write e st n ctx rec Htr) as (t' & -> & _).
      cbn [snd length]. rewrite Nat2Z.inj_succ. lia.
    + rewrite process_skip by exact Htr. reflexivity.
Qed.

Lemma run_other e items acc K' :
  map fst K' = key_columns e ->
  Forall (keyed e) items ->
  apart e K' items ->
  sel K' (tab e (run utc repr_ e items acc)) = sel K' (tab e acc).
Proof.
  intros HK'. revert acc.
  induction items as [|[ctx rec] items IH]; intros [st n] Hk Ha; [reflexivity|].
  inversion Hk as [|x xs Hk1 Hk2]; subst. inversion Ha as [|x xs Ha1 Ha2]; subst.
  rewrite run_cons, (IH _ Hk2 Ha2).
  destruct (process utc repr_ e (st, n) (ctx, rec)) as [st' n'] eqn:E.
  pose proof (process_other e st n ctx rec K' HK' Hk1 Ha1) as H.
  rewrite E in H. exact H.
Qed.




(** ** The operations as batches of iterations *)

Lemma fold_left_items {A} (f : state * Z -> A -> state * Z) e (g : A -> (value * value) * dict)
      (l : list A) acc :
  (forall a x, f a x = process utc repr_ e a (g x)) ->
  fold_left f l acc = run utc repr_ e (map g l) acc.
Proof.
  intros H. revert acc. induction l as [|x l IH]; intros acc; [reflexivity|].
  cbn [fold_left map]. rewrite run_cons, <- H. apply IH.
Qed.

Lemma roster_player_process t s acc p :
  upsert_rosters_player utc repr_ t s acc (VDict p)
  = Ok (process utc repr_ Rosters acc ((t, s), p)).
Proof.
  destruct acc as [st n]. cbn [process fst snd]. unfold upsert_rosters_player.
  destruct (negb (truthy (get p "player_id"))); [reflexivity|].
  destruct (query_first _ _) as [[i ex]|]; reflexivity.
Qed.

Lemma for_each_players t s ps ds acc :
  dicts ps = Some ds ->
  for_each (upsert_rosters_player utc repr_ t s) ps acc
  = Ok (run utc repr_ Rosters (map (fun p => ((t, s), p)) ds) acc).
Proof.
  revert ds acc. induction ps as [|v ps IH]; intros ds acc H.
  - injection H as <-. reflexivity.
  - cbn [dicts] in H. destruct v; try discriminate.
    destruct (dicts ps) as [ds'|] eqn:E; [|discriminate].
    injection H as <-. cbn [for_each map]. rewrite roster_player_process.
    cbn [bind]. rewrite run_cons. now apply IH.
Qed.

Lemma for_each_snapshots snaps items acc :
  roster_items snaps = Some items ->
  for_each (upsert_rosters_body utc repr_) snaps acc = Ok (run utc repr_ Rosters items acc).
Proof.
  revert items acc. induction snaps as [|snap snaps IH]; intros items acc H.
  - injection H as <-. reflexivity.
  - cbn [roster_items] in H.
    destruct (snapshot_items snap) as [a|] eqn:Ea; [|discriminate].
    destruct (roster_items snaps) as [b|] eqn:Eb; [|discriminate].
    injection H as <-. cbn [for_each]. unfold upsert_rosters_body.
    unfold snapshot_items in Ea.
    destruct (all_players snap) as [ps|]; [|discriminate].
    destruct (dicts ps) as [ds|] eqn:Ed; [|discriminate].
    injection Ea as <-. cbn [bind]. rewrite (for_each_players _ _ _ _ _ Ed).
    cbn [bind]. rewrite run_app. now apply IH.
Qed.

Lemma upsert_run e st batch items :
  items_of e batch = Some items ->
  upsert utc repr_ e st batch = Ok (run utc repr_ e items (st, 0%Z)).
Proof.
  destruct e; cbn [items_of upsert]; intros H;
    try (injection H as <-; f_equal;
         apply fold_left_items; intros a x; reflexivity).
  unfold upsert_rosters. now apply for_each_snapshots.
Qed.

(** ** The claims on the persistence layer *)



(** C9, amended.  Every operation is a sequence of iterations, and
    every iteration that writes (the tested entry of the record is
    true, whatever the rest of its key) writes one row, appended or
    rewritten in place: the row holds the reading of the clock taken
    for it in [updated_at] and the record itself in [raw_data], on an
    insert as on an update.  A provenance is stored by the two
    classes that have a [source] column, contracts and advanced
    stats, and only on an insert, from the entry "source" of the
    record (NULL without it); an update leaves it as it was.  For a
    record that carries its whole key, the row written is the first
    of its key. *)
Theorem every_write_sets_updated_at (e : entity) :
  (forall st batch items,
     items_of e batch = Some items ->
     upsert utc repr_ e st batch = Ok (fold_left (process utc repr_ e) items (st, 0%Z)))
  /\ (has_source_column e = true <-> e = Contracts \/ e = AdvancedStats)
  /\ (forall st n ctx p,
        processed e (ctx, p) = true ->
        exists st' w,
          process utc repr_ e (st, n) (ctx, p) = (st', (n + 1)%Z)
          /\ getattr w "updated_at" = VDateTime (utc (ticks st))
          /\ getattr w "raw_data" = VDict p
          /\ (table_of e (db st') = table_of e (db st) ++ [w]
              /\ getattr w "source"
                 = (if has_source_column e then get p "source" else VNone)
              \/ exists i ex,
                   table_of e (db st) !! i = Some ex
                   /\ table_of e (db st') = <[i := w]> (table_of e (db st))
                   /\ getattr w "source" = getattr ex "source"))
  /\ (forall st n ctx p,
        carries_key e ctx p ->
        let K := key_in e ctx p in
        exists st' w rest,
          process utc repr_ e (st, n) (ctx, p) = (st', (n + 1)%Z)
          /\ sel K (table_of e (db st')) = w :: rest
          /\ getattr w "updated_at" = VDateTime (utc (ticks st))
          /\ getattr w "raw_data" = VDict p
          /\ (sel K (table_of e (db st)) = []
              /\ getattr w "source"
                 = (if has_source_column e then get p "source" else VNone)
              \/ exists ex, sel K (table_of e (db st)) = ex :: rest
                            /\ getattr w "source" = getattr ex "source")).
Proof.
  split; [|split; [|split]].
  - intros st batch items H. exact (upsert_run e st batch items H).
  - apply has_source_column_spec.
  - intros st n ctx p Htr. unfold processed in Htr. cbn [snd] in Htr.
    destruct (process_write e st n ctx p Htr) as (t' & Hp & Ht').
    rewrite Hp.
    destruct (query_first (key_in e ctx p) (table_of e (db st))) as [[i ex]|] eqn:Q.
    + subst t'.
      exists (State (with_table e (<[i:=updated utc repr_ e p (ticks st) ex]>
                                     (table_of e (db st))) (db st)) (S (ticks st))),
        (updated utc repr_ e p (ticks st) ex).
      cbn [db]. rewrite table_of_with_table.
      split; [reflexivity|].
      split; [apply getattr_updated_time|].
      split; [apply getattr_updated_raw|].
      right. exists i, ex.
      split; [now destruct (query_first_found _ _ _ _ Q) as (? & _)|].
      split; [reflexivity | apply updated_source].
    + destruct Ht' as (kw & -> & Hkw).
      exists (State (with_table e (table_of e (db st)
                                   ++ [new_row utc (schema e) kw (table_of e (db st))
                                               (ticks st)]) (db st)) (S (ticks st))),
        (new_row utc (schema e) kw (table_of e (db st)) (ticks st)).
      cbn [db]. rewrite table_of_with_table.
      split; [reflexivity|].
      split; [exact (new_row_time e _ p kw _ _ Hkw)|].
      split; [exact (new_row_raw e _ p kw _ _ Hkw)|].
      left. split; [reflexivity | exact (new_row_source e _ p kw _ _ Hkw)].
  - intros st n ctx p Hck K.
    destruct (process_same e st n ctx p Hck)
      as (st' & w & rest & Hp & _ & Hsel & Hold & Htime & Hraw).
    exists st', w, rest. repeat (split; [assumption|]).
    destruct Hold as [(Hnil & _ & Hsrc)|(ex & Hex & ->)].
    + left. split; assumption.
    + right. exists ex. split; [exact Hex | apply updated_source].
Qed.

End Persistence.

(** ** Concrete runs *)




(** As worded, C9 fails for the classes without a [source] column: the
    row stored for a team has no provenance, whatever the record says. *)
Lemma team_row_has_no_source :
  get toronto "source" = VStr "nhl_api"
  /\ sources (teams (db (fst (upsert_teams utc0 boot [toronto])))) = [None]
  /\ sources (teams (db (fst (upsert_teams utc0
                 (fst (upsert_teams utc0 boot [toronto])) [toronto])))) = [None]
  /\ sources (contracts (db (fst (upsert_contracts utc0 boot [free_agent]))))
     = [Some VNone].
Proof. repeat split; vm_compute; reflexivity. Qed.

Lemma every_write_sets_updated_at_witness :
  (exists st' w,
     process utc0 repr0 Contracts (boot, 0%Z) ((VNone, VNone), free_agent) = (st', 1%Z)
     /\ contracts (db st') = [w]
     /\ getattr w "updated_at" = VDateTime 1700000000
     /\ getattr w "raw_data" = VDict free_agent
     /\ getattr w "source" = VNone)
  /\ exists st' w rest,
       process utc0 repr0 Contracts (boot, 0%Z)
               ((VStr "FLA", VNone), <["team_abbrev" := VStr "FLA"]> free_agent)
       = (st', 1%Z)
       /\ sel [("player_name", VStr "Jaromir Jagr"); ("team_abbrev", VStr "FLA")]
              (contracts (db st')) = w :: rest
       /\ getattr w "updated_at" = VDateTime 1700000000.
Proof.
  destruct (every_write_sets_updated_at utc0 repr0 Contracts) as (_ & _ & W & H).
  split.
  - destruct (W boot 0%Z (VNone, VNone) free_agent eq_refl)
      as (st' & w & H1 & H2 & H3 & [[H4 H5] | (i & ex & H4 & _)]).
    + exists st', w. split; [exact H1|]. split; [exact H4|].
      split; [exact H2|]. split; [exact H3 | exact H5].
    + destruct i; discriminate H4.
  - assert (Hck : carries_key Contracts (VStr "FLA", VNone)
                              (<["team_abbrev" := VStr "FLA"]> free_agent)).
    { split; [reflexivity|]. repeat constructor; discriminate. }
    destruct (H boot 0%Z _ _ Hck) as (st' & w & rest & H1 & H2 & H3 & _).
    exists st', w, rest. split; [exact H1|]. split; [exact H2 | exact H3].
Defined.

(** A roster snapshot upserted twice keeps one row per player. *)
Example roster_snapshot_twice :
  let player (id : Z) (last : string) : value :=
    VDict {[ "player_id" := VInt id; "first_name" := VStr "A.";
             "last_name" := VStr last; "position" := VStr "C" ]} in
  let snapshot : dict :=
    {[ "team_abbrev" := VStr "EDM"; "season" := VStr "20242025";
       "forwards" := VList [player 97%Z "McDavid"; player 29%Z "Draisaitl"];
       "goalies" := VList [player 74%Z "Skinner"] ]} in
  match upsert_rosters utc0 repr0 boot [snapshot] with
  | Ok (st1, n1) =>
      match upsert_rosters utc0 repr0 st1 [snapshot] with
      | Ok (st2, n2) =>
          (n1, n2, length (rosters (db st2)),
           map (fun r => getattr r "player_name") (rosters (db st2)))
      | Raise _ => (0%Z, 0%Z, O, [])
      end
  | Raise _ => (0%Z, 0%Z, O, [])
  end
  = (3%Z, 3%Z, 3, [VStr "A. McDavid"; VStr "A. Draisaitl"; VStr "A. Skinner"]).
Proof. vm_compute. reflexivity. Qed.

(* ================================================================== *)
(** * Further properties of the code                                   *)
(* ================================================================== *)

(** ** [str] and [int] on integers *)

Section Decimal.
Local Open Scope Z_scope.

Lemma digit_char_val d : 0 <= d <= 9 ->
  digit_val (digit_char d) = d /\ is_digit (digit_char d) = true.
Proof.
  intros H.
  assert (E : d = 0 \/ d = 1 \/ d = 2 \/ d = 3 \/ d = 4 \/ d = 5 \/ d = 6 \/ d = 7
              \/ d = 8 \/ d = 9) by lia.
  repeat (destruct E as [->|E]; [split; reflexivity|]). subst d. split; reflexivity.
Qed.

Lemma all_digits_cons c s :
  all_digits (String c s) = is_digit c && all_digits s.
Proof. reflexivity. Qed.

Lemma decimal_app a b acc : decimal (a +:+ b) acc = decimal b (decimal a acc).
Proof.
  revert acc. induction a as [|c a IH]; intros acc; [reflexivity|].
  rewrite append_cons. cbn [decimal]. apply IH.
Qed.

(** The digits [digits_of] puts before [acc] *)
Lemma digits_of_spec fuel : forall n acc,
  0 <= n < 10 ^ Z.of_nat (S fuel) ->
  exists d,
    digits_of (S fuel) n acc = d +:+ acc
    /\ d <> EmptyString
    /\ all_digits d = true
    /\ forall a, decimal d a = a * 10 ^ Z.of_nat (String.length d) + n.
Proof.
  induction fuel as [|fuel IH]; intros n acc Hn;
    cbn [digits_of]; destruct (Z.ltb_spec n 10) as [Hlt|Hge].
  1,3: exists (String (digit_char (n mod 10)) EmptyString);
      rewrite Z.mod_small by lia;
      destruct (digit_char_val n) as [Hv Hd]; [lia|];
      split; [reflexivity|]; split; [discriminate|];
      split; [rewrite all_digits_cons, Hd; reflexivity|];
      intros a; cbn [decimal String.length]; rewrite Hv; lia.
  - cbn in Hn. lia.
  - assert (Hq : 0 <= n / 10 < 10 ^ Z.of_nat (S fuel)).
    { split; [apply Z.div_pos; lia|].
      apply Z.div_lt_upper_bound; [lia|].
      rewrite (Nat2Z.inj_succ (S fuel)), Z.pow_succ_r in Hn by lia. lia. }
    destruct (IH (n / 10) (String (digit_char (n mod 10)) acc) Hq)
      as (d & Hd & Hne & Hall & Hval).
    destruct (digit_char_val (n mod 10)) as [Hv Hdg].
    { pose proof (Z.mod_pos_bound n 10). lia. }
    exists (d +:+ String (digit_char (n mod 10)) EmptyString).
    split.
    { cbn [digits_of] in Hd. rewrite Hd, append_assoc, append_cons. reflexivity. }
    split.
    { destruct d; [congruence | rewrite append_cons; discriminate]. }
    split.
    { rewrite all_digits_app, Hall, all_digits_cons, Hdg. reflexivity. }
    intros a. rewrite decimal_app, Hval. cbn [decimal].
    rewrite length_app_string. cbn [String.length].
    rewrite Nat2Z.inj_add, Z.pow_add_r by lia. rewrite Hv.
    change (Z.of_nat 1) with 1. rewrite Z.pow_1_r.
    pose proof (Z.div_mod n 10). lia.
Qed.

Lemma enough_fuel n : 0 <= n -> n < 10 ^ Z.of_nat (S (Z.to_nat (Z.log2 n))).
Proof.
  intros Hn. rewrite Nat2Z.inj_succ, Z2Nat.id by apply Z.log2_nonneg.
  destruct (Z.eq_dec n 0) as [->|Hne]; [reflexivity|].
  destruct (Z.log2_spec n) as [_ H]; [lia|].
  apply Z.lt_le_trans with (1 := H).
  apply Z.pow_le_mono_l. pose proof (Z.log2_nonneg n). lia.
Qed.

(** [str(n)] for [n >= 0]: a non-empty text of digits that denotes [n] *)
Lemma str_of_nat_spec n : 0 <= n ->
  str_of_int n <> EmptyString
  /\ all_digits (str_of_int n) = true
  /\ forall a, decimal (str_of_int n) a
               = a * 10 ^ Z.of_nat (String.length (str_of_int n)) + n.
Proof.
  intros Hn. unfold str_of_int.
  destruct (Z.ltb_spec n 0) as [|_]; [lia|].
  destruct (digits_of_spec _ n EmptyString (conj Hn (enough_fuel n Hn)))
    as (d & E & Hne & Hall & Hval).
  rewrite E.
  rewrite append_empty_r. auto.
Qed.

Lemma digitpart_rest_digits s : forall acc k,
  all_digits s = true ->
  digitpart_rest s acc k = (decimal s acc, (k + String.length s)%nat, EmptyString).
Proof.
  induction s as [|c s IH]; intros acc k H.
  - cbn. now rewrite Nat.add_0_r.
  - rewrite all_digits_cons in H. apply andb_prop in H as [Hc Hs].
    cbn [digitpart_rest decimal String.length]. rewrite Hc, (IH _ _ Hs).
    now rewrite Nat.add_succ_r.
Qed.

Lemma digitpart_digits s :
  s <> EmptyString -> all_digits s = true ->
  digitpart 0 s = Some (decimal s 0, String.length s, EmptyString).
Proof.
  destruct s as [|c s]; [congruence|]. intros _ H.
  rewrite all_digits_cons in H. apply andb_prop in H as [Hc Hs].
  unfold digitpart. rewrite Hc, (digitpart_rest_digits s _ _ Hs). reflexivity.
Qed.

Lemma no_space_cons c s : no_space (String c s) = negb (is_space c) && no_space s.
Proof. reflexivity. Qed.

Lemma rstrip_no_space s : no_space s = true -> rstrip s = s.
Proof.
  induction s as [|c s IH]; [reflexivity|].
  rewrite no_space_cons. intros H. apply andb_prop in H as [Hc Hs].
  cbn [rstrip]. rewrite (IH Hs). destruct s; [|reflexivity].
  apply negb_true_iff in Hc. now rewrite Hc.
Qed.

Lemma strip_no_space s : no_space s = true -> strip s = s.
Proof.
  intros H. unfold strip.
  assert (L : lstrip s = s).
  { destruct s as [|c s]; [reflexivity|].
    rewrite no_space_cons in H. apply andb_prop in H as [Hc _].
    apply negb_true_iff in Hc. cbn [lstrip]. now rewrite Hc. }
  rewrite L. now apply rstrip_no_space.
Qed.

Lemma is_digit_no_space c : is_digit c = true -> is_space c = false.
Proof.
  unfold is_digit, is_space. intros H. apply andb_prop in H as [H1 H2].
  apply Nat.leb_le in H1, H2.
  destruct (Nat.leb_spec 9 (code c)), (Nat.leb_spec (code c) 13),
    (Nat.leb_spec 28 (code c)), (Nat.leb_spec (code c) 32); cbn; try reflexivity; lia.
Qed.

Lemma all_digits_no_space s : all_digits s = true -> no_space s = true.
Proof.
  induction s as [|c s IH]; [reflexivity|].
  rewrite all_digits_cons, no_space_cons. intros H. apply andb_prop in H as [Hc Hs].
  now rewrite (is_digit_no_space c Hc), (IH Hs).
Qed.

Lemma sign_of_digits s :
  s <> EmptyString -> all_digits s = true -> sign_of s = (false, s).
Proof.
  destruct s as [|c s]; [congruence|]. intros _ H.
  rewrite all_digits_cons in H. apply andb_prop in H as [Hc _].
  unfold sign_of.
  destruct (Ascii.eqb_spec c "-") as [->|_]; [discriminate Hc|].
  destruct (Ascii.eqb_spec c "+") as [->|_]; [discriminate Hc|]. reflexivity.
Qed.

(** [int(s)] for a non-empty text of digits *)
Lemma int_of_digits s :
  s <> EmptyString -> all_digits s = true -> int_of_string s = Some (decimal s 0).
Proof.
  intros Hne Hall. unfold int_of_string.
  rewrite (strip_no_space s (all_digits_no_space s Hall)), (sign_of_digits s Hne Hall).
  now rewrite (digitpart_digits s Hne Hall).
Qed.

(** [int(str(n)) == n] *)
Lemma int_of_str n : int_of_string (str_of_int n) = Some n.
Proof.
  destruct (Z.ltb_spec n 0) as [Hneg|Hpos].
  - assert (Hm : 0 <= - n) by lia.
    destruct (str_of_nat_spec (- n) Hm) as (Hne & Hall & Hval).
    assert (E : str_of_int n = String "-" (str_of_int (- n))).
    { unfold str_of_int at 1. destruct (Z.ltb_spec n 0); [|lia].
      unfold str_of_int. destruct (Z.ltb_spec (- n) 0); [lia|]. reflexivity. }
    rewrite E. unfold int_of_string.
    assert (S : strip (String "-" (str_of_int (- n))) = String "-" (str_of_int (- n))).
    { apply strip_no_space. rewrite no_space_cons.
      now rewrite (all_digits_no_space _ Hall). }
    rewrite S. cbn [sign_of Ascii.eqb Bool.eqb]. cbn.
    rewrite (digitpart_digits _ Hne Hall), Hval. f_equal; lia.
  - destruct (str_of_nat_spec n Hpos) as (Hne & Hall & Hval).
    rewrite (int_of_digits _ Hne Hall), Hval. f_equal; lia.
Qed.

End Decimal.

(** ** [float] and [int] on the integers a binary64 number holds *)

Section ExactIntegers.
Local Open Scope Z_scope.

Lemma digits2_pos_bounds m :
  2 ^ (Z.pos (digits2_pos m) - 1) <= Z.pos m < 2 ^ Z.pos (digits2_pos m).
Proof.
  induction m as [m IH|m IH|]; cbn [digits2_pos]; [| |cbn; lia].
  all: rewrite Pos2Z.inj_succ;
    replace (Z.succ (Z.pos (digits2_pos m)) - 1) with (Z.succ (Z.pos (digits2_pos m) - 1)) by lia;
    rewrite !Z.pow_succ_r by lia; lia.
Qed.

Lemma iter_xO_value m k : Z.pos (Pos.iter xO m k) = Z.pos m * 2 ^ Z.pos k.
Proof.
  induction k as [|k IH] using Pos.peano_ind.
  - cbn. lia.
  - rewrite Pos.iter_succ, Pos2Z.inj_succ, Z.pow_succ_r by lia.
    rewrite Pos2Z.inj_xO, IH. lia.
Qed.

Lemma iter_xO_digits m k :
  Z.pos (digits2_pos (Pos.iter xO m k)) = Z.pos (digits2_pos m) + Z.pos k.
Proof.
  induction k as [|k IH] using Pos.peano_ind.
  - cbn [Pos.iter digits2_pos]. lia.
  - rewrite Pos.iter_succ. cbn [digits2_pos]. rewrite Pos2Z.inj_succ, IH. lia.
Qed.

(** A mantissa of 53 bits with an exponent in range is left as it is. *)
Lemma binary_round_aux_exact s m e :
  Z.pos (digits2_pos m) = 53 -> -1074 <= e <= 971 ->
  binary_round_aux prec emax s (Z.pos m) e loc_Exact = S754_finite s m e.
Proof.
  intros Hd He. unfold binary_round_aux.
  assert (F : forall l, shr_fexp prec emax (Z.pos m) e l
                        = (shr_record_of_loc (Z.pos m) l, e)).
  { intros l. unfold shr_fexp, fexp, emin, prec, emax. cbn [Zdigits2]. rewrite Hd.
    replace (Z.max (53 + e - 53) (3 - 1024 - 53) - e) with 0 by lia. reflexivity. }
  rewrite F. cbn [shr_record_of_loc shr_m loc_of_shr_record round_nearest_even].
  rewrite F. cbn [shr_record_of_loc shr_m].
  unfold prec, emax. destruct (Z.leb_spec e (1024 - 53)); [reflexivity | lia].
Qed.

(** The binary64 number of a positive integer below [2 ^ 53]: the
    integer, shifted until its mantissa has 53 bits. *)
Lemma binary_round_small s m :
  Z.pos m < 2 ^ 53 ->
  exists m' e,
    binary_round prec emax s m 0 = S754_finite s m' e
    /\ -52 <= e <= 0
    /\ Z.pos m' = Z.pos m * 2 ^ (- e).
Proof.
  intros Hm. pose proof (digits2_pos_bounds m) as [Hlo _].
  assert (Hd : Z.pos (digits2_pos m) <= 53).
  { destruct (Z.le_gt_cases (Z.pos (digits2_pos m)) 53) as [|Hgt]; [assumption|].
    assert (2 ^ 53 <= 2 ^ (Z.pos (digits2_pos m) - 1))
      by (apply Z.pow_le_mono_r; lia). lia. }
  unfold binary_round, shl_align.
  assert (F : fexp prec emax (Z.pos (digits2_pos m) + 0) = Z.pos (digits2_pos m) - 53).
  { unfold fexp, emin, prec, emax. lia. }
  rewrite F.
  destruct (Z.pos (digits2_pos m) - 53 - 0) as [|k|k] eqn:E.
  - exists m, 0. rewrite binary_round_aux_exact by lia.
    split; [reflexivity|]. split; [lia|]. cbn. lia.
  - lia.
  - exists (Pos.iter xO m k), (Z.pos (digits2_pos m) - 53).
    rewrite binary_round_aux_exact.
    + split; [reflexivity|]. split; [lia|].
      rewrite iter_xO_value. f_equal. f_equal. lia.
    + rewrite iter_xO_digits. lia.
    + lia.
Qed.

(** [int(float(n)) == n] for the integers of 53 bits *)
Lemma int_of_float_of_int n :
  - 2 ^ 53 < n < 2 ^ 53 ->
  int_of_float (binary_normalize prec emax n 0 false) = Ok n.
Proof.
  intros Hn. destruct n as [|m|m]; [reflexivity| |]; cbn [binary_normalize].
  - destruct (binary_round_small false m) as (m' & e & -> & He & Hm'); [lia|].
    cbn [int_of_float]. f_equal.
    destruct (Z.leb_spec 0 e).
    + assert (e = 0) as -> by lia. cbn in Hm'. lia.
    + rewrite Hm'. apply Z.div_mul. apply Z.pow_nonzero; lia.
  - destruct (binary_round_small true m) as (m' & e & -> & He & Hm'); [lia|].
    cbn [int_of_float]. f_equal.
    destruct (Z.leb_spec 0 e).
    + assert (e = 0) as -> by lia. cbn in Hm'. lia.
    + rewrite Hm', Z.div_mul by (apply Z.pow_nonzero; lia). lia.
Qed.

Lemma upper_digits s : all_digits s = true -> upper s = s.
Proof.
  induction s as [|c s IH]; [reflexivity|].
  rewrite all_digits_cons. intros H. apply andb_prop in H as [Hc Hs].
  cbn [upper]. rewrite (IH Hs). f_equal.
  unfold upper_char. unfold is_digit in Hc. apply andb_prop in Hc as [H1 H2].
  apply Nat.leb_le in H1, H2.
  destruct (Nat.leb_spec 97 (code c)); [lia | reflexivity].
Qed.

Lemma lower_digits s : all_digits s = true -> lower s = s.
Proof.
  induction s as [|c s IH]; [reflexivity|].
  rewrite all_digits_cons. intros H. apply andb_prop in H as [Hc Hs].
  cbn [lower]. rewrite (IH Hs). f_equal.
  unfold lower_char. unfold is_digit in Hc. apply andb_prop in Hc as [H1 H2].
  apply Nat.leb_le in H1, H2.
  destruct (Nat.leb_spec 65 (code c)); [|reflexivity].
  destruct (Nat.leb_spec (code c) 90); [lia | reflexivity].
Qed.

(** A text of digits holds no letter. *)
Lemma contains_letter_digits c s :
  is_digit c = false -> all_digits s = true ->
  contains (String c EmptyString) s = false.
Proof.
  intros Hc. induction s as [|d s IH]; [reflexivity|].
  rewrite all_digits_cons. intros H. apply andb_prop in H as [Hd Hs].
  cbn [contains startswith]. rewrite (IH Hs).
  destruct (Ascii.eqb_spec c d) as [->|]; [congruence | reflexivity].
Qed.

Lemma digits_not_word s w :
  s <> EmptyString -> all_digits s = true ->
  match w with String c _ => is_digit c = false | EmptyString => True end ->
  String.eqb s w = false.
Proof.
  destruct s as [|d s]; [congruence|]. intros _ H Hw.
  rewrite all_digits_cons in H. apply andb_prop in H as [Hd _].
  destruct w as [|c w]; [reflexivity|]. cbn [String.eqb].
  destruct (Ascii.eqb_spec d c) as [->|]; [congruence | reflexivity].
Qed.

(** [float(s)] for a non-empty text of digits *)
Lemma float_of_digits s :
  s <> EmptyString -> all_digits s = true ->
  float_of_string s = Some (float_of_decimal false (decimal s 0) 0).
Proof.
  intros Hne Hall. unfold float_of_string.
  rewrite (strip_no_space s (all_digits_no_space s Hall)), (sign_of_digits s Hne Hall).
  rewrite (lower_digits s Hall).
  rewrite !(digits_not_word s _ Hne Hall) by reflexivity. cbn [orb].
  unfold number. rewrite (digitpart_digits s Hne Hall). reflexivity.
Qed.

Lemma decimal_nonneg s : forall a,
  all_digits s = true -> 0 <= a -> 0 <= decimal s a.
Proof.
  induction s as [|c s IH]; intros a Hall Ha; [exact Ha|].
  rewrite all_digits_cons in Hall. apply andb_prop in Hall as [Hc Hs].
  cbn [decimal]. apply (IH _ Hs). unfold digit_val, is_digit in *.
  apply andb_prop in Hc as [H1 _]. apply Nat.leb_le in H1. lia.
Qed.

(** [int(float(s))] for a non-empty text of digits that denotes an
    integer of 53 bits *)
Lemma int_of_float_of_digits s :
  s <> EmptyString -> all_digits s = true -> decimal s 0 < 2 ^ 53 ->
  bind (float_ (VStr s)) int_of_float = Ok (decimal s 0).
Proof.
  intros Hne Hall Hlt. unfold float_. rewrite (float_of_digits s Hne Hall).
  cbn [bind]. unfold float_of_decimal.
  destruct (Z.eqb_spec (decimal s 0) 0) as [->|Hnz]; [reflexivity|].
  cbn [Z.leb Z.compare]. rewrite Z.pow_0_r, Z.mul_1_r.
  apply int_of_float_of_int.
  pose proof (decimal_nonneg s 0 Hall (Z.le_refl 0)). lia.
Qed.

End ExactIntegers.

(* ------------------------------------------------------------------ *)

Section Upkeep.
Variable utc : nat -> Z.
Variable repr_ : value -> string.

(** The three shapes of one iteration: nothing, the rewriting of one
    row, one more row. *)
Lemma process_shape e st n ctx rec :
  process utc repr_ e (st, n) (ctx, rec) = (st, n)
  \/ exists t',
       process utc repr_ e (st, n) (ctx, rec)
       = (State (with_table e t' (db st)) (S (ticks st)), (n + 1)%Z)
       /\ processed e (ctx, rec) = true
       /\ ((exists i ex,
              table_of e (db st) !! i = Some ex
              /\ t' = <[i := updated utc repr_ e rec (ticks st) ex]> (table_of e (db st)))
           \/ exists kw,
                t' = table_of e (db st)
                     ++ [new_row utc (schema e) kw (table_of e (db st)) (ticks st)]
                /\ inserted_with e (key_in e ctx rec) rec kw).
Proof.
  destruct (truthy (get rec (primary e))) eqn:Htr.
  - right. destruct (process_write utc repr_ e st n ctx rec Htr) as (t' & Hp & Ht').
    exists t'. split; [exact Hp|]. split; [exact Htr|].
    destruct (query_first (key_in e ctx rec) (table_of e (db st))) as [[i ex]|] eqn:Q.
    + left. exists i, ex. split; [|exact Ht'].
      now destruct (query_first_found _ _ _ _ Q) as (? & _).
    + right. exact Ht'.
  - left. now apply process_skip.
Qed.

Lemma keeps_refl e t : keeps e t t.
Proof. split; [reflexivity|]. intros i r H. exists r. auto. Qed.

Lemma keeps_trans e t1 t2 t3 : keeps e t1 t2 -> keeps e t2 t3 -> keeps e t1 t3.
Proof.
  intros [L1 H1] [L2 H2]. split; [lia|].
  intros i r Hr. destruct (H1 i r Hr) as (r' & Hr' & E1).
  destruct (H2 i r' Hr') as (r'' & Hr'' & E2).
  exists r''. split; [exact Hr''|]. intros c Hc. now rewrite E2, E1.
Qed.

Lemma keeps_update e t i ex rec n :
  t !! i = Some ex -> keeps e t (<[i := updated utc repr_ e rec n ex]> t).
Proof.
  intros Hi. split; [now rewrite length_insert|].
  intros j r Hj. destruct (decide (i = j)) as [<-|Hne].
  - exists (updated utc repr_ e rec n ex). split.
    + apply list_lookup_insert_eq. now apply lookup_lt_Some in Hi.
    + intros c Hc. rewrite (getattr_updated_other utc repr_ e rec n ex c Hc). congruence.
  - exists r. split; [|auto]. now rewrite list_lookup_insert_ne.
Qed.

Lemma keeps_append e t w : keeps e t (t ++ [w]).
Proof.
  split; [rewrite length_app; lia|].
  intros i r Hi. exists r. split; [|auto]. now apply lookup_app_l_Some.
Qed.

Lemma process_keeps e acc item :
  keeps e (tab e acc) (tab e (process utc repr_ e acc item))
  /\ length (tab e (process utc repr_ e acc item))
     <= length (tab e acc) + (if processed e item then 1 else 0).
Proof.
  destruct acc as [st n], item as [ctx rec].
  destruct (process_shape e st n ctx rec) as [->|(t' & -> & Hp & Ht')].
  - split; [apply keeps_refl | lia].
  - rewrite Hp. unfold tab. cbn [fst db]. rewrite table_of_with_table.
    destruct Ht' as [(i & ex & Hi & ->)|(kw & -> & _)].
    + split; [now apply keeps_update|]. rewrite length_insert. lia.
    + split; [apply keeps_append|]. rewrite length_app. cbn [length]. lia.
Qed.

Lemma run_keeps e items acc :
  keeps e (tab e acc) (tab e (run utc repr_ e items acc))
  /\ length (tab e (run utc repr_ e items acc))
     <= length (tab e acc) + length (List.filter (processed e) items).
Proof.
  revert acc. induction items as [|it items IH]; intros acc.
  - split; [apply keeps_refl | cbn; lia].
  - rewrite run_cons. destruct (IH (process utc repr_ e acc it)) as [K L].
    destruct (process_keeps e acc it) as [K0 L0].
    split; [exact (keeps_trans _ _ _ _ K0 K)|].
    cbn [List.filter]. destruct (processed e it); cbn [length]; lia.
Qed.

(** An operation that returns has gone through its whole batch. *)
Lemma for_each_players_ok t s ps acc r :
  for_each (upsert_rosters_player utc repr_ t s) ps acc = Ok r ->
  exists ds, dicts ps = Some ds.
Proof.
  revert acc. induction ps as [|v ps IH]; intros acc H; [now exists []|].
  cbn [for_each] in H. destruct v; try (destruct acc; discriminate H).
  rewrite roster_player_process in H. cbn [bind] in H.
  destruct (IH _ H) as (ds & E). exists (d :: ds). cbn [dicts]. now rewrite E.
Qed.

Lemma for_each_snapshots_ok snaps acc r :
  for_each (upsert_rosters_body utc repr_) snaps acc = Ok r ->
  exists items, roster_items snaps = Some items.
Proof.
  revert acc. induction snaps as [|snap snaps IH]; intros acc H; [now exists []|].
  cbn [for_each] in H. unfold upsert_rosters_body in H at 1.
  destruct (all_players snap) as [ps|] eqn:Ea; [|discriminate H].
  cbn [bind] in H.
  destruct (for_each (upsert_rosters_player utc repr_ _ _) ps acc) as [acc'|] eqn:Ep;
    [|discriminate H].
  cbn [bind] in H. destruct (for_each_players_ok _ _ _ _ _ Ep) as (ds & Ed).
  destruct (IH _ H) as (items & Ei).
  eexists. cbn [roster_items]. unfold snapshot_items. rewrite Ea, Ed, Ei. reflexivity.
Qed.

Lemma upsert_ok_items e st batch r :
  upsert utc repr_ e st batch = Ok r ->
  exists items, items_of e batch = Some items /\ r = run utc repr_ e items (st, 0%Z).
Proof.
  intros H.
  assert (exists items, items_of e batch = Some items) as (items & Hi).
  { destruct e; cbn [items_of]; eauto.
    cbn [upsert] in H. unfold upsert_rosters in H.
    exact (for_each_snapshots_ok _ _ _ H). }
  exists items. split; [exact Hi|].
  rewrite (upsert_run utc repr_ e st batch items Hi) in H. congruence.
Qed.

(** X1. Rows are never deleted or moved, and an update leaves every
    column outside the ones it assigns as it was. *)
Theorem upsert_keeps_rows_in_place e st batch st' n :
  upsert utc repr_ e st batch = Ok (st', n) ->
  keeps e (table_of e (db st)) (table_of e (db st')).
Proof.
  intros H. destruct (upsert_ok_items e st batch _ H) as (items & _ & E).
  destruct (run_keeps e items (st, 0%Z)) as [K _].
  rewrite <- E in K. exact K.
Qed.

Lemma process_table_other e e' acc item :
  e <> e' ->
  table_of e' (db (fst (process utc repr_ e acc item))) = table_of e' (db (fst acc)).
Proof.
  intros Hne. destruct acc as [st n], item as [ctx rec].
  destruct (process_shape e st n ctx rec) as [->|(t' & -> & _)]; [reflexivity|].
  cbn [fst db]. now apply table_of_with_table_ne.
Qed.

Lemma run_table_other e e' items acc :
  e <> e' ->
  table_of e' (db (fst (run utc repr_ e items acc))) = table_of e' (db (fst acc)).
Proof.
  intros Hne. revert acc. induction items as [|it items IH]; intros acc; [reflexivity|].
  rewrite run_cons, IH. now apply process_table_other.
Qed.

Lemma stat_of_get_stats e st :
  stat_of (stat_name e) (get_stats st) = Some (Z.of_nat (length (table_of e (db st)))).
Proof. destruct e; reflexivity. Qed.

(** X2. [get_stats] after an upsert: the count of the class of the
    operation has grown by at most the number returned, the other
    counts are the same, and so are the other tables. *)
Theorem upsert_moves_one_count e st batch st' n :
  upsert utc repr_ e st batch = Ok (st', n) ->
  (exists a b,
     stat_of (stat_name e) (get_stats st) = Some a
     /\ stat_of (stat_name e) (get_stats st') = Some b
     /\ (a <= b <= a + n)%Z)
  /\ forall e', e' <> e ->
       table_of e' (db st') = table_of e' (db st)
       /\ stat_of (stat_name e') (get_stats st') = stat_of (stat_name e') (get_stats st).
Proof.
  intros H. destruct (upsert_ok_items e st batch _ H) as (items & _ & E).
  split.
  - rewrite !stat_of_get_stats. eexists _, _. split; [reflexivity|]. split; [reflexivity|].
    destruct (run_keeps e items (st, 0%Z)) as [[L _] B].
    pose proof (run_count utc repr_ e items (st, 0%Z)) as C.
    rewrite <- E in L, B, C. unfold tab in *. cbn [fst snd] in *. lia.
  - intros e' Hne.
    assert (T : table_of e' (db st') = table_of e' (db st)).
    { pose proof (run_table_other e e' items (st, 0%Z) (not_eq_sym Hne)) as T.
      rewrite <- E in T. exact T. }
    split; [exact T|]. now rewrite !stat_of_get_stats, T.
Qed.

(** X3. The rows of a key that no record of the batch has are left as
    they are, whatever is written for the other keys. *)
Theorem upsert_leaves_other_keys_alone e st batch items K' :
  items_of e batch = Some items ->
  map fst K' = key_columns e ->
  Forall (keyed e) items ->
  apart e K' items ->
  exists st' n,
    upsert utc repr_ e st batch = Ok (st', n)
    /\ sel K' (table_of e (db st')) = sel K' (table_of e (db st)).
Proof.
  intros Hi HK Hk Ha.
  rewrite (upsert_run utc repr_ e st batch items Hi).
  pose proof (run_other utc repr_ e items (st, 0%Z) K' HK Hk Ha) as H.
  destruct (run utc repr_ e items (st, 0%Z)) as [st' n].
  exists st', n. split; [reflexivity | exact H].
Qed.

(** X4. The update of a stored row: an entry the record has replaces
    the column it refreshes, also when it is [None]; an entry the
    record lacks leaves the column as it was; the columns outside
    the refreshed ones are never written; no row is added. *)
Theorem update_keeps_what_the_record_omits e st batch ctx p ex :
  items_of e batch = Some [(ctx, p)] ->
  carries_key e ctx p ->
  sel (key_in e ctx p) (table_of e (db st)) = [ex] ->
  exists st' w,
    upsert utc repr_ e st batch = Ok (st', 1%Z)
    /\ sel (key_in e ctx p) (table_of e (db st')) = [w]
    /\ length (table_of e (db st')) = length (table_of e (db st))
    /\ (forall c k, In (c, k) (mutable_fields e) -> p !! k = None ->
                    getattr w c = getattr ex c)
    /\ (forall c k v, In (c, k) (mutable_fields e) -> p !! k = Some v ->
                      getattr w c = v)
    /\ (forall c, ~ In c (touched e) -> getattr w c = getattr ex c).
Proof.
  intros Hi Hck Hsel.
  rewrite (upsert_run utc repr_ e st batch _ Hi).
  cbn [run fold_left]. fold (process utc repr_ e).
  pose proof Hck as [Htr _].
  destruct (process_write utc repr_ e st 0%Z ctx p Htr) as (t' & Hp & Ht').
  set (K := key_in e ctx p) in *.
  assert (HK : map fst K = key_columns e) by apply key_in_columns.
  destruct (query_first K (table_of e (db st))) as [[i ex0]|] eqn:Q.
  2:{ apply query_first_none in Q. congruence. }
  subst t'.
  assert (Hm : matches K (updated utc repr_ e p (ticks st) ex0) = true).
  { rewrite (matches_updated utc repr_ e p _ ex0 K HK).
    now destruct (query_first_found K _ _ _ Q) as (_ & ? & _). }
  destruct (sel_update_same K _ _ _ _ Q Hm) as (rest & H1 & H2).
  rewrite Hsel in H1. injection H1 as <- <-.
  rewrite Hp. eexists _, _. split; [reflexivity|].
  cbn [db]. rewrite table_of_with_table.
  split; [exact H2|]. split; [apply length_insert|].
  split; [|split].
  - intros c k Hin Hk. rewrite (getattr_updated_field utc repr_ e p _ ex c k Hin).
    unfold get_default. now rewrite Hk.
  - intros c k v Hin Hk. rewrite (getattr_updated_field utc repr_ e p _ ex c k Hin).
    unfold get_default. now rewrite Hk.
  - intros c Hc. now apply getattr_updated_other.
Qed.

(** ** Autoincrement keys *)

Lemma next_id_above t x : In x (map row_id t) -> (x < next_id t)%Z.
Proof.
  unfold next_id. induction t as [|r t IH]; [intros []|].
  cbn [map fold_right In]. intros [<-|H]; [lia|]. specialize (IH H). lia.
Qed.

Lemma row_id_updated e rec n ex :
  row_id (updated utc repr_ e rec n ex) = row_id ex.
Proof.
  unfold row_id. rewrite getattr_updated_other; [reflexivity|].
  destruct e; cbn [touched mutable_fields map fst app In]; intuition discriminate.
Qed.

Lemma row_id_new_row e K rec kw t n :
  autoincrement e = true ->
  inserted_with e K rec kw ->
  row_id (new_row utc (schema e) kw t n) = next_id t.
Proof.
  intros Ha (_ & Hid & _). unfold row_id. rewrite getattr_new_row.
  destruct e; try discriminate Ha;
    cbn [schema ContractRecord AdvancedStatsRecord RosterRecord List.find col_name
         String.eqb Ascii.eqb Bool.eqb];
    unfold insert_value; cbn [col_name col_dflt]; rewrite Hid; reflexivity.
Qed.

Lemma process_ids e acc item :
  autoincrement e = true ->
  List.NoDup (map row_id (tab e acc)) ->
  List.NoDup (map row_id (tab e (process utc repr_ e acc item))).
Proof.
  intros Ha Hnd. destruct acc as [st n], item as [ctx rec].
  destruct (process_shape e st n ctx rec) as [->|(t' & -> & _ & Ht')]; [exact Hnd|].
  unfold tab in *. cbn [fst db] in *. rewrite table_of_with_table.
  destruct Ht' as [(i & ex & Hi & ->)|(kw & -> & Hkw)].
  - replace (map row_id (<[i:=updated utc repr_ e rec (ticks st) ex]> (table_of e (db st))))
      with (map row_id (table_of e (db st))); [exact Hnd|].
    change (map row_id) with (fmap (M:=list) row_id).
    rewrite list_fmap_insert, row_id_updated. symmetry. apply list_insert_id.
    rewrite list_lookup_fmap, Hi. reflexivity.
  - rewrite map_app. cbn [map]. rewrite (row_id_new_row e _ rec kw _ _ Ha Hkw).
    apply NoDup_ListNoDup. apply NoDup_app. split; [now apply NoDup_ListNoDup|].
    split; [|apply NoDup_singleton].
    intros x Hx Hx'. apply list_elem_of_In in Hx. apply list_elem_of_singleton in Hx'.
    subst x. apply next_id_above in Hx. lia.
Qed.

(** X5. The [id] of the rows of an autoincrement table stay pairwise
    different through an upsert: an update keeps the [id] of its row,
    an insert takes one above all the others. *)
Theorem autoincrement_ids_stay_distinct e st batch st' n :
  autoincrement e = true ->
  List.NoDup (map row_id (table_of e (db st))) ->
  upsert utc repr_ e st batch = Ok (st', n) ->
  List.NoDup (map row_id (table_of e (db st'))).
Proof.
  intros Ha Hnd H. destruct (upsert_ok_items e st batch _ H) as (items & _ & E).
  assert (G : forall acc, List.NoDup (map row_id (tab e acc)) ->
                          List.NoDup (map row_id (tab e (run utc repr_ e items acc)))).
  { clear E. induction items as [|it items IH]; intros acc Hacc; [exact Hacc|].
    rewrite run_cons. apply IH. now apply process_ids. }
  specialize (G (st, 0%Z) Hnd). rewrite <- E in G. exact G.
Qed.

(** X6. A game is inserted with the text [str()] gives for its
    "game_type" entry: a record that has none is stored with the text
    "None", not with NULL. *)
Theorem game_type_is_stored_as_text st g :
  truthy (get g "id") = true ->
  sel [("id", get g "id")] (games (db st)) = [] ->
  exists st' w,
    upsert_games utc repr_ st [g] = (st', 1%Z)
    /\ games (db st') = games (db st) ++ [w]
    /\ getattr w "game_type" = VStr (str_ repr_ (get g "game_type"))
    /\ (g !! "game_type" = None -> getattr w "game_type" = VStr "None").
Proof.
  intros Htr Hsel. apply query_first_none in Hsel.
  unfold upsert_games. cbn [fold_left]. unfold upsert_games_body, session_get.
  rewrite Htr, Hsel. cbn [negb]. unfold session_add. cbn [table_of with_table db].
  eexists _, _. split; [reflexivity|]. cbn [db games]. split; [reflexivity|].
  assert (E : getattr (new_row utc (schema Games)
                [("id", get g "id"); ("season", get g "season");
                 ("game_date", get g "date");
                 ("game_type", VStr (str_ repr_ (get g "game_type")));
                 ("home_team", get g "home_team"); ("away_team", get g "away_team");
                 ("home_score", get g "home_score"); ("away_score", get g "away_score");
                 ("game_state", get g "game_state"); ("raw_data", VDict g)]
                (games (db st)) (ticks st)) "game_type"
              = VStr (str_ repr_ (get g "game_type"))).
  { rewrite getattr_new_row. reflexivity. }
  split; [exact E|]. intros Hn. rewrite E. unfold get. now rewrite Hn.
Qed.

(** ** Snapshots that are not lists of players *)

Lemma for_each_app {A S : Type} (body : S -> A -> result S) l1 l2 s :
  for_each body (l1 ++ l2) s = bind (for_each body l1 s) (for_each body l2).
Proof.
  revert s. induction l1 as [|x l1 IH]; intros s; [reflexivity|].
  cbn [for_each app]. destruct (body s x); [apply IH | reflexivity].
Qed.

Lemma all_players_null roster g :
  In g groups -> roster !! g = Some VNone -> all_players roster = Raise TypeError.
Proof.
  unfold all_players, groups, get_default. cbn [In].
  intros [<-|[<-|[<-|[]]]] ->; cbn [default];
    repeat match goal with
           | |- context [default ?d (roster !! ?k)] => destruct (default d (roster !! k))
           end; reflexivity.
Qed.

(** X7. A snapshot one of whose groups is null ends [upsert_rosters]
    with [TypeError], also after snapshots that were processed: the
    operation returns nothing and commits nothing. *)
Theorem null_group_aborts_the_batch st pre roster post items g :
  roster_items pre = Some items ->
  In g groups ->
  roster !! g = Some VNone ->
  upsert_rosters utc repr_ st (pre ++ roster :: post) = Raise TypeError.
Proof.
  intros Hpre Hg Hnull. unfold upsert_rosters.
  rewrite for_each_app, (for_each_snapshots utc repr_ pre items _ Hpre).
  cbn [bind for_each]. unfold upsert_rosters_body at 1.
  now rewrite (all_players_null roster g Hg Hnull).
Qed.

End Upkeep.

(** Witnesses *)

Lemma upsert_keeps_rows_in_place_witness :
  let st1 := fst (upsert_teams utc0 boot [toronto]) in
  let st2 := fst (upsert_teams utc0 st1 [toronto]) in
  keeps Teams (teams (db st1)) (teams (db st2)).
Proof.
  intros st1 st2.
  apply (upsert_keeps_rows_in_place utc0 repr0 Teams st1 [toronto] st2
           (snd (upsert_teams utc0 st1 [toronto]))).
  reflexivity.
Defined.

Lemma upsert_moves_one_count_witness :
  let st1 := fst (upsert_contracts utc0 boot [free_agent; toronto]) in
  (exists a b,
     stat_of "contracts" (get_stats boot) = Some a
     /\ stat_of "contracts" (get_stats st1) = Some b
     /\ (a <= b <= a + 1)%Z)
  /\ stat_of "teams" (get_stats st1) = stat_of "teams" (get_stats boot).
Proof.
  intros st1.
  destruct (upsert_moves_one_count utc0 repr0 Contracts boot [free_agent; toronto] st1 1%Z)
    as [H1 H2]; [reflexivity|].
  split; [exact H1|]. destruct (H2 Teams) as [_ H]; [discriminate | exact H].
Defined.

Lemma upsert_leaves_other_keys_alone_witness :
  let st1 := fst (upsert_teams utc0 boot [toronto]) in
  exists st' n,
    upsert utc0 repr0 Teams st1 [montreal] = Ok (st', n)
    /\ sel [("abbrev", VStr "TOR")] (teams (db st'))
       = sel [("abbrev", VStr "TOR")] (teams (db st1)).
Proof.
  intros st1.
  apply (upsert_leaves_other_keys_alone utc0 repr0 Teams st1 [montreal]
           [((VNone, VNone), montreal)] [("abbrev", VStr "TOR")]).
  - reflexivity.
  - reflexivity.
  - constructor; [|constructor]. intros _. split; [reflexivity|].
    repeat constructor; discriminate.
  - constructor; [|constructor]. intros _. discriminate.
Defined.

Lemma update_keeps_what_the_record_omits_witness :
  let st1 := fst (upsert_teams utc0 boot [<["division" := VStr "Atlantic"]> toronto]) in
  let ex := match teams (db st1) with r :: _ => r | [] => ∅ end in
  exists st' w,
    upsert utc0 repr0 Teams st1 [arenas] = Ok (st', 1%Z)
    /\ sel [("abbrev", VStr "TOR")] (teams (db st')) = [w]
    /\ getattr w "name" = VStr "Toronto Arenas"
    /\ getattr w "division" = VNone
    /\ getattr w "conference" = getattr ex "conference"
    /\ getattr w "abbrev" = VStr "TOR".
Proof.
  intros st1 ex.
  assert (Hck : carries_key Teams (VNone, VNone) arenas).
  { split; [reflexivity|]. repeat constructor; discriminate. }
  assert (Hsel : sel (key_in Teams (VNone, VNone) arenas) (table_of Teams (db st1)) = [ex]).
  { vm_compute. reflexivity. }
  destruct (update_keeps_what_the_record_omits utc0 repr0 Teams st1 [arenas]
              (VNone, VNone) arenas ex eq_refl Hck Hsel)
    as (st' & w & H1 & H2 & _ & H3 & H4 & H5).
  exists st', w. split; [exact H1|]. split; [exact H2|].
  split; [exact (H4 "name" "name" _ (or_introl eq_refl) eq_refl)|].
  split; [exact (H4 "division" "division" _ (or_intror (or_intror (or_introl eq_refl))) eq_refl)|].
  split; [exact (H3 "conference" "conference" (or_intror (or_introl eq_refl)) eq_refl)|].
  rewrite H5; [vm_compute; reflexivity|].
  cbn [touched mutable_fields map fst app In]. intuition discriminate.
Defined.

Lemma autoincrement_ids_stay_distinct_witness :
  let st1 := fst (upsert_contracts utc0 boot [free_agent]) in
  let st2 := fst (upsert_contracts utc0 st1
                    [<["player_name" := VStr "Joe Thornton"]> free_agent; free_agent]) in
  List.NoDup (map row_id (contracts (db st2))).
Proof.
  intros st1 st2.
  apply (autoincrement_ids_stay_distinct utc0 repr0 Contracts st1
           [<["player_name" := VStr "Joe Thornton"]> free_agent; free_agent] st2
           (snd (upsert_contracts utc0 st1
                   [<["player_name" := VStr "Joe Thornton"]> free_agent; free_agent]))).
  - reflexivity.
  - apply (autoincrement_ids_stay_distinct utc0 repr0 Contracts boot [free_agent] st1
             (snd (upsert_contracts utc0 boot [free_agent]))).
    + reflexivity.
    + constructor.
    + reflexivity.
  - reflexivity.
Defined.

Lemma game_type_is_stored_as_text_witness :
  exists st' w,
    upsert_games utc0 repr0 boot [game_without_type] = (st', 1%Z)
    /\ games (db st') = [w]
    /\ getattr w "game_type" = VStr "None".
Proof.
  destruct (game_type_is_stored_as_text utc0 repr0 boot game_without_type eq_refl eq_refl)
    as (st' & w & H1 & H2 & _ & H3).
  exists st', w. split; [exact H1|]. split; [exact H2|]. exact (H3 eq_refl).
Defined.

Lemma null_group_aborts_the_batch_witness :
  upsert_rosters utc0 repr0 boot [kraken; broken_snapshot] = Raise TypeError
  /\ exists st' n, upsert_rosters utc0 repr0 boot [kraken] = Ok (st', n)
                   /\ length (rosters (db st')) = 1.
Proof.
  split.
  - apply (null_group_aborts_the_batch utc0 repr0 boot [kraken] broken_snapshot []
             [((VStr "SEA", VStr "20242025"),
               {[ "player_id" := VInt 8475831; "first_name" := VStr "Philipp";
                  "last_name" := VStr "Grubauer" ]})] "forwards").
    + vm_compute. reflexivity.
    + left. reflexivity.
    + reflexivity.
  - eexists _, _. split; reflexivity.
Defined.

(** ** Dollar amounts written as plain integers *)

Section PlainAmounts.
Import PuckPedia.
Local Open Scope Z_scope.

(** X8. An amount written with digits only, a dollar sign and
    thousands separators aside, is read exactly as long as it is below
    [2 ^ 53]. *)
Theorem plain_amounts_are_read_exactly text :
  clean text <> EmptyString ->
  all_digits (clean text) = true ->
  decimal (clean text) 0 < 2 ^ 53 ->
  _parse_salary text = Ok (decimal (clean text) 0).
Proof.
  intros Hne Hall Hlt. unfold _parse_salary.
  destruct (String.eqb_spec text "") as [->|_]; [now elim Hne|].
  rewrite (upper_digits _ Hall).
  rewrite (contains_letter_digits "M"%char _ eq_refl Hall).
  rewrite (contains_letter_digits "K"%char _ eq_refl Hall).
  rewrite (int_of_float_of_digits _ Hne Hall Hlt). reflexivity.
Qed.

Lemma plain_amounts_are_read_exactly_witness :
  _parse_salary " $1,234,567,890 " = Ok 1234567890.
Proof.
  apply (plain_amounts_are_read_exactly " $1,234,567,890 ").
  - discriminate.
  - reflexivity.
  - reflexivity.
Defined.

End PlainAmounts.

(** ** The pages asked for *)

Section ContractPages.
Import PuckPedia.
Variable get_page : nat -> string -> result soup.
Variable now : datetime.

Lemma scrape_team_contracts_requests team slug w :
  slug_of TEAM_SLUGS team = Some slug ->
  slug <> EmptyString ->
  requests (snd (scrape_team_contracts get_page now team w))
  = requests w ++ [cap_path slug].
Proof.
  intros Hs Hne. unfold scrape_team_contracts. rewrite Hs.
  destruct (String.eqb_spec slug "") as [|_]; [contradiction|].
  fold (cap_path slug).
  destruct (get_page (length (requests w)) (cap_path slug)) as [page|e]; [|reflexivity].
  assert (G : forall tbls acc,
             requests (snd (fold_left (fun acc table =>
                              fold_left (scrape_row now team) table acc) tbls acc))
             = requests (snd acc)).
  { assert (R : forall rows acc,
               requests (snd (fold_left (scrape_row now team) rows acc))
               = requests (snd acc)).
    { induction rows as [|row rows IH]; intros acc; [reflexivity|].
      cbn [fold_left]. rewrite IH. destruct acc as [cs w0]. unfold scrape_row.
      destruct (length row <? 3)%nat; [reflexivity|].
      destruct (_parse_contract_row now row team) as [[c|]|e]; try reflexivity.
      destruct (truthy (VDict c) && truthy (get c "player_name")); reflexivity. }
    induction tbls as [|t tbls IH]; intros acc; [reflexivity|].
    cbn [fold_left]. now rewrite IH, R. }
  specialize (G (match cap_tables page with [] => all_tables page | ts => ts end)
                ([], sent (cap_path slug) w)).
  destruct (fold_left _ _ _) as [cs w']. exact G.
Qed.

Lemma slugs_found :
  forallb (fun ts => match slug_of TEAM_SLUGS (fst ts) with
                     | Some slug => String.eqb slug (snd ts) && negb (String.eqb slug "")
                     | None => false
                     end) TEAM_SLUGS = true.
Proof. vm_compute. reflexivity. Qed.

Lemma sweep_contract_pages (slugs : list (string * string)) acc :
  (forall ts, In ts slugs ->
              slug_of TEAM_SLUGS (fst ts) = Some (snd ts) /\ snd ts <> EmptyString) ->
  requests (snd (fold_left (fun '(all_contracts, w) '(team_abbrev, _) =>
                              let '(contracts, w) :=
                                scrape_team_contracts get_page now team_abbrev w in
                              (all_contracts ++ contracts, w)) slugs acc))
  = requests (snd acc) ++ map (fun ts => cap_path (snd ts)) slugs.
Proof.
  revert acc. induction slugs as [|[team slug] slugs IH]; intros [cs w] H.
  - cbn. now rewrite app_nil_r.
  - cbn [fold_left map]. destruct (H (team, slug) (or_introl eq_refl)) as [Hs Hne].
    cbn [fst snd] in Hs, Hne.
    pose proof (scrape_team_contracts_requests team slug w Hs Hne) as R.
    destruct (scrape_team_contracts get_page now team w) as [cs' w'].
    rewrite IH by (intros ts Hin; apply H; right; exact Hin).
    cbn [snd] in *. rewrite R, <- app_assoc. reflexivity.
Qed.

(** X9. The sweep of the contracts asks for one page per entry of
    [TEAM_SLUGS], 32 of them, in the order of the table and whatever
    the answers; a team without a slug is answered with the empty list
    and no request at all. *)
Theorem scrape_all_contracts_one_page_per_slug w :
  requests (snd (scrape_all_contracts get_page now w))
    = requests w ++ map (fun ts => cap_path (snd ts)) TEAM_SLUGS
  /\ length TEAM_SLUGS = 32
  /\ forall team, slug_of TEAM_SLUGS team = None ->
       scrape_team_contracts get_page now team w
       = ([], emit Warning "unknown_team" w).
Proof.
  split; [|split; [reflexivity|]].
  - unfold scrape_all_contracts.
    pose proof (sweep_contract_pages TEAM_SLUGS ([], w)) as H.
    destruct (fold_left _ TEAM_SLUGS ([], w)) as [cs w'].
    cbn [snd requests emit] in *. apply H.
    intros ts Hin. pose proof slugs_found as F. rewrite forallb_forall in F.
    specialize (F ts Hin). destruct (slug_of TEAM_SLUGS (fst ts)) as [slug|]; [|discriminate].
    apply andb_prop in F as [F1 F2]. apply String.eqb_eq in F1. subst slug.
    split; [reflexivity|]. intros E. rewrite E in F2. discriminate.
  - intros team H. unfold scrape_team_contracts. now rewrite H.
Qed.

(** ** What a scraped contract holds *)

Lemma parse_contract_row_named cells team c :
  _parse_contract_row now cells team = Ok (Some c) -> contract_of team c.
Proof.
  unfold _parse_contract_row. destruct cells as [|pc rest]; [discriminate|].
  cbn [map]. destruct (existsb _ header_words); [discriminate|].
  set (name := match find_a pc with Some t => t | None => get_text pc end).
  destruct (String.eqb name "" || (String.length name <? 2)%nat) eqn:E; [discriminate|].
  destruct (scan_cells _ _) as [[[cap sal] exp]|]; cbn [bind]; [|discriminate].
  match goal with
  | |- context [bind ?m _] => destruct m as [ty|]; cbn [bind]; [|discriminate]
  end.
  intros [= <-]. exists name, cap.
  apply orb_false_elim in E as [_ E]. apply Nat.ltb_ge in E.
  repeat split; try reflexivity. exact E.
Qed.

Lemma scrape_row_named team acc cells :
  Forall (contract_of team) (fst acc) ->
  Forall (contract_of team) (fst (scrape_row now team acc cells)).
Proof.
  destruct acc as [cs w]. intros H. unfold scrape_row.
  destruct (length cells <? 3)%nat; [exact H|].
  destruct (_parse_contract_row now cells team) as [[c|]|e] eqn:E; try exact H.
  destruct (truthy (VDict c) && truthy (get c "player_name")); [|exact H].
  cbn [fst]. apply Forall_app. split; [exact H|].
  constructor; [|constructor]. exact (parse_contract_row_named _ _ _ E).
Qed.

Lemma scrape_team_contracts_named team w :
  Forall (contract_of team) (fst (scrape_team_contracts get_page now team w)).
Proof.
  unfold scrape_team_contracts.
  destruct (slug_of TEAM_SLUGS team) as [slug|]; [|constructor].
  destruct (String.eqb slug ""); [constructor|].
  destruct (get_page _ _) as [page|e]; [|constructor].
  assert (G : forall tbls acc,
             Forall (contract_of team) (fst acc) ->
             Forall (contract_of team)
               (fst (fold_left (fun acc table =>
                                  fold_left (scrape_row now team) table acc) tbls acc))).
  { assert (R : forall rows acc,
               Forall (contract_of team) (fst acc) ->
               Forall (contract_of team) (fst (fold_left (scrape_row now team) rows acc))).
    { induction rows as [|row rows IH]; intros acc H; [exact H|].
      cbn [fold_left]. apply IH. now apply scrape_row_named. }
    induction tbls as [|t tbls IH]; intros acc H; [exact H|].
    cbn [fold_left]. apply IH. now apply R. }
  specialize (G (match cap_tables page with [] => all_tables page | ts => ts end)
                ([], sent ("/" +:+ slug +:+ "/cap") w) (Forall_nil_2 _)).
  destruct (fold_left _ _ _) as [cs w']. exact G.
Qed.

Lemma scrape_all_contracts_named w :
  Forall well_named (fst (scrape_all_contracts get_page now w)).
Proof.
  unfold scrape_all_contracts.
  assert (G : forall (slugs : list (string * string)) acc,
             Forall well_named (fst acc) ->
             Forall well_named
               (fst (fold_left (fun '(all_contracts, w) '(team_abbrev, _) =>
                                  let '(contracts, w) :=
                                    scrape_team_contracts get_page now team_abbrev w in
                                  (all_contracts ++ contracts, w)) slugs acc))).
  { induction slugs as [|[team slug] slugs IH]; intros [cs w0] H; [exact H|].
    cbn [fold_left]. pose proof (scrape_team_contracts_named team w0) as N.
    destruct (scrape_team_contracts get_page now team w0) as [cs' w'].
    apply IH. cbn [fst] in *. apply Forall_app. split; [assumption|].
    eapply Forall_impl; [exact N|]. intros c Hc. now exists team. }
  specialize (G TEAM_SLUGS ([], w) (Forall_nil_2 _)).
  destruct (fold_left _ TEAM_SLUGS ([], w)) as [cs w']. exact G.
Qed.

Lemma well_named_carries_key c :
  well_named c -> carries_key Contracts (VNone, VNone) c.
Proof.
  intros (team & name & cap & Hn & Hlen & Ht & _). split.
  - cbn [primary]. rewrite Hn. destruct name; [cbn in Hlen; lia | reflexivity].
  - cbn [key_in]. rewrite Hn, Ht.
    repeat constructor; cbn [snd]; try discriminate;
      unfold scalar; cbn [sql_eq]; apply String.eqb_refl.
Qed.

(** X10. Every contract [scrape_team_contracts] returns can be
    stored: it carries the key of the contracts table, a player name
    of two characters or more with the code of the team asked for;
    its source is "puckpedia" and its average value is its cap hit. *)
Theorem scraped_contracts_carry_their_key team w :
  Forall (fun c => contract_of team c /\ carries_key Contracts (VNone, VNone) c)
         (fst (scrape_team_contracts get_page now team w)).
Proof.
  pose proof (scrape_team_contracts_named team w) as H.
  induction H as [|c cs Hc _ IH]; constructor; [|exact IH].
  split; [exact Hc|]. apply well_named_carries_key. now exists team.
Qed.

End ContractPages.

Lemma scrape_all_contracts_one_page_per_slug_witness :
  let down := fun (_ : nat) (_ : string) => @Raise PuckPedia.soup (HTTPError "503") in
  let now := DateTime 2025 2 1 8 0 0 0 in
  In "ARI" NHLRoster.NHL_TEAMS
  /\ PuckPedia.scrape_team_contracts down now "ARI" fresh
     = ([], emit Warning "unknown_team" fresh).
Proof.
  intros down now. split; [right; left; reflexivity|].
  destruct (scrape_all_contracts_one_page_per_slug down now fresh) as (_ & _ & H).
  apply H. reflexivity.
Defined.

(** ** The command [scrape-contracts] *)

Section ContractsCommand.
Import PuckPedia.
Variable utc : nat -> Z.
Variable get_page : nat -> string -> result soup.
Variable now : datetime.

(** Contracts that name their player are all counted. *)
Lemma upsert_contracts_counts_all st contracts :
  Forall well_named contracts ->
  snd (upsert_contracts utc st contracts) = Z.of_nat (length contracts).
Proof.
  intros H.
  pose proof (upsert_run utc repr0 Contracts st contracts _ eq_refl) as U.
  cbn [upsert] in U. injection U as ->.
  rewrite run_count. cbn [snd].
  replace (List.filter (processed Contracts) (map (fun rec => ((VNone, VNone), rec)) contracts))
    with (map (fun rec : dict => ((VNone, VNone), rec)) contracts).
  { now rewrite length_map. }
  induction H as [|c cs Hc _ IH]; [reflexivity|].
  cbn [map List.filter]. unfold processed at 1. cbn [snd].
  destruct (well_named_carries_key c Hc) as [-> _]. now rewrite <- IH.
Qed.

(** X11. Every contract the scraper returns passes the test of
    [upsert_contracts], for one team as for all of them: none is
    skipped, so the count [upsert_contracts] returns for what was
    scraped is the number of contracts scraped, the number in the
    last message of the command. *)
Theorem scrape_contracts_reports_what_it_stores team st :
  exists contracts w lines,
    match Cli.given team with
    | Some t => scrape_team_contracts get_page now t fresh
    | None => scrape_all_contracts get_page now fresh
    end = (contracts, w)
    /\ Forall (carries_key Contracts (VNone, VNone)) contracts
    /\ snd (upsert_contracts utc st contracts) = Z.of_nat (length contracts)
    /\ Cli.printed (Cli.scrape_contracts utc get_page now team st)
       = lines ++ ["[green]✓ Scraped " +:+ str_of_int (Z.of_nat (length contracts))
                   +:+ " contracts[/green]"].
Proof.
  unfold Cli.scrape_contracts. destruct (Cli.given team) as [t|].
  - pose proof (scrape_team_contracts_named get_page now t fresh) as N.
    destruct (scrape_team_contracts get_page now t fresh) as [contracts w].
    cbn [fst] in N.
    assert (W : Forall well_named contracts).
    { eapply Forall_impl; [exact N|]. intros c Hc. now exists t. }
    exists contracts, w. eexists.
    split; [reflexivity|].
    split; [eapply Forall_impl; [exact W | exact well_named_carries_key]|].
    split; [exact (upsert_contracts_counts_all st contracts W)|].
    destruct (upsert_contracts utc st contracts) as [st' n]. reflexivity.
  - pose proof (scrape_all_contracts_named get_page now fresh) as W.
    destruct (scrape_all_contracts get_page now fresh) as [contracts w].
    cbn [fst] in W.
    exists contracts, w. eexists.
    split; [reflexivity|].
    split; [eapply Forall_impl; [exact W | exact well_named_carries_key]|].
    split; [exact (upsert_contracts_counts_all st contracts W)|].
    destruct (upsert_contracts utc st contracts) as [st' n]. reflexivity.
Qed.

End ContractsCommand.

(** ** The page of a player *)

Section PlayerPages.
Import PuckPedia.
Variable now : datetime.
Variable get_player_page : nat -> string -> result player_page.

Lemma slug_text_cons c s : slug_text (String c s) = slug_char c && slug_text s.
Proof. reflexivity. Qed.

Lemma only_slug_text s : slug_text (only slug_char s) = true.
Proof.
  induction s as [|c s IH]; [reflexivity|]. cbn [only].
  destruct (slug_char c) eqn:E; [|exact IH]. now rewrite slug_text_cons, E.
Qed.

(** A character of the class is left alone by each step. *)
Lemma slug_char_fixed c :
  slug_char c = true ->
  lower_char c = c /\ Ascii.eqb c " " = false /\ Ascii.eqb c "'" = false.
Proof.
  unfold slug_char, is_digit, lower_char. intros H.
  assert (R : (97 <= code c <= 122 \/ 48 <= code c <= 57 \/ c = "-"%char)%nat).
  { apply orb_prop in H as [H|H]; [apply orb_prop in H as [H|H]|].
    - apply andb_prop in H as [H1 H2]. apply Nat.leb_le in H1, H2. lia.
    - apply andb_prop in H as [H1 H2]. apply Nat.leb_le in H1, H2. lia.
    - apply Ascii.eqb_eq in H. auto. }
  destruct R as [R | [R | ->]]; [| |repeat split; reflexivity].
  - split; [|split].
    + destruct (Nat.leb_spec 65 (code c)); [|reflexivity].
      destruct (Nat.leb_spec (code c) 90); [lia | reflexivity].
    + destruct (Ascii.eqb_spec c " ") as [->|]; [vm_compute in R; lia | reflexivity].
    + destruct (Ascii.eqb_spec c "'") as [->|]; [vm_compute in R; lia | reflexivity].
  - split; [|split].
    + destruct (Nat.leb_spec 65 (code c)); [lia | reflexivity].
    + destruct (Ascii.eqb_spec c " ") as [->|]; [vm_compute in R; lia | reflexivity].
    + destruct (Ascii.eqb_spec c "'") as [->|]; [vm_compute in R; lia | reflexivity].
Qed.

Lemma player_slug_fixed s : slug_text s = true -> player_slug s = s.
Proof.
  unfold player_slug. induction s as [|c s IH]; [reflexivity|].
  rewrite slug_text_cons. intros H. apply andb_prop in H as [Hc Hs].
  destruct (slug_char_fixed c Hc) as (L & S1 & S2).
  cbn [lower replace]. rewrite L, S1. cbn [replace]. rewrite S2.
  cbn [only]. rewrite Hc. f_equal. exact (IH Hs).
Qed.

(** X12. The page of a player is asked for under a slug made of
    lower-case letters, digits and hyphens only, on which the
    conversion has no further effect; one request is made, and a
    failure of the request gives [None], not an exception. *)
Theorem player_page_is_asked_by_slug name w :
  slug_text (player_slug name) = true
  /\ player_slug (player_slug name) = player_slug name
  /\ requests (snd (scrape_player_contract now get_player_page name w))
     = requests w ++ ["/player/" +:+ player_slug name]
  /\ forall e,
       get_player_page (length (requests w)) ("/player/" +:+ player_slug name) = Raise e ->
       fst (scrape_player_contract now get_player_page name w) = Ok None.
Proof.
  assert (T : slug_text (player_slug name) = true) by apply only_slug_text.
  split; [exact T|]. split; [now apply player_slug_fixed|].
  unfold scrape_player_contract. split.
  - destruct (get_player_page _ _); reflexivity.
  - intros e ->. reflexivity.
Qed.

End PlayerPages.

Lemma player_page_is_asked_by_slug_witness :
  let now := DateTime 2025 2 1 8 0 0 0 in
  let down := fun (_ : nat) (_ : string) =>
                @Raise PuckPedia.player_page (HTTPError "404") in
  PuckPedia.player_slug "Ryan O'Reilly Jr. 2" = "ryan-oreilly-jr-2"
  /\ fst (PuckPedia.scrape_player_contract now down "Ryan O'Reilly Jr. 2" fresh) = Ok None.
Proof.
  intros now down. split; [reflexivity|].
  destruct (player_page_is_asked_by_slug now down "Ryan O'Reilly Jr. 2" fresh)
    as (_ & _ & _ & H).
  exact (H (HTTPError "404") eq_refl).
Defined.

(** ** From the roster endpoint to the rosters table *)

Section RosterPipeline.
Import NHLRoster.
Variable utc : nat -> Z.
Variable repr_ : value -> string.
Variable get_json : nat -> string -> result value.
Variable now : datetime.

Lemma parse_player_raises x e : _parse_player x = Raise e -> e = AttributeError.
Proof.
  destruct x; try (now intros [= <-]). unfold _parse_player, get_nested.
  repeat match goal with
         | |- context [match get_default ?d ?k ?v with _ => _ end] =>
             destruct (get_default d k v); cbn [bind]; try (now intros [= <-])
         end.
Qed.

Lemma parse_player_dict x p : _parse_player x = Ok p -> exists d, p = VDict d.
Proof.
  destruct x; try discriminate. unfold _parse_player.
  repeat match goal with
         | |- context [bind ?m _] => destruct m; cbn [bind]; [|discriminate]
         end.
  intros [= <-]. eauto.
Qed.

Lemma parse_all_dicts l ps :
  parse_all l = Ok ps -> exists ds, ps = map VDict ds.
Proof.
  revert ps. induction l as [|x l IH]; intros ps.
  - intros [= <-]. now exists [].
  - cbn [parse_all]. destruct (_parse_player x) as [p|] eqn:E; cbn [bind]; [|discriminate].
    destruct (parse_all l) as [ps'|]; cbn [bind]; [|discriminate].
    intros [= <-]. destruct (parse_player_dict _ _ E) as (d & ->).
    destruct (IH ps' eq_refl) as (ds & ->). now exists (d :: ds).
Qed.

Lemma parse_group_dicts data g ps :
  parse_group data g = Ok ps -> exists ds, ps = map VDict ds.
Proof.
  unfold parse_group. destruct (get_default data g (VList [])); try discriminate.
  - destruct (String.eqb s ""); [|discriminate]. intros [= <-]. now exists [].
  - apply parse_all_dicts.
  - case_bool_decide; [|discriminate]. intros [= <-]. now exists [].
Qed.

Lemma scrape_roster_snapshot team season w r w' :
  scrape_roster get_json now team season w = (Ok r, w') ->
  roster_of team (roster_season now season) r.
Proof.
  unfold scrape_roster.
  destruct (get_json (length (requests w)) (roster_path team)) as [[]|]; try discriminate.
  destruct (parse_group d "forwards") as [f|] eqn:Ef; [|discriminate].
  destruct (parse_group d "defensemen") as [dm|] eqn:Ed; [|discriminate].
  destruct (parse_group d "goalies") as [g|] eqn:Eg; [|discriminate].
  intros [= <- _].
  destruct (parse_group_dicts _ _ _ Ef) as (f' & ->).
  destruct (parse_group_dicts _ _ _ Ed) as (d' & ->).
  destruct (parse_group_dicts _ _ _ Eg) as (g' & ->).
  exists (isoformat now), f', d', g'. reflexivity.
Qed.

Lemma dicts_map l : dicts (map VDict l) = Some l.
Proof. induction l as [|d l IH]; [reflexivity|]. cbn [map dicts]. now rewrite IH. Qed.

Lemma all_players_snapshot team season a f d g :
  all_players (snapshot team season a f d g) = Ok (map VDict (f ++ d ++ g)).
Proof. rewrite !map_app. reflexivity. Qed.

Lemma snapshot_items_snapshot team season a f d g :
  snapshot_items (snapshot team season a f d g)
  = Some (map (fun p => ((VStr team, VStr season), p)) (f ++ d ++ g)).
Proof.
  unfold snapshot_items. rewrite all_players_snapshot, dicts_map. reflexivity.
Qed.

Lemma head_count_snapshot team season a f d g :
  head_count (snapshot team season a f d g) = Z.of_nat (length (f ++ d ++ g)).
Proof. unfold head_count. now rewrite all_players_snapshot, length_map. Qed.

Lemma roster_total_snapshot team season a f d g :
  Cli.roster_total (snapshot team season a f d g)
  = Ok (head_count (snapshot team season a f d g)).
Proof.
  rewrite head_count_snapshot, !length_app, !Nat2Z.inj_add.
  unfold Cli.roster_total.
  change (get_default (snapshot team season a f d g) "forwards" (VList []))
    with (VList (map VDict f)).
  change (get_default (snapshot team season a f d g) "defensemen" (VList []))
    with (VList (map VDict d)).
  change (get_default (snapshot team season a f d g) "goalies" (VList []))
    with (VList (map VDict g)).
  cbn [Cli.len bind]. rewrite !length_map. f_equal. lia.
Qed.

(** The snapshots of a list, as items and as head counts *)
Lemma roster_items_snapshots rosters :
  Forall (fun r => exists team season, roster_of team season r) rosters ->
  exists items,
    roster_items rosters = Some items
    /\ Z.of_nat (length items) = fold_right (fun r a => head_count r + a)%Z 0%Z rosters
    /\ forall acc, Cli.rosters_total rosters acc
                   = Ok (acc + fold_right (fun r a => head_count r + a) 0 rosters)%Z.
Proof.
  induction 1 as [|r rosters (team & season & a & f & d & g & ->) _ (items & Hi & Hl & Ht)].
  - exists []. split; [reflexivity|]. split; [reflexivity|].
    intros acc. cbn. f_equal. lia.
  - eexists. cbn [roster_items]. rewrite snapshot_items_snapshot, Hi.
    split; [reflexivity|]. split.
    + rewrite length_app, length_map, Nat2Z.inj_add, Hl. cbn [fold_right].
      now rewrite head_count_snapshot.
    + intros acc. cbn [Cli.rosters_total fold_right].
      rewrite roster_total_snapshot. cbn [bind]. rewrite Ht. f_equal. lia.
Qed.

Lemma upsert_rosters_snapshots st rosters :
  Forall (fun r => exists team season, roster_of team season r) rosters ->
  exists st' n,
    upsert_rosters utc repr_ st rosters = Ok (st', n)
    /\ (0 <= n <= fold_right (fun r a => head_count r + a) 0 rosters)%Z.
Proof.
  intros H. destruct (roster_items_snapshots rosters H) as (items & Hi & Hl & _).
  pose proof (upsert_run utc repr_ Rosters st rosters items Hi) as U. cbn [upsert] in U.
  pose proof (run_count utc repr_ Rosters items (st, 0%Z)) as C.
  destruct (run utc repr_ Rosters items (st, 0%Z)) as [st' n]. cbn [snd] in C.
  exists st', n. split; [exact U|].
  pose proof (List.filter_length_le (processed Rosters) items). lia.
Qed.

(** X13. A roster that [scrape_roster] returns is a snapshot of the
    team and the season asked for whose three groups are lists of
    parsed players: the shape the loop of [upsert_rosters] iterates,
    one item per player.  Whenever [upsert_rosters] returns for it,
    the number returned counts the players that have an id, so it is
    at most the number of players scraped. *)
Theorem scraped_roster_is_a_snapshot team season w r w' :
  scrape_roster get_json now team season w = (Ok r, w') ->
  roster_of team (roster_season now season) r
  /\ exists items,
       roster_items [r] = Some items
       /\ Z.of_nat (length items) = head_count r
       /\ forall st st' n,
            upsert_rosters utc repr_ st [r] = Ok (st', n) ->
            n = Z.of_nat (length (List.filter (processed Rosters) items))
            /\ (0 <= n <= head_count r)%Z.
Proof.
  intros H. pose proof (scrape_roster_snapshot _ _ _ _ _ H) as S.
  split; [exact S|].
  destruct (roster_items_snapshots [r]) as (items & Hi & Hl & _).
  { constructor; [eauto | constructor]. }
  cbn [fold_right] in Hl. rewrite Z.add_0_r in Hl.
  exists items. split; [exact Hi|]. split; [exact Hl|].
  intros st st' n U.
  pose proof (upsert_run utc repr_ Rosters st [r] items Hi) as R. cbn [upsert] in R.
  rewrite R in U. injection U as U.
  pose proof (run_count utc repr_ Rosters items (st, 0%Z)) as C.
  rewrite U in C. cbn [snd] in C.
  pose proof (List.filter_length_le (processed Rosters) items).
  split; lia.
Qed.

(** ** The sweep over the teams *)

Lemma logged_emit l ev l' ev' w :
  logged l ev (emit l' ev' w)
  = logged l ev w + (if level_eqb l' l && String.eqb ev' ev then 1 else 0).
Proof.
  unfold logged, emit. cbn [log]. rewrite List.filter_app, length_app. cbn [List.filter fst snd].
  destruct (level_eqb l' l && String.eqb ev' ev); reflexivity.
Qed.

Lemma scrape_roster_logged team season w :
  logged Warning "roster_scrape_failed" (snd (scrape_roster get_json now team season w))
  = logged Warning "roster_scrape_failed" w.
Proof.
  unfold scrape_roster.
  destruct (get_json (length (requests w)) (roster_path team)) as [[]|e];
    try reflexivity.
  repeat (match goal with
          | |- context [match parse_group ?d ?g with _ => _ end] =>
              destruct (parse_group d g)
          end; try reflexivity).
  cbn [snd]. rewrite logged_emit. cbn [level_eqb andb]. apply Nat.add_0_r.
Qed.

Lemma sweep_rosters s teams : forall acc,
  exists new,
    fst (fold_left (scrape_all_rosters_body get_json now s) teams acc) = fst acc ++ new
    /\ length new
       + logged Warning "roster_scrape_failed"
                (snd (fold_left (scrape_all_rosters_body get_json now s) teams acc))
       = logged Warning "roster_scrape_failed" (snd acc) + length teams
    /\ sublist (map (fun r => get r "team_abbrev") new) (map VStr teams)
    /\ Forall (fun r => exists team, In team teams /\ roster_of team s r) new.
Proof.
  induction teams as [|team teams IH]; intros [rs w].
  - exists []. cbn. rewrite app_nil_r. repeat split; [lia | constructor | constructor].
  - cbn [fold_left].
    pose proof (scrape_roster_logged team (Some s) w) as L.
    destruct (scrape_roster get_json now team (Some s) w) as [[r|e] w'] eqn:E.
    + assert (B : scrape_all_rosters_body get_json now s (rs, w) team = (rs ++ [r], w'))
        by (unfold scrape_all_rosters_body; now rewrite E).
      rewrite B.
      destruct (IH (rs ++ [r], w')) as (new & H1 & H2 & H3 & H4).
      exists (r :: new). cbn [fst snd] in *.
      split; [now rewrite H1, <- app_assoc|].
      split; [cbn [length]; lia|].
      pose proof (scrape_roster_snapshot _ _ _ _ _ E) as S. cbn [roster_season] in S.
      split.
      * cbn [map]. destruct S as (a & f & d & g & ->).
        change (get (snapshot team s a f d g) "team_abbrev") with (VStr team).
        now apply sublist_skip.
      * constructor; [exists team; split; [left; reflexivity | exact S]|].
        eapply Forall_impl; [exact H4|]. intros r' (t & Ht & Hr). exists t. split; [right|]; auto.
    + assert (B : scrape_all_rosters_body get_json now s (rs, w) team
                  = (rs, emit Warning "roster_scrape_failed" w'))
        by (unfold scrape_all_rosters_body; now rewrite E).
      rewrite B.
      destruct (IH (rs, emit Warning "roster_scrape_failed" w')) as (new & H1 & H2 & H3 & H4).
      exists new. cbn [fst snd] in *. rewrite logged_emit in H2. cbn in H2.
      split; [exact H1|]. split; [cbn [length]; lia|].
      split; [now apply sublist_cons|].
      eapply Forall_impl; [exact H4|]. intros r' (t & Ht & Hr). exists t. split; [right|]; auto.
Qed.

(** X14. The sweep never fails as a whole: every listed team gives
    either a roster or one warning, the rosters come in the order of
    [NHL_TEAMS], each for a listed team and for the season of the
    sweep. *)
Theorem roster_sweep_skips_failed_teams season w :
  let rosters := fst (scrape_all_rosters get_json now season w) in
  let w' := snd (scrape_all_rosters get_json now season w) in
  length rosters + logged Warning "roster_scrape_failed" w'
    = 33 + logged Warning "roster_scrape_failed" w
  /\ sublist (map (fun r => get r "team_abbrev") rosters) (map VStr NHL_TEAMS)
  /\ Forall (fun r => exists team,
                        In team NHL_TEAMS
                        /\ roster_of team (roster_season now season) r) rosters.
Proof.
  cbv zeta. unfold scrape_all_rosters. fold (roster_season now season).
  destruct (sweep_rosters (roster_season now season) NHL_TEAMS ([], w))
    as (new & H1 & H2 & H3 & H4).
  destruct (fold_left _ NHL_TEAMS ([], w)) as [rs w1]. cbn [fst snd app] in *. subst rs.
  rewrite logged_emit. cbn [level_eqb andb]. rewrite Nat.add_0_r.
  split; [|split; assumption].
  change (length NHL_TEAMS) with 33 in H2. lia.
Qed.

(** ** One malformed player *)

Lemma parse_all_bad l p v :
  In (VDict p) l -> p !! "firstName" = Some v -> (forall d, v <> VDict d) ->
  parse_all l = Raise AttributeError.
Proof.
  intros Hin Hv Hnd.
  assert (B : _parse_player (VDict p) = Raise AttributeError).
  { unfold _parse_player, get_nested at 1, get_default. rewrite Hv. cbn [default].
    destruct v; try reflexivity. now elim (Hnd d). }
  induction l as [|x l IH]; [destruct Hin|].
  cbn [parse_all]. destruct (_parse_player x) as [q|e] eqn:E.
  - cbn [bind]. destruct Hin as [->|Hin]; [congruence|]. now rewrite (IH Hin).
  - cbn [bind]. now rewrite (parse_player_raises _ _ E).
Qed.

(** X15. One player whose "firstName" is not an object (a null, a
    plain text) is enough to lose the roster of the team: the parser
    raises, [scrape_roster] passes the exception on, and the sweep
    goes on without the team after one warning. *)
Theorem malformed_player_loses_the_roster team season w data g l p v :
  get_json (length (requests w)) (roster_path team) = Ok (VDict data) ->
  In g groups ->
  data !! g = Some (VList l) ->
  In (VDict p) l ->
  p !! "firstName" = Some v ->
  (forall d, v <> VDict d) ->
  (exists e, scrape_roster get_json now team season w
             = (Raise e, sent (roster_path team) w))
  /\ forall rosters s,
       scrape_all_rosters_body get_json now s (rosters, w) team
       = (rosters, emit Warning "roster_scrape_failed" (sent (roster_path team) w)).
Proof.
  intros Hj Hg Hd Hin Hv Hnd.
  assert (B : parse_group data g = Raise AttributeError).
  { unfold parse_group, get_default. rewrite Hd. cbn [default].
    exact (parse_all_bad l p v Hin Hv Hnd). }
  assert (S : forall season', exists e,
             scrape_roster get_json now team season' w
             = (Raise e, sent (roster_path team) w)).
  { intros season'. unfold scrape_roster. rewrite Hj.
    unfold groups in Hg. cbn [In] in Hg.
    destruct (parse_group data "forwards") as [f|e1] eqn:E1; [|eauto].
    destruct (parse_group data "defensemen") as [d|e2] eqn:E2; [|eauto].
    destruct (parse_group data "goalies") as [gl|e3] eqn:E3; [|eauto].
    destruct Hg as [<-|[<-|[<-|[]]]]; congruence. }
  split; [apply S|].
  intros rosters s. unfold scrape_all_rosters_body.
  destruct (S (Some s)) as (e & ->). reflexivity.
Qed.

(** ** [scrape_teams] *)

Lemma abbreviations_snapshots rosters :
  Forall (fun r => exists team, In team NHL_TEAMS
                                /\ exists season, roster_of team season r) rosters ->
  exists l,
    abbreviations rosters = Ok l
    /\ length l = length rosters
    /\ Forall (fun d => exists team, In team NHL_TEAMS
                                     /\ d = {[ "abbreviation" := VStr team ]}) l.
Proof.
  induction 1 as [|r rosters (team & Hin & season & a & f & d & g & ->) _ (l & Hl & Hn & Hf)].
  - exists []. repeat split; constructor.
  - cbn [abbreviations].
    change (snapshot team season a f d g !! "team_abbrev") with (Some (VStr team)).
    rewrite Hl. cbn [bind]. eexists. split; [reflexivity|].
    split; [cbn [length]; now rewrite Hn|].
    constructor; [|exact Hf]. exists team. split; [exact Hin | reflexivity].
Qed.

Lemma listed_teams_named :
  forallb (fun team => negb (String.eqb team "")) NHL_TEAMS = true.
Proof. vm_compute. reflexivity. Qed.

Lemma upsert_teams_counts_all st l :
  Forall (fun d => exists team, In team NHL_TEAMS
                                /\ d = {[ "abbreviation" := VStr team ]}) l ->
  snd (upsert_teams utc st l) = Z.of_nat (length l).
Proof.
  intros H.
  pose proof (upsert_run utc repr0 Teams st l _ eq_refl) as U.
  cbn [upsert] in U. injection U as ->.
  rewrite run_count. cbn [snd].
  replace (List.filter (processed Teams) (map (fun rec => ((VNone, VNone), rec)) l))
    with (map (fun rec : dict => ((VNone, VNone), rec)) l).
  { now rewrite length_map. }
  induction H as [|d l (team & Hin & ->) _ IH]; [reflexivity|].
  cbn [map List.filter]. unfold processed at 1. cbn [snd primary].
  change (get {[ "abbreviation" := VStr team ]} "abbreviation") with (VStr team).
  pose proof listed_teams_named as N. rewrite forallb_forall in N.
  cbn [truthy]. rewrite (N team Hin). now rewrite <- IH.
Qed.

(** X16. [scrape_teams] never meets a missing key: it returns one
    record per roster of the sweep, each made of the code of a listed
    team, and [upsert_teams] counts them all. *)
Theorem scrape_teams_gives_listed_codes w st :
  exists l,
    fst (scrape_teams get_json now w) = Ok l
    /\ length l = length (fst (scrape_all_rosters get_json now None w))
    /\ Forall (fun d => exists team, In team NHL_TEAMS
                                     /\ d = {[ "abbreviation" := VStr team ]}) l
    /\ snd (upsert_teams utc st l) = Z.of_nat (length l).
Proof.
  unfold scrape_teams, scrape_all_rosters.
  destruct (sweep_rosters (get_current_season now) NHL_TEAMS ([], w))
    as (new & H1 & _ & _ & H4).
  destruct (fold_left _ NHL_TEAMS ([], w)) as [rs w1]. cbn [fst snd app] in *. subst rs.
  destruct (abbreviations_snapshots new) as (l & Hl & Hn & Hf).
  { eapply Forall_impl; [exact H4|]. intros r (t & Ht & Hr). eauto. }
  exists l. split; [exact Hl|]. split; [exact Hn|]. split; [exact Hf|].
  now apply upsert_teams_counts_all.
Qed.

End RosterPipeline.

(** ** The pages of the stats endpoint *)

Section SummaryPages.
Import NHLRoster.
Variable now : datetime.
Variable client_get : nat -> string -> dict -> result value.

Lemma append_records_dicts record l players :
  append_records record (map VDict l) players = Ok (players ++ map record l).
Proof.
  revert players. induction l as [|p l IH]; intros players.
  - cbn. now rewrite app_nil_r.
  - cbn [map append_records]. rewrite IH, <- app_assoc. reflexivity.
Qed.

Lemma page_of_query records property season (i : nat) :
  page_of records (summary_params property season (Z.of_nat i))
  = VDict {[ "data" := VList (map VDict (firstn 100 (skipn i records)));
             "total" := VInt (Z.of_nat (length records)) ]}.
Proof.
  unfold page_of.
  change (get (summary_params property season (Z.of_nat i)) "start")
    with (VInt (Z.of_nat i)).
  change (get (summary_params property season (Z.of_nat i)) "limit") with (VInt 100).
  cbv iota beta. rewrite Nat2Z.id. reflexivity.
Qed.

Lemma repeat_snoc {A} (x : A) n : repeat x n ++ [x] = x :: repeat x n.
Proof. induction n as [|n IH]; [reflexivity|]. cbn. now rewrite IH. Qed.

(** The loop, started at a multiple of the page size with enough
    fuel, reads what is left of the records, one request per page
    and one more when the last page is full. *)
Lemma summary_pages_read url property season record records fuel :
  serves client_get url records ->
  forall (i : nat) players w,
    (length (skipn i records) / 100 < fuel)%nat ->
    exists w',
      summary_pages client_get fuel url property season record (Z.of_nat i) players w
      = Some (Ok (players ++ map record (skipn i records)), w')
      /\ requests w' = requests w ++ repeat url (pages (length (skipn i records)))
      /\ log w' = log w.
Proof.
  intros Hs. induction fuel as [|fuel IH]; intros i players w Hf; [lia|].
  cbn [summary_pages]. rewrite Hs, page_of_query.
  remember (skipn i records) as rest eqn:Hrest.
  change (get_default {[ "data" := VList (map VDict (firstn 100 rest));
                         "total" := VInt (Z.of_nat (length records)) ]}
                      "data" (VList []))
    with (VList (map VDict (firstn 100 rest))).
  destruct (firstn 100 rest) as [|p chunk] eqn:Ec.
  - assert (rest = []) as -> by (destruct rest; [reflexivity | discriminate Ec]).
    cbn [map truthy negb]. eexists. split; [now rewrite app_nil_r|].
    split; reflexivity.
  - assert (T : truthy (VList (map VDict (firstn 100 rest))) = true)
      by (rewrite Ec; reflexivity).
    rewrite <- Ec. clear p chunk Ec.
    rewrite T. cbn [negb]. rewrite append_records_dicts, length_map.
    unfold limit.
    destruct (Z.ltb_spec (Z.of_nat (length (firstn 100 rest))) 100) as [Hlt|Hge].
    + assert (L : (length rest < 100)%nat).
      { rewrite length_firstn in Hlt. lia. }
      rewrite firstn_all2 by lia.
      eexists. split; [reflexivity|]. split; [|reflexivity].
      unfold pages. rewrite Nat.div_small by lia. reflexivity.
    + assert (L : (100 <= length rest)%nat).
      { rewrite length_firstn in Hge. lia. }
      replace (Z.of_nat i + 100)%Z with (Z.of_nat (i + 100)) by lia.
      assert (R : skipn (i + 100) records = skipn 100 rest).
      { subst rest. rewrite Nat.add_comm. symmetry. apply skipn_skipn. }
      assert (D : (length rest / 100 = S (length (skipn 100 rest) / 100))%nat).
      { rewrite length_skipn.
        replace (length rest) with ((length rest - 100) + 1 * 100)%nat at 1 by lia.
        rewrite Nat.div_add by lia. lia. }
      destruct (IH (i + 100)%nat (players ++ map record (firstn 100 rest))
                   (sent url w)) as (w' & H1 & H2 & H3).
      { rewrite R. lia. }
      rewrite R in H1, H2. exists w'. rewrite H1. split.
      { rewrite <- app_assoc, <- map_app, firstn_skipn. reflexivity. }
      split; [|exact H3].
      rewrite H2. cbn [sent requests]. unfold pages. rewrite D, <- app_assoc.
      reflexivity.
Qed.

(** X17. Against an endpoint that serves its records in pages, the
    two sweeps of the stats return every record, converted and in
    order, after one request per page of 100 (and one more when the
    last page is full), provided the loop is given that many turns. *)
Theorem summary_sweeps_read_every_page season records fuel w :
  (length records / 100 < fuel)%nat ->
  (serves client_get skater_summary_url records ->
   exists w',
     scrape_all_skater_stats now client_get fuel season w
     = Some (Ok (map (skater_record (roster_season now season)) records), w')
     /\ requests w' = requests w ++ repeat skater_summary_url (pages (length records)))
  /\ (serves client_get goalie_summary_url records ->
      exists w',
        scrape_all_goalie_stats now client_get fuel season w
        = Some (Ok (map (goalie_record (roster_season now season)) records), w')
        /\ requests w' = requests w ++ repeat goalie_summary_url (pages (length records))).
Proof.
  intros Hf. split; intros Hs.
  - unfold scrape_all_skater_stats. fold (roster_season now season).
    destruct (summary_pages_read skater_summary_url "points" (roster_season now season)
                (skater_record (roster_season now season)) records fuel Hs 0 [] w)
      as (w' & H1 & H2 & _); [exact Hf|].
    change (Z.of_nat 0) with 0%Z in H1. rewrite H1. cbn [skipn app].
    eexists. split; [reflexivity|]. exact H2.
  - unfold scrape_all_goalie_stats. fold (roster_season now season).
    destruct (summary_pages_read goalie_summary_url "wins" (roster_season now season)
                (goalie_record (roster_season now season)) records fuel Hs 0 [] w)
      as (w' & H1 & H2 & _); [exact Hf|].
    change (Z.of_nat 0) with 0%Z in H1. rewrite H1. cbn [skipn app].
    eexists. split; [reflexivity|]. exact H2.
Qed.

End SummaryPages.

Lemma summary_sweeps_read_every_page_witness :
  let now := DateTime 2025 1 15 12 0 0 0 in
  exists w',
    NHLRoster.scrape_all_skater_stats now league_api 5 (Some "20242025") fresh
    = Some (Ok (map (NHLRoster.skater_record "20242025") league), w')
    /\ requests w' = repeat NHLRoster.skater_summary_url 3.
Proof.
  intros now.
  assert (F : (length league / 100 < 5)%nat) by (vm_compute; lia).
  destruct (summary_sweeps_read_every_page now league_api (Some "20242025") league 5 fresh F)
    as [S _].
  destruct S as (w' & H1 & H2); [intros n params; reflexivity|].
  exists w'. split; [exact H1 | exact H2].
Defined.

(** ** The landing page of a player *)

Section PlayerDetails.
Import NHLRoster.
Variable get_json : nat -> string -> result value.
Variable unhashable : exn.

Lemma get_nested_object data k dflt :
  object_or_missing data k -> exists v, get_nested data k dflt = Ok v.
Proof.
  unfold object_or_missing, get_nested, get_default.
  destruct (data !! k) as [[]|]; cbn [default]; try contradiction; eauto.
Qed.

Lemma get_in_object data k sub :
  object_or_missing data k -> exists v, get_in data k sub = Ok v.
Proof.
  unfold object_or_missing, get_in, get_default.
  destruct (data !! k) as [[]|]; cbn [default]; try contradiction; eauto.
Qed.

(** X18. From a landing page whose name, birth place and draft
    entries are objects (or missing) and whose "seasonTotals" is a
    list, the details of a player are returned after one request;
    they hold the id asked for and, as "season_stats", the first
    five entries of the list, in the order of the page. *)
Theorem player_details_keep_the_first_five player_id w data seasons :
  get_json (length (requests w)) (player_path player_id) = Ok (VDict data) ->
  Forall (object_or_missing data) nested ->
  data !! "seasonTotals" = Some (VList seasons) ->
  exists player,
    scrape_player_details get_json unhashable player_id w
    = (Ok player, emit Debug "scraped_player_details" (sent (player_path player_id) w))
    /\ get player "id" = VInt player_id
    /\ get player "season_stats" = VList (firstn 5 seasons)
    /\ (length (firstn 5 seasons) <= 5)%nat.
Proof.
  intros Hj Hn Hs. unfold scrape_player_details. rewrite Hj.
  unfold nested in Hn.
  repeat match goal with
         | H : Forall _ (_ :: _) |- _ =>
             let H1 := fresh "O" in
             apply Forall_cons in H as [H1 H]
         end.
  destruct (get_nested_object data "firstName" VNone O) as (v1 & E1).
  destruct (get_nested_object data "lastName" VNone O0) as (v2 & E2).
  destruct (get_nested_object data "birthCity" VNone O1) as (v3 & E3).
  destruct (get_nested_object data "birthStateProvince" VNone O2) as (v4 & E4).
  destruct (get_in_object data "draftDetails" "year" O3) as (v5 & E5).
  destruct (get_in_object data "draftDetails" "round" O3) as (v6 & E6).
  destruct (get_in_object data "draftDetails" "pickInRound" O3) as (v7 & E7).
  destruct (get_in_object data "draftDetails" "overallPick" O3) as (v8 & E8).
  destruct (get_in_object data "draftDetails" "teamAbbrev" O3) as (v9 & E9).
  unfold player_entries. rewrite E1, E2, E3, E4, E5, E6, E7, E8, E9.
  unfold get_default at 4. rewrite Hs. cbn [default first_five entries bind].
  eexists. split; [reflexivity|]. split; [reflexivity|]. split; [reflexivity|].
  rewrite length_firstn. lia.
Qed.

End PlayerDetails.

Lemma player_details_keep_the_first_five_witness :
  let api := fun (_ : nat) (_ : string) => Ok (VDict landing) in
  exists player,
    fst (NHLRoster.scrape_player_details api TypeError 8471675 fresh) = Ok player
    /\ get player "season_stats"
       = VList (map (fun y => VDict {[ "season" := VInt y ]})
                    [20052006; 20062007; 20072008; 20082009; 20092010]%Z).
Proof.
  intros api.
  destruct (player_details_keep_the_first_five api TypeError 8471675 fresh landing
              (map (fun y => VDict {[ "season" := VInt y ]})
                   [20052006; 20062007; 20072008; 20082009; 20092010;
                    20102011; 20112012]%Z))
    as (player & H1 & _ & H2 & _).
  - reflexivity.
  - repeat constructor.
  - reflexivity.
  - exists player. rewrite H1. split; [reflexivity | exact H2].
Defined.

(** ** The command [scrape-rosters] *)

Section RostersCommand.
Import NHLRoster.
Variable utc : nat -> Z.
Variable repr_ : value -> string.
Variable get_json : nat -> string -> result value.
Variable now : datetime.

(** X19. When the roster of the one team asked for cannot be
    scraped, the command ends in the exception of the scraper after
    its first line, the store as it was.  Otherwise, whenever
    [upsert_rosters] returns, the command ends with a message that
    gives the number of players scraped, every entry of the three
    groups; the number [upsert_rosters] returned counts those that
    have an id only, so it is at most the number printed. *)
Theorem scrape_rosters_reports_at_least_what_it_stores team season st :
  match Cli.given team with
  | Some t =>
      match scrape_roster get_json now t season fresh with
      | (Raise e, w) =>
          Cli.scrape_rosters utc repr_ get_json now team season st
          = Cli.Outcome ["[bold]Scraping roster for " +:+ t +:+ "...[/bold]"]
                        st w (Some e)
      | (Ok r, w) =>
          forall st' n,
            upsert_rosters utc repr_ st [r] = Ok (st', n) ->
            (0 <= n <= head_count r)%Z
            /\ Cli.scrape_rosters utc repr_ get_json now team season st
               = Cli.Outcome
                   ["[bold]Scraping roster for " +:+ t +:+ "...[/bold]";
                    "[green]✓ Scraped " +:+ str_of_int (head_count r)
                    +:+ " players for " +:+ t +:+ "[/green]"]
                   st' w None
      end
  | None =>
      exists rosters w,
        scrape_all_rosters get_json now season fresh = (rosters, w)
        /\ forall st' n,
             upsert_rosters utc repr_ st rosters = Ok (st', n) ->
             (0 <= n <= fold_right (fun r a => head_count r + a) 0 rosters)%Z
             /\ Cli.scrape_rosters utc repr_ get_json now team season st
                = Cli.Outcome
                    ["[bold]Scraping all team rosters...[/bold]";
                     "[green]✓ Scraped "
                     +:+ str_of_int (fold_right (fun r a => head_count r + a)%Z 0%Z rosters)
                     +:+ " players across "
                     +:+ str_of_int (Z.of_nat (length rosters)) +:+ " teams[/green]"]
                    st' w None
  end.
Proof.
  unfold Cli.scrape_rosters. destruct (Cli.given team) as [t|].
  - destruct (scrape_roster get_json now t season fresh) as [[r|e] w] eqn:E;
      [|reflexivity].
    intros st' n U.
    pose proof (scrape_roster_snapshot get_json now _ _ _ _ _ E) as S.
    destruct (upsert_rosters_snapshots utc repr_ st [r]) as (st2 & n2 & U2 & B).
    { constructor; [eauto | constructor]. }
    cbn [fold_right] in B. rewrite U in U2. injection U2 as <- <-.
    split; [lia|].
    rewrite U. destruct S as (a & f & d & g & ->).
    rewrite roster_total_snapshot. reflexivity.
  - destruct (sweep_rosters get_json now (roster_season now season) NHL_TEAMS ([], fresh))
      as (new & H1 & _ & _ & H4).
    unfold scrape_all_rosters. fold (roster_season now season).
    destruct (fold_left _ NHL_TEAMS ([], fresh)) as [rs w1]. cbn [fst snd app] in *.
    subst rs.
    assert (F : Forall (fun r => exists team season, roster_of team season r) new).
    { eapply Forall_impl; [exact H4|]. intros r (t & _ & Hr). eauto. }
    eexists new, _. split; [reflexivity|].
    intros st' n U.
    destruct (upsert_rosters_snapshots utc repr_ st new F) as (st2 & n2 & U2 & B).
    destruct (roster_items_snapshots new F) as (items & _ & _ & T).
    rewrite U in U2. injection U2 as <- <-.
    split; [exact B|]. rewrite U, T. reflexivity.
Qed.

End RostersCommand.

Lemma scraped_roster_is_a_snapshot_witness :
  let now := DateTime 2025 1 15 12 0 0 0 in
  let api := fun (_ : nat) (_ : string) => Ok oilers in
  exists r w' st',
    NHLRoster.scrape_roster api now "EDM" None fresh = (Ok r, w')
    /\ get r "season" = VStr "20242025"
    /\ head_count r = 2%Z
    /\ upsert_rosters utc0 repr0 boot [r] = Ok (st', 1%Z)
    /\ (0 <= 1 <= head_count r)%Z.
Proof.
  intros now api.
  pose (res := NHLRoster.scrape_roster api now "EDM" None fresh).
  pose (r := match fst res with Ok r => r | Raise _ => ∅ end).
  pose (st' := match upsert_rosters utc0 repr0 boot [r] with
               | Ok (s, _) => s
               | Raise _ => boot
               end).
  assert (E : NHLRoster.scrape_roster api now "EDM" None fresh = (Ok r, snd res))
    by (vm_compute; reflexivity).
  assert (U : upsert_rosters utc0 repr0 boot [r] = Ok (st', 1%Z))
    by (vm_compute; reflexivity).
  destruct (scraped_roster_is_a_snapshot utc0 repr0 api now "EDM" None fresh r (snd res) E)
    as (_ & items & _ & _ & B).
  exists r, (snd res), st'. split; [exact E|].
  split; [vm_compute; reflexivity|]. split; [vm_compute; reflexivity|].
  split; [exact U|]. exact (proj2 (B boot st' 1%Z U)).
Defined.

Lemma malformed_player_loses_the_roster_witness :
  let now := DateTime 2025 1 15 12 0 0 0 in
  let api := fun (_ : nat) (_ : string) => Ok nameless_forward in
  exists e,
    NHLRoster.scrape_roster api now "EDM" None fresh
    = (Raise e, sent (NHLRoster.roster_path "EDM") fresh).
Proof.
  intros now api.
  destruct (malformed_player_loses_the_roster api now "EDM" None fresh
              {[ "forwards" :=
                   VList [VDict {[ "id" := VInt 8478402; "firstName" := VNone ]}] ]}
              "forwards"
              [VDict {[ "id" := VInt 8478402; "firstName" := VNone ]}]
              {[ "id" := VInt 8478402; "firstName" := VNone ]} VNone)
    as [H _].
  - reflexivity.
  - left. reflexivity.
  - reflexivity.
  - left. reflexivity.
  - reflexivity.
  - discriminate.
  - exact H.
Defined.

(** ** Rows of the CSV source, parsed and stored *)

Section CsvRows.
Import MoneyPuck.
Local Open Scope Z_scope.
Variable utc : nat -> Z.
Variable _fetch_csv : nat -> string -> result (list dict).
Variable now : datetime.

(** X20. The season of a parsed row has the form of the season ids
    of the roster scraper: for the current season the two scrapers
    give the same text, whatever the date. *)
Theorem parsed_season_is_the_roster_season :
  double_year (get_current_season now) = Ok (VStr (NHLRoster.get_current_season now))
  /\ (forall row out,
        _parse_skater_row row (get_current_season now) = Ok out ->
        get out "season" = VStr (NHLRoster.get_current_season now))
  /\ (forall row out,
        _parse_goalie_row row (get_current_season now) = Ok out ->
        get out "season" = VStr (NHLRoster.get_current_season now)).
Proof.
  assert (D : double_year (get_current_season now)
              = Ok (VStr (NHLRoster.get_current_season now))).
  { unfold double_year, get_current_season, NHLRoster.get_current_season.
    now rewrite int_of_str. }
  split; [exact D|]. split.
  - intros row out H.
    destruct (skater_field row _ out "season" (double_year (get_current_season now)) H)
      as (v & Hv & <-); [unfold skater_entries; find_entry|].
    congruence.
  - intros row out H.
    destruct (goalie_field row _ out "season" (double_year (get_current_season now)) H)
      as (sa & ga & _ & _ & F).
    destruct F as (v & Hv & <-); [unfold goalie_entries; find_entry|].
    congruence.
Qed.

(** X21. A cell that holds an integer written with digits is read
    exactly by [safe_int] as long as the integer is below [2 ^ 53];
    the id of a player goes unchanged from the CSV to the parsed
    row. *)
Theorem integer_cells_are_read_exactly s d :
  s <> EmptyString ->
  all_digits s = true ->
  decimal s 0 < 2 ^ 53 ->
  safe_int (VStr s) d = Ok (decimal s 0)
  /\ forall row season out,
       get row "playerId" = VStr s ->
       _parse_skater_row row season = Ok out ->
       get out "player_id" = VInt (decimal s 0).
Proof.
  intros Hne Hall Hlt.
  assert (S : forall d', safe_int (VStr s) d' = Ok (decimal s 0)).
  { intros d'. unfold safe_int. cbn [truthy].
    destruct (String.eqb_spec s "") as [->|_]; [congruence|]. cbn [negb].
    now rewrite (int_of_float_of_digits s Hne Hall Hlt). }
  split; [apply S|].
  intros row season out Hrow H.
  destruct (skater_field row season out "player_id"
              (of_int (safe_int (get row "playerId") 0)) H)
    as (v & Hv & <-); [unfold skater_entries; find_entry|].
  rewrite Hrow, S in Hv. cbn in Hv. congruence.
Qed.

(** X22. A row whose id cell is empty, missing or not a number is
    parsed all the same, with the id 0; [upsert_advanced_stats]
    then leaves it out: the row is in what the scraper returns and
    never in the table. *)
Theorem row_without_player_id_is_never_stored row season out st :
  junk (get row "playerId") ->
  _parse_skater_row row season = Ok out ->
  get out "player_id" = VInt 0
  /\ upsert_advanced_stats utc st [out] = (st, 0).
Proof.
  intros Hj H.
  destruct (skater_field row season out "player_id"
              (of_int (safe_int (get row "playerId") 0)) H)
    as (v & Hv & Hout); [unfold skater_entries; find_entry|].
  rewrite (safe_int_junk _ _ Hj) in Hv. cbn in Hv. injection Hv as <-.
  split; [exact Hout|].
  unfold upsert_advanced_stats. cbn [fold_left].
  unfold upsert_advanced_stats_body. rewrite Hout. reflexivity.
Qed.

(** ** The loop over the rows *)

Lemma parse_rows_all (P : dict -> Prop) parse failed rows : forall out w res w',
  (forall row r, In row rows -> parse row = Ok r -> P r) ->
  Forall P out ->
  parse_rows parse failed rows out w = (Ok res, w') ->
  Forall P res.
Proof.
  induction rows as [|row rows IH]; intros out w res w' Hp Ho.
  - intros [= <- _]. exact Ho.
  - cbn [parse_rows]. destruct (parse row) as [r|e] eqn:E.
    + apply IH.
      * intros row' r' Hin. apply Hp. right. exact Hin.
      * apply Forall_app. split; [exact Ho|]. constructor; [|constructor].
        apply (Hp row r); [left; reflexivity | exact E].
    + destruct (value_or_key_error e); [|discriminate].
      apply IH; [|exact Ho]. intros row' r' Hin. apply Hp. right. exact Hin.
Qed.

Lemma situation_kept situation row :
  situation_is situation row = true ->
  get_default row "situation" (VStr "all") = VStr situation.
Proof.
  unfold situation_is, get, get_default.
  destruct (row !! "situation") as [[]|]; cbn [default]; try discriminate.
  intros H. apply String.eqb_eq in H. now subst.
Qed.

(** X23. Every record the two operations return is about the
    situation asked for ("all" for the goalies, and for the skaters
    when nothing else is asked) and names "moneypuck" as its
    source. *)
Theorem scraped_stats_have_the_situation season situation w :
  (forall rows w',
     scrape_skater_stats _fetch_csv now season situation w = (Ok rows, w') ->
     Forall (fun r => get r "situation" = VStr situation
                      /\ get r "source" = VStr "moneypuck") rows)
  /\ (forall rows w',
        scrape_goalie_stats _fetch_csv now season w = (Ok rows, w') ->
        Forall (fun r => get r "situation" = VStr "all"
                         /\ get r "source" = VStr "moneypuck") rows).
Proof.
  split; intros rows w'.
  - unfold scrape_skater_stats.
    destruct (fetch _fetch_csv _ w) as [[raw|e] w1]; [|intros [= <- _]; constructor].
    set (kept := if negb (String.eqb situation "all")
                 then filter (fun r => situation_is situation r = true) raw
                 else filter (fun r => situation_is "all" r = true) raw).
    assert (K : forall row, In row kept -> situation_is situation row = true).
    { intros row Hin. apply list_elem_of_In in Hin. unfold kept in Hin.
      destruct (String.eqb_spec situation "all") as [->|_]; cbn [negb] in Hin;
        apply list_elem_of_filter in Hin as [Hin _]; exact Hin. }
    destruct (parse_rows _ _ kept [] w1) as [[res|e] w2] eqn:E; [|discriminate].
    intros [= <- _].
    eapply parse_rows_all; [|constructor|exact E].
    intros row r Hin Hr. cbv beta in Hr. split.
    + destruct (skater_field row _ r "situation"
                  (Ok (get_default row "situation" (VStr "all"))) Hr)
        as (v & Hv & <-); [unfold skater_entries; find_entry|].
      injection Hv as <-. apply situation_kept, K, Hin.
    + destruct (skater_field row _ r "source" (Ok (VStr "moneypuck")) Hr)
        as (v & Hv & <-); [unfold skater_entries; find_entry|].
      now injection Hv as <-.
  - unfold scrape_goalie_stats.
    destruct (fetch _fetch_csv _ w) as [[raw|e] w1]; [|intros [= <- _]; constructor].
    set (kept := filter (fun r => situation_is "all" r = true) raw).
    assert (K : forall row, In row kept -> situation_is "all" row = true).
    { intros row Hin. apply list_elem_of_In in Hin.
      apply list_elem_of_filter in Hin as [Hin _]. exact Hin. }
    destruct (parse_rows _ _ kept [] w1) as [[res|e] w2] eqn:E; [|discriminate].
    intros [= <- _].
    eapply parse_rows_all; [|constructor|exact E].
    intros row r Hin Hr. cbv beta in Hr.
    destruct (goalie_field row _ r "situation"
                (Ok (get_default row "situation" (VStr "all"))) Hr)
      as (sa & ga & _ & _ & F).
    destruct (goalie_field row _ r "source" (Ok (VStr "moneypuck")) Hr)
      as (sa' & ga' & _ & _ & F').
    split.
    + destruct F as (v & Hv & <-); [unfold goalie_entries; find_entry|].
      injection Hv as <-. apply situation_kept, K, Hin.
    + destruct F' as (v & Hv & <-); [unfold goalie_entries; find_entry|].
      now injection Hv as <-.
Qed.

(** ** Cells the coercions do not cover *)

Lemma safe_int_infinite s b d :
  float_of_string s = Some (S754_infinity b) ->
  safe_int (VStr s) d = Raise OverflowError.
Proof.
  intros H. unfold safe_int. cbn [truthy float_].
  destruct (String.eqb_spec s "") as [->|_]; [discriminate H|].
  cbn [negb]. rewrite H. reflexivity.
Qed.

(** What the coercions and the row parser can raise *)

Lemma float_raises v e :
  float_ v = Raise e -> e = ValueError \/ e = TypeError \/ e = OverflowError.
Proof.
  destruct v as [|b|z|f|s|t|l|d]; cbn [float_]; try (intros [= <-]; auto).
  - unfold float_of_int. destruct (binary_normalize _ _ _ _ _); intros [= <-]; auto.
  - unfold float_of_int. destruct (binary_normalize _ _ _ _ _); intros [= <-]; auto.
  - destruct (float_of_string s); intros [= <-]; auto.
Qed.

Lemma int_of_float_raises f e :
  int_of_float f = Raise e -> e = ValueError \/ e = OverflowError.
Proof. destruct f; cbn [int_of_float]; intros [= <-]; auto. Qed.

Lemma safe_int_raises v d e : safe_int v d = Raise e -> e = OverflowError.
Proof.
  unfold safe_int. destruct (truthy v); [|discriminate].
  destruct (float_ v) as [f|e1] eqn:F; cbn [bind].
  - destruct (int_of_float f) as [z|e2] eqn:I; cbn [try_except]; [discriminate|].
    destruct (int_of_float_raises _ _ I) as [-> | ->]; cbn [value_or_type_error];
      [discriminate | now intros [= <-]].
  - destruct (float_raises _ _ F) as [-> | [-> | ->]];
      cbn [try_except value_or_type_error]; try discriminate. now intros [= <-].
Qed.

Lemma safe_float_raises v d e : safe_float v d = Raise e -> e = OverflowError.
Proof.
  unfold safe_float. destruct (truthy v); [|discriminate].
  destruct (float_ v) as [f|e1] eqn:F; cbn [bind try_except]; [discriminate|].
  destruct (float_raises _ _ F) as [-> | [-> | ->]];
    cbn [value_or_type_error]; try discriminate. now intros [= <-].
Qed.

Lemma of_int_raises v e : of_int (safe_int v 0) = Raise e -> e = OverflowError.
Proof.
  unfold of_int. destruct (safe_int v 0) as [n|e1] eqn:S; cbn [bind]; [discriminate|].
  intros [= <-]. exact (safe_int_raises _ _ _ S).
Qed.

Lemma of_float_raises v d e : of_float (safe_float v d) = Raise e -> e = OverflowError.
Proof.
  unfold of_float. destruct (safe_float v d) as [n|e1] eqn:S; cbn [bind]; [discriminate|].
  intros [= <-]. exact (safe_float_raises _ _ _ S).
Qed.

Lemma display_raises entries e :
  display entries = Raise e -> exists k, In (k, Raise e) entries.
Proof.
  induction entries as [|[k r] rest IH]; [discriminate|].
  cbn [display]. destruct r as [v|e1]; cbn [bind].
  - destruct (display rest) as [l|e2]; cbn [bind]; [discriminate|].
    intros [= <-]. destruct (IH eq_refl) as [k' H]. exists k'. now right.
  - intros [= <-]. exists k. now left.
Qed.

(** The row parser raises [ValueError], for the season, or
    [OverflowError], for a cell, and nothing else. *)
Lemma parse_skater_row_raises row season e :
  _parse_skater_row row season = Raise e -> e = ValueError \/ e = OverflowError.
Proof.
  unfold _parse_skater_row.
  destruct (display (skater_entries row season)) as [l|e1] eqn:D; cbn [bind];
    [discriminate|].
  intros [= <-]. destruct (display_raises _ _ D) as [k Hin].
  unfold skater_entries in Hin. cbn [In] in Hin.
  repeat (destruct Hin as [Hin|Hin];
          [injection Hin as _ Hin;
           first [ discriminate Hin
                 | right; exact (of_int_raises _ _ Hin)
                 | right; exact (of_float_raises _ _ _ Hin)
                 | idtac ] |]); [| |destruct Hin].
  - unfold double_year in Hin. destruct (int_of_string season); [discriminate|].
    injection Hin as <-. now left.
  - right. destruct (truthy (get row "onIce_corsiPercentage")).
    + exact (of_int_raises _ _ Hin).
    + destruct (safe_int (get_default row "I_F_shotAttempts" (VInt 0)) 0)
        as [a|e3] eqn:A; cbn [bind] in Hin.
      * destruct (safe_int (get_default row "OnIce_F_shotAttempts" (VInt 0)) 0)
          as [c|e4] eqn:C; cbn [bind] in Hin; [discriminate|].
        injection Hin as <-. exact (safe_int_raises _ _ _ C).
      * injection Hin as <-. exact (safe_int_raises _ _ _ A).
Qed.

(** A row that raises [OverflowError] ends the loop with it, wherever
    it stands, when the parser raises nothing else than it and
    [ValueError]. *)
Lemma parse_rows_overflow parse failed row rest pre :
  (forall r e, parse r = Raise e -> e = ValueError \/ e = OverflowError) ->
  parse row = Raise OverflowError ->
  forall out w,
    fst (parse_rows parse failed (pre ++ row :: rest) out w) = Raise OverflowError.
Proof.
  intros Hp Hrow. induction pre as [|r pre IH]; intros out w.
  - cbn [app parse_rows]. rewrite Hrow. reflexivity.
  - cbn [app parse_rows]. destruct (parse r) as [x|e] eqn:E; [apply IH|].
    destruct (Hp r e E) as [-> | ->]; cbn [value_or_key_error]; [apply IH | reflexivity].
Qed.

(** X24. A cell of the id column that [float()] reads as an
    infinity ("inf", "1e999") is beyond the coercions: [safe_int]
    raises [OverflowError], the row parser passes it on, and it ends
    the whole scrape, in whichever row of the requested situation the
    cell stands and whatever the rows before it gave: no row is
    returned. *)
Theorem infinite_cell_ends_the_scrape season situation w raw row s b :
  _fetch_csv (length (requests w)) (skaters_url (resolved now season)) = Ok raw ->
  In row raw ->
  situation_is situation row = true ->
  get row "playerId" = VStr s ->
  float_of_string s = Some (S754_infinity b) ->
  safe_int (VStr s) 0 = Raise OverflowError
  /\ _parse_skater_row row (resolved now season) = Raise OverflowError
  /\ fst (scrape_skater_stats _fetch_csv now season situation w) = Raise OverflowError.
Proof.
  intros Hf Hin Hsit Hrow Hs.
  pose proof (safe_int_infinite s b 0 Hs) as S.
  assert (P : _parse_skater_row row (resolved now season) = Raise OverflowError).
  { unfold _parse_skater_row, skater_entries. cbn [display].
    rewrite Hrow, S. reflexivity. }
  split; [exact S|]. split; [exact P|].
  unfold scrape_skater_stats, fetch. fold (resolved now season). rewrite Hf.
  assert (F : (if negb (String.eqb situation "all")
               then filter (fun r => situation_is situation r = true) raw
               else filter (fun r => situation_is "all" r = true) raw)
              = filter (fun r => situation_is situation r = true) raw).
  { destruct (String.eqb_spec situation "all") as [->|_]; reflexivity. }
  rewrite F. clear F.
  assert (K : row ∈ filter (fun r => situation_is situation r = true) raw).
  { apply list_elem_of_filter. split; [exact Hsit | now apply list_elem_of_In]. }
  apply list_elem_of_split in K as (pre & rest & ->).
  pose proof (parse_rows_overflow
                (fun r => _parse_skater_row r (resolved now season))
                "parse_skater_failed" row rest pre
                (fun r e => parse_skater_row_raises r (resolved now season) e) P
                [] (sent (skaters_url (resolved now season)) w)) as L.
  destruct (parse_rows _ _ (pre ++ row :: rest) [] _) as [[res|e] w']; cbn [fst] in L;
    [discriminate L|].
  cbn [fst]. exact L.
Qed.

(** X25. A season that [int()] rejects is found out only when the
    rows are parsed: the CSV is asked for under that season, every
    row fails on it and is logged, and the result is the empty
    list. *)
Theorem season_that_is_no_integer_loses_every_row season situation w raw :
  int_of_string season = None ->
  _fetch_csv (length (requests w)) (skaters_url season) = Ok raw ->
  Forall (fun row => exists n, safe_int (get row "playerId") 0 = Ok n) raw ->
  exists w',
    scrape_skater_stats _fetch_csv now (Some season) situation w = (Ok [], w')
    /\ requests w' = requests w ++ [skaters_url season]
    /\ logged Warning "parse_skater_failed" w'
       = (logged Warning "parse_skater_failed" w
          + length (filter (fun r => situation_is situation r = true) raw))%nat.
Proof.
  intros Hy Hf Hraw.
  unfold scrape_skater_stats, fetch. rewrite Hf.
  assert (F : (if negb (String.eqb situation "all")
               then filter (fun r => situation_is situation r = true) raw
               else filter (fun r => situation_is "all" r = true) raw)
              = filter (fun r => situation_is situation r = true) raw).
  { destruct (String.eqb_spec situation "all") as [->|_]; reflexivity. }
  rewrite F. clear F.
  assert (K : Forall (fun row => exists n, safe_int (get row "playerId") 0 = Ok n)
                     (filter (fun r => situation_is situation r = true) raw)).
  { apply Forall_forall. intros row Hin. apply list_elem_of_filter in Hin as [_ Hin].
    rewrite Forall_forall in Hraw. now apply Hraw. }
  generalize dependent (filter (fun r => situation_is situation r = true) raw).
  intros kept K. clear Hraw Hf.
  assert (G : forall w0,
             exists w1,
               parse_rows (fun row => _parse_skater_row row season)
                          "parse_skater_failed" kept [] w0 = (Ok [], w1)
               /\ requests w1 = requests w0
               /\ logged Warning "parse_skater_failed" w1
                  = (logged Warning "parse_skater_failed" w0 + length kept)%nat).
  { induction K as [|row kept (n & Hn) _ IH]; intros w0.
    - exists w0. cbn. repeat split. lia.
    - cbn [parse_rows].
      assert (P : _parse_skater_row row season = Raise ValueError).
      { unfold _parse_skater_row, skater_entries. cbn [display].
        rewrite Hn. cbn [of_int bind]. unfold double_year. rewrite Hy. reflexivity. }
      rewrite P. cbn [value_or_key_error].
      destruct (IH (emit Warning "parse_skater_failed" w0)) as (w1 & H1 & H2 & H3).
      exists w1. split; [exact H1|]. split; [exact H2|].
      rewrite H3, logged_emit. cbn [level_eqb andb String.eqb length]. cbn. lia. }
  destruct (G (sent (skaters_url season) w)) as (w1 & H1 & H2 & H3).
  rewrite H1. eexists. split; [reflexivity|].
  split; [exact H2|]. rewrite logged_emit. cbn [level_eqb andb]. rewrite Nat.add_0_r.
  exact H3.
Qed.

End CsvRows.

Lemma integer_cells_are_read_exactly_witness :
  MoneyPuck.safe_int (VStr "8478402") 0 = Ok 8478402%Z.
Proof.
  destruct (integer_cells_are_read_exactly "8478402" 0%Z) as [H _].
  - discriminate.
  - reflexivity.
  - vm_compute. reflexivity.
  - exact H.
Defined.

Lemma row_without_player_id_is_never_stored_witness :
  exists out,
    MoneyPuck._parse_skater_row anonymous_row "2024" = Ok out
    /\ get out "player_id" = VInt 0
    /\ upsert_advanced_stats utc0 boot [out] = (boot, 0%Z).
Proof.
  assert (J : junk (get anonymous_row "playerId")).
  { right. exists "n/a". split; reflexivity. }
  destruct (junk_row_skater anonymous_row "2024" 2024 eq_refl) as [out E].
  { intros c. unfold get.
    destruct (anonymous_row !! c) as [v|] eqn:L; [|left; reflexivity].
    unfold anonymous_row in L.
    repeat (apply lookup_insert_Some in L as [[_ <-] | [_ L]];
            [right; eexists; split; reflexivity|]).
    apply lookup_singleton_Some in L as [_ <-].
    right; eexists; split; reflexivity. }
  exists out. split; [exact E|].
  exact (row_without_player_id_is_never_stored utc0 anonymous_row "2024" out boot J E).
Defined.

Lemma infinite_cell_ends_the_scrape_witness :
  let now := DateTime 2025 2 1 8 0 0 0 in
  fst (MoneyPuck.scrape_skater_stats bad_cell_last now (Some "2024") "all" fresh)
  = Raise OverflowError.
Proof.
  intros now.
  destruct (infinite_cell_ends_the_scrape bad_cell_last now (Some "2024") "all" fresh
              [anonymous_row; <["situation" := VStr "5on5"]> anonymous_row;
               <["playerId" := VStr "8478402"]> anonymous_row; overflowing_row]
              overflowing_row "1e999" false)
    as (_ & _ & H).
  - reflexivity.
  - right. right. right. left. reflexivity.
  - reflexivity.
  - reflexivity.
  - vm_compute. reflexivity.
  - exact H.
Defined.

Lemma season_that_is_no_integer_loses_every_row_witness :
  let now := DateTime 2025 2 1 8 0 0 0 in
  exists w',
    MoneyPuck.scrape_skater_stats two_rows now (Some "2024-25") "all" fresh = (Ok [], w')
    /\ requests w' = ["/moneypuck/playerData/seasonSummary/2024-25/regular/skaters.csv"]
    /\ logged Warning "parse_skater_failed" w' = 2.
Proof.
  intros now.
  destruct (season_that_is_no_integer_loses_every_row two_rows now "2024-25" "all" fresh
              [anonymous_row; <["situation" := VStr "5on5"]> anonymous_row; anonymous_row])
    as (w' & H1 & H2 & H3).
  - vm_compute. reflexivity.
  - reflexivity.
  - repeat constructor; exists 0%Z; vm_compute; reflexivity.
  - exists w'. split; [exact H1|]. split; [exact H2|]. exact H3.
Defined.

(** ** The models *)

Section ModelProperties.
Import Models.
Local Open Scope Z_scope.

Lemma take_app (s rest : string) : take (String.length s) (s +:+ rest) = s.
Proof.
  induction s as [|c s IH]; [now destruct rest|].
  rewrite append_cons. cbn [String.length take]. f_equal. exact IH.
Qed.

(** X26. [years_remaining] is never negative, and counts from the
    year in which the season under way began to the year in which the
    last season of the contract begins: a contract in its last
    season has 0 years remaining. *)
Theorem years_remaining_counts_season_starts (self : Contract.PlayerContract) :
  (forall now1 now2, 0 <= Contract.years_remaining self now1 now2)
  /\ (forall now y rest,
        1000 <= y <= 9999 ->
        Contract.end_season self = str_of_int y +:+ rest ->
        Contract.years_remaining self now now = Z.max 0 (y - season_start now))
  /\ (forall now,
        1000 <= season_start now <= 9999 ->
        Contract.end_season self = NHLRoster.get_current_season now ->
        Contract.years_remaining self now now = 0).
Proof.
  assert (G : forall now y rest,
             1000 <= y <= 9999 ->
             Contract.end_season self = str_of_int y +:+ rest ->
             Contract.years_remaining self now now = Z.max 0 (y - season_start now)).
  { intros now y rest Hy E. unfold Contract.years_remaining. rewrite E.
    destruct (year_digit_string y Hy) as [Hl Hd].
    destruct (String.eqb_spec (str_of_int y +:+ rest) "") as [Z0|_].
    { apply (f_equal String.length) in Z0. rewrite length_app_string, Hl in Z0.
      discriminate Z0. }
    assert (T : take 4 (str_of_int y +:+ rest) = str_of_int y).
    { rewrite <- Hl. apply take_app. }
    rewrite T, int_of_str. reflexivity. }
  split; [|split].
  - intros now1 now2. unfold Contract.years_remaining.
    destruct (String.eqb _ _); [lia|].
    destruct (int_of_string _); lia.
  - exact G.
  - intros now Hy E. unfold NHLRoster.get_current_season in E.
    fold (season_start now) in E.
    rewrite (G now (season_start now) _ Hy E). lia.
Qed.

Lemma find_app {A} (f : A -> bool) (a b : list A) :
  List.find f (a ++ b)
  = match List.find f a with Some x => Some x | None => List.find f b end.
Proof. induction a as [|x a IH]; [reflexivity|]. cbn. now destruct (f x). Qed.

(** X27. [get_player_by_id] finds a player exactly when one of the
    three groups has a player with the id; the player returned has
    the id, and is a forward when a forward has it, a defenseman when
    a defenseman and no forward has it. *)
Theorem get_player_by_id_searches_the_groups_in_order
        (self : Roster.TeamRoster) (id : Z) :
  let has g := exists q, In q g /\ Roster.player_id q = id in
  (Roster.get_player_by_id self id = None
   <-> ~ has (Roster.forwards self) /\ ~ has (Roster.defensemen self)
       /\ ~ has (Roster.goalies self))
  /\ forall p,
       Roster.get_player_by_id self id = Some p ->
       Roster.player_id p = id
       /\ (has (Roster.forwards self) -> In p (Roster.forwards self))
       /\ (~ has (Roster.forwards self) -> has (Roster.defensemen self) ->
           In p (Roster.defensemen self))
       /\ (~ has (Roster.forwards self) -> ~ has (Roster.defensemen self) ->
           In p (Roster.goalies self)).
Proof.
  intros has. unfold Roster.get_player_by_id, Roster.all_players.
  set (f := fun player => Roster.player_id player =? id).
  assert (N : forall g, List.find f g = None <-> ~ has g).
  { intros g. split.
    - intros H (q & Hq & Hid). pose proof (find_none f g H q Hq) as F.
      unfold f in F. apply Z.eqb_neq in F. contradiction.
    - intros H. destruct (List.find f g) as [x|] eqn:E; [|reflexivity].
      apply find_some in E as [Hin Hx]. exfalso. apply H. exists x.
      split; [exact Hin|]. now apply Z.eqb_eq. }
  rewrite !find_app. split.
  - rewrite <- !N.
    destruct (List.find f (Roster.forwards self)); [split; [discriminate|intros [? _]; discriminate]|].
    destruct (List.find f (Roster.defensemen self)); [split; [discriminate|intros (_ & ? & _); discriminate]|].
    tauto.
  - intros p H.
    destruct (List.find f (Roster.forwards self)) as [x|] eqn:Ef.
    { injection H as ->. apply find_some in Ef as [Hin Hx]. apply Z.eqb_eq in Hx.
      split; [exact Hx|]. split; [auto|].
      assert (has (Roster.forwards self)) by (exists p; auto). tauto. }
    apply N in Ef.
    destruct (List.find f (Roster.defensemen self)) as [x|] eqn:Ed.
    { injection H as ->. apply find_some in Ed as [Hin Hx]. apply Z.eqb_eq in Hx.
      split; [exact Hx|]. split; [tauto|]. split; [auto|].
      assert (has (Roster.defensemen self)) by (exists p; auto). tauto. }
    apply N in Ed. apply find_some in H as [Hin Hx]. apply Z.eqb_eq in Hx.
    split; [exact Hx|]. tauto.
Qed.

End ModelProperties.

Lemma years_remaining_counts_season_starts_witness :
  let winter := DateTime 2025 2 1 8 0 0 0 in
  let autumn := DateTime 2025 11 3 20 15 0 0 in
  Models.Contract.years_remaining eight_years winter winter = 1%Z
  /\ Models.Contract.years_remaining eight_years autumn autumn = 0%Z.
Proof.
  intros winter autumn.
  destruct (years_remaining_counts_season_starts eight_years) as (_ & H & K).
  split.
  - apply (H winter 2025%Z "2026"); [lia | reflexivity].
  - apply (K autumn); [vm_compute; split; discriminate | reflexivity].
Defined.

(** ** The command [scrape-advanced] *)

Section AdvancedCommand.
Import MoneyPuck.
Variable utc : nat -> Z.
Variable _fetch_csv : nat -> string -> result (list dict).
Variable now : datetime.

Lemma upsert_advanced_stats_counts st stats :
  snd (upsert_advanced_stats utc st stats) = Z.of_nat (length (identified stats)).
Proof.
  pose proof (upsert_run utc repr0 AdvancedStats st stats _ eq_refl) as U.
  cbn [upsert] in U. injection U as ->.
  rewrite run_count. cbn [snd]. rewrite Z.add_0_l. f_equal. unfold identified.
  induction stats as [|s stats IH]; [reflexivity|].
  cbn [map List.filter]. unfold processed at 1. cbn [snd primary].
  destruct (truthy (get s "player_id")); cbn [length]; now rewrite IH.
Qed.

(** X28. The command prints the number of rows parsed, while the
    table receives only those whose player id is not 0.  The skaters
    are stored before the goalies are asked for: when the goalie
    scrape ends in an exception, the command ends in it with the
    skaters stored. *)
Theorem scrape_advanced_prints_rows_and_stores_ids season st :
  let skaters_line n := "  [green]✓ " +:+ str_of_int (Z.of_nat n) +:+ " skaters[/green]" in
  let goalies_line n := "  [green]✓ " +:+ str_of_int (Z.of_nat n) +:+ " goalies[/green]" in
  match scrape_skater_stats _fetch_csv now season "all" fresh with
  | (Raise e, w) =>
      Cli.scrape_advanced utc _fetch_csv now season st
      = Cli.Outcome ["[bold]Downloading MoneyPuck skater stats...[/bold]"] st w (Some e)
  | (Ok skaters, w) =>
      exists st1,
        upsert_advanced_stats utc st skaters
        = (st1, Z.of_nat (length (identified skaters)))
        /\ (length (identified skaters) <= length skaters)%nat
        /\ match scrape_goalie_stats _fetch_csv now season w with
           | (Raise e, w') =>
               Cli.scrape_advanced utc _fetch_csv now season st
               = Cli.Outcome
                   ["[bold]Downloading MoneyPuck skater stats...[/bold]";
                    skaters_line (length skaters);
                    "[bold]Downloading MoneyPuck goalie stats...[/bold]"]
                   st1 w' (Some e)
           | (Ok goalies, w') =>
               exists st2,
                 upsert_advanced_stats utc st1 goalies
                 = (st2, Z.of_nat (length (identified goalies)))
                 /\ (length (identified goalies) <= length goalies)%nat
                 /\ Cli.scrape_advanced utc _fetch_csv now season st
                    = Cli.Outcome
                        ["[bold]Downloading MoneyPuck skater stats...[/bold]";
                         skaters_line (length skaters);
                         "[bold]Downloading MoneyPuck goalie stats...[/bold]";
                         goalies_line (length goalies);
                         Cli.newline +:+ "[bold green]Advanced stats complete![/bold green]"]
                        st2 w' None
           end
  end.
Proof.
  intros skaters_line goalies_line. unfold Cli.scrape_advanced.
  destruct (scrape_skater_stats _fetch_csv now season "all" fresh) as [[skaters|e] w];
    [|reflexivity].
  pose proof (upsert_advanced_stats_counts st skaters) as C1.
  destruct (upsert_advanced_stats utc st skaters) as [st1 n1]. cbn [snd] in C1. subst n1.
  exists st1. split; [reflexivity|]. split; [apply List.filter_length_le|].
  destruct (scrape_goalie_stats _fetch_csv now season w) as [[goalies|e] w'];
    [|reflexivity].
  pose proof (upsert_advanced_stats_counts st1 goalies) as C2.
  destruct (upsert_advanced_stats utc st1 goalies) as [st2 n2]. cbn [snd] in C2. subst n2.
  exists st2. split; [reflexivity|]. split; [apply List.filter_length_le|]. reflexivity.
Qed.

End AdvancedCommand.
